(* ===== verification/_CoqProject ===== *)
-Q . S2P
Prelude.v
Chunker.v
VectorStore.v
Runtime.v
Config.v
Pipeline.v
Cache.v
App.v
ClientInvariant.v
Sessions.v
Orchestrator.v
Scenario.v
Failures.v
