(* ===== verification/Prelude.v ===== *)
(** * AskDoc-RAG: a verification development of [src/app.py]

    The program is one Streamlit script, [src/app.py], which answers
    questions about an uploaded PDF with retrieval-augmented generation.

    ** The program's parts and how they interact

    - Credential check (app.py lines 16-21): [load_dotenv], [os.getenv],
      [st.error] and [st.stop] before any page element.
    - Document processing (lines 24-61): [get_qa_chain_from_pdf] stages the
      upload in a named temporary file (lines 28-30, outside the [try]),
      loads it with [PyPDFLoader], splits the pages with
      [RecursiveCharacterTextSplitter(1000, 100)], embeds the chunks into a
      Chroma vector store and wraps a retriever and a Gemini chat model
      into a [RetrievalQA] "stuff" chain.  Every [Exception] of the [try]
      block is reported with [st.error] and turned into [None]; the
      [finally] block removes the temporary file.  The function is
      memoised by [@st.cache_resource].
    - The page (lines 63-95): every interaction reruns the script from the
      top.  It processes the upload when the session holds no [qa_chain]
      key or holds one for another file name, stores the result and the
      file name in [st.session_state], and answers a non-empty question
      with [qa_chain.run] (line 91).

    The parts share four pieces of state, all fields of the record
    [Runtime.World]: the file system (the temporary file), the process-wide
    Chroma client (its default collection ["langchain"]), the process-wide
    resource cache, and the per-user session state.  The Chroma client and
    the cache outlive a rerun and a session; a chain in the session or the
    cache names a collection of the shared client, so it reads whatever
    the collection holds when it runs (aliasing).

    ** Files, and how they correspond to the code

    - [Prelude] (this file): the Python effect monad [EST] (state kept
      across exceptions; [est_try_except] is [try/except], [est_finally]
      is [try/finally]), its notations in [py_scope], the invariant
      calculus [est_preserves] (hint database [py_pres], tactic
      [py_preserves]) and the exception calculus [est_raises_only]
      ([py_raises]), Python truthiness ([py_str_truthy],
      [py_opt_str_truthy]), and bytes as countable map keys.
    - [Chunker]: lines 36-37.  The splitter is library code, modelled from
      spec section 4.2 as a sliding window ([split_windows] on fuel,
      [split_text]); [chunk_size], [chunk_overlap] and [split_documents]
      are the code's.  The class [TextSplitter] states what the pipeline
      needs of a splitter; [line36_splitter] is its instance.
    - [VectorStore]: the shared client's collections ([get_or_create_collection],
      [collection_add]: entries are appended, never replaced) and the
      retriever's exact top-k search (spec section 4.4) by squared L2
      distance, ties in insertion order: a one-pass search
      [similarity_search] and the sort-then-take reference
      [similarity_search_ref].  The class [VectorIndex] with its laws
      [VectorIndexLaws] is what [qa_chain.run] relies on.
    - [Runtime]: exceptions ([Exn], [is_Exception] for [except Exception]),
      page elements, the chain record [QAChain], the external services
      (PDF parser, embedding API, chat API) as the class [Services], the
      session, the world record with its setters, and the primitives the
      script calls: [print], [os.path.exists], [os.remove], [f.write],
      [tempfile]'s [mkstemp] and [named_temporary_file_write].
    - [Config]: lines 16-21 ([check_api_key]).
    - [Pipeline]: lines 25-61 ([get_qa_chain_from_pdf], built from
      [pypdf_loader_load], [chroma_from_documents], [process_pdf],
      [report_error], [guarded_process_pdf], [remove_temp_file]) and line
      91 ([qa_chain_run]).
    - [Cache]: line 24 ([cache_resource], [cached_get_qa_chain_from_pdf]).
    - [App]: lines 63-95 ([page_header], [needs_processing],
      [store_result], [process_upload], [process_document],
      [handle_question], [app_body]), the whole script [app_script], the
      script runner's [rerun], the step relation [app_step] and
      [reachable].
    - [Orchestrator]: the state machine of spec section 4.6 ([Phase]
      [Idle]/[Ready], [spec_step], its successful fragment [spec_next],
      runs [spec_run]) and its abstraction of the session state
      ([phase_of]); the refinement of reruns whose services succeed, and
      of the failure edge; the staging error that leaves the machine.
    - [ClientInvariant]: properties of the entries of the shared Chroma
      client kept by every rerun, composed from the preservation lemmas
      of each layer ([cache_resource_preserves], [reachable_preserves]).
    - [Sessions]: a Streamlit server with several browser sessions
      ([serve]): per-session [st.session_state], process-wide cache,
      Chroma client, files and environment.
    - [Scenario]: the spec's main use end to end: an upload in a fresh
      process, then a question about the same file, composed from the
      lemmas of every layer ([rerun_first_upload], [rerun_question]).
    - [Failures]: the orchestrator whatever the services answer: every
      handled failure ends [Idle]; the staging of lines 28-30 is the one
      failure that escapes the [try] ([staging_ok], [rerun_step]).  The
      divergence it causes is proved in [Orchestrator], the recovery
      after a failed processing in [Scenario].

    ** What the theorems show (claims C1-C36)

    - Pipeline (C1, C2, C5, C6, C7): the temporary file is removed on
      every path once written (C1); exact results on success (C2) and on a
      parse error (C5); processing returns whenever a temporary name is
      free and the disk has room (C6); when the write fails the exception
      escapes and the file stays (C7, finding).
    - App and Cache (C3, C4, C8-C11, C22): the session invariant of every
      reachable world (C4, by induction on [rtc app_step]); a question
      after a failed processing crashes on [None.run] (C3, finding);
      same file name means nothing is processed (C8); chunks of earlier
      uploads stay searchable by every later chain (C9, finding); a
      failed processing is cached for the whole process: the same file
      (same name and bytes) gets [None] again after any reruns, even once
      the services work (C10, finding); a missing key shows one error and
      nothing else (C11); an error of the chat model ends the run with the
      exception and keeps the chain (C22).
    - Orchestrator (C12, C13): a rerun whose services succeed moves the
      session as the spec's state machine does and keeps the invariant
      (C12); a sequence of such reruns is a run of the spec and ends where
      the spec's run ends (C13).
    - Chunker (C14-C19): every chunk stays within one page (C14); for the
      line-36 splitter: reconstruction (C15), bounds (C16), full windows
      (C17), exact overlap (C18), number of windows (C19).
    - VectorStore (C20, C21, C26): the search returns [min k n] entries
      (C20), is an exact top-k (C21), and breaks ties by insertion order
      (C26).
    - Boundaries and composition (C23-C27): a PDF without a text layer
      ends in Chroma's [ValueError] on an empty id list, reported to the
      user (C23, finding); every entry of the shared client holds the
      embedding of its own text under the model queries use (C24, kind
      type); a rejected upload takes the spec's failure edge to [Idle]
      with the error shown (C25); the sessions of one server search each
      other's chunks (C27, finding).
    - Cache and temporary files (C28-C30): the cache round trip, a value
      stored by a call is returned and its elements shown again by the
      next call with the same key, without running the body (C28);
      [NamedTemporaryFile] takes the first free name of the sequence and
      overwrites no file (C29); the name search gives up after exactly its
      budget of taken names, [TMP_MAX] in the script (C30).
    - End to end (C31, C32): in a fresh process, an upload that parses and
      embeds followed by a question about it shows the success message,
      then the chat model's answer to the question with the [k = 4]
      chunks of that document nearest to it as the context, or the
      model's exception.  A document of at most [k] chunks is read whole:
      the context is a permutation of all its chunks (C32).
    - Any service behaviour (C33-C35): with the key set, every rerun whose
      upload can be staged takes a transition of the spec's state machine
      whatever the parser, the embedding API, Chroma, the chat model and
      the cache answer, and leaves the disk as it was (C33); a sequence of
      such reruns from a fresh process is a run of the machine from
      [Idle] (C35); a full disk while staging a new file keeps the old
      document [Ready], which is no transition of the spec (C34, finding).
    - Recovery (C36): after a failed processing the pipeline is [Idle]
      and an upload under another name that parses is processed and ends
      [Ready] (spec section 8's failure scenario).

    ** Bounds, fuel and modelling choices

    - Text is a list of characters ([ascii]); [chunk_size] and
      [chunk_overlap] count characters as Python's [len] does for them.
    - [split_text] runs [split_windows] on fuel [length text]: each window
      advances by [chunk_size - chunk_overlap = 900 >= 1] characters, so
      that many iterations suffice; [window_fuel_enough] proves that
      any larger fuel computes the same chunks.
    - [tempfile] tries [TMP_MAX] names before raising
      [FileExistsError], as CPython's [_mkstemp_inner] does, with
      [TMP_MAX = os.TMP_MAX = 238328] on glibc; a name is
      taken from a sequence [w_tmp_seq] standing for the random names.
      C30 is stated for any budget [n] so that its witness runs on a
      small disk; [named_temporary_file_write] calls it with [TMP_MAX].
    - The disk has [w_fs_free] bytes of room; a write beyond it raises
      [OSError] (ENOSPC) after the empty file was created.  A buffered
      write may instead fail when the file is closed and leave part of
      the bytes; either way the error escapes lines 28-30 and the file
      stays (C7).
    - The constructors of lines 39 and 46 ([GoogleGenerativeAIEmbeddings],
      [ChatGoogleGenerativeAI]) are taken not to raise; their failures
      surface in the calls that follow them, inside the same [try].
    - Embedding vectors are lists of integers ([Z]), so distances are
      exact; Chroma's HNSW index is approximate, the model searches
      exactly, as the spec asks.
    - The external services are functions returning [inr] a result or
      [inl] the message of the exception their library raises.
    - [st.cache_resource] is keyed as Streamlit's hasher keys an
      [UploadedFile] argument: by its name, its read position (always 0
      here: the script only calls [getvalue()]) and its bytes
      ([Cache.cache_key]); it stores the value returned, [None] included,
      with the elements emitted, replayed on a hit, and never removes an
      entry.
    - Embedding requests carry LangChain's task type: chunks are embedded
      as [RETRIEVAL_DOCUMENT], questions as [RETRIEVAL_QUERY]
      ([Runtime.EmbedTask]).

    ** Not modelled

    The imports (lines 1-13); page layout and styling (emoji, icons)
    beyond the elements' text, and the spinner [@st.cache_resource] shows
    by default while the decorated function runs.  The external services are third-party
    code the script only calls: they are the class [Services], and the
    theorems hold for every instance of it (C33-C35 for any answers at
    all), so what the script can observe of them is covered; their
    internals (network, authentication, quotas, the model's text, Chroma's
    approximate index) are not modelled.  Reruns of different sessions
    are interleaved whole ([Sessions]).  Streamlit runs them in threads
    of their own, and how two reruns interleave statement by statement
    (two uploads processed at once, the cache's locking) is a property
    of the Streamlit runtime that neither [src/app.py] nor the spec
    describes, so it is left out rather than guessed. *)

From stdpp Require Export base list gmap strings pretty.
From Stdlib Require Export Strings.Byte.
From Stdlib Require Strings.String.

(** ** Bytes as keys *)

#[export] Instance byte_eq_decision : EqDecision Byte.byte := Byte.byte_eq_dec.

#[export] Program Instance byte_countable : Countable Byte.byte :=
  inj_countable' Byte.to_nat (fun n => default Byte.x00 (Byte.of_nat n)) _.
Next Obligation. intros b. by destruct b. Qed.

(** ** The Python effect monad

    A Python statement reads and writes the world and may raise; the
    writes done before a [raise] survive it.  [EST E S A] is a state
    monad whose result is an exception or a value, with the state kept in
    both cases. *)

Definition EST (E S A : Type) : Type := S -> (E + A) * S.

Definition est_ret {E S A} (a : A) : EST E S A := fun s => (inr a, s).

Definition est_bind {E S A B} (m : EST E S A) (k : A -> EST E S B) : EST E S B :=
  fun s => match m s with
           | (inl e, s') => (inl e, s')
           | (inr a, s') => k a s'
           end.

Definition est_raise {E S A} (e : E) : EST E S A := fun s => (inl e, s).

Definition est_get {E S} : EST E S S := fun s => (inr s, s).

Definition est_modify {E S} (f : S -> S) : EST E S unit := fun s => (inr tt, f s).

(** [try: m except (e if catchable e): h e] *)
Definition est_try_except {E S A} (catchable : E -> bool) (m : EST E S A)
    (h : E -> EST E S A) : EST E S A :=
  fun s => match m s with
           | (inl e, s') => if catchable e then h e s' else (inl e, s')
           | r => r
           end.

(** [try: m finally: fin]: [fin] runs on both exits; an exception of
    [fin] replaces the outcome of [m]. *)
Definition est_finally {E S A} (m : EST E S A) (fin : EST E S unit) : EST E S A :=
  fun s => let '(r, s1) := m s in
           match fin s1 with
           | (inl e, s2) => (inl e, s2)
           | (inr _, s2) => (r, s2)
           end.

(** An optional service answer as a Python call that raises on failure. *)
Definition est_of_option {E S A} (e : E) (o : option A) : EST E S A :=
  match o with Some a => est_ret a | None => est_raise e end.

Arguments est_ret {E S A} a s /.
Arguments est_bind {E S A B} m k s /.
Arguments est_raise {E S A} e s /.
Arguments est_get {E S} s /.
Arguments est_modify {E S} f s /.
Arguments est_try_except {E S A} catchable m h s /.
Arguments est_finally {E S A} m fin s /.

Declare Scope py_scope.
Delimit Scope py_scope with py.
Notation "x <- c1 ;; c2" := (est_bind c1 (fun x => c2))
  (at level 100, c1 at next level, right associativity) : py_scope.
Notation "c1 ;; c2" := (est_bind c1 (fun _ => c2))
  (at level 100, right associativity) : py_scope.

(** Unfold the monad's combinators and compute. *)
Ltac py_simp :=
  cbn [est_bind est_ret est_raise est_get est_modify est_try_except
       est_finally est_of_option fst snd] in *.

(** ** Running a bind *)

Section Run.
Context {E S A B : Type}.

Lemma est_bind_ok (m : EST E S A) (k : A -> EST E S B) s a s' :
  m s = (inr a, s') -> est_bind m k s = k a s'.
Proof. unfold est_bind. by intros ->. Qed.

Lemma est_bind_err (m : EST E S A) (k : A -> EST E S B) s e s' :
  m s = (inl e, s') -> est_bind m k s = (inl e, s').
Proof. unfold est_bind. by intros ->. Qed.

Lemma est_bind_assoc {C} (m : EST E S A) (k : A -> EST E S B)
    (k' : B -> EST E S C) s :
  est_bind (est_bind m k) k' s = est_bind m (fun a => est_bind (k a) k') s.
Proof. unfold est_bind. by destruct (m s) as [[e|a] s']. Qed.
End Run.

(** ** Invariants of effectful code

    [est_preserves P m]: from a state satisfying [P], [m] ends in a state
    satisfying [P], whether it returns or raises.  The lemmas below make
    the predicate compositional; [py_pres] proves it for a program built
    from primitives that preserve [P]. *)

Definition est_preserves {E S A} (P : S -> Prop) (m : EST E S A) : Prop :=
  forall s, P s -> P (snd (m s)).

Section Preserves.
Context {E S : Type} (P : S -> Prop).

Lemma pres_ret {A} (a : A) : est_preserves (E:=E) P (est_ret a).
Proof. by intros s. Qed.

Lemma pres_raise {A} (e : E) : est_preserves (A:=A) P (est_raise e).
Proof. by intros s. Qed.

Lemma pres_get : est_preserves (E:=E) P est_get.
Proof. by intros s. Qed.

Lemma pres_modify (f : S -> S) :
  (forall s, P s -> P (f s)) -> est_preserves (E:=E) P (est_modify f).
Proof. intros Hf s. apply Hf. Qed.

Lemma pres_bind {A B} (m : EST E S A) (k : A -> EST E S B) :
  est_preserves P m -> (forall a, est_preserves P (k a)) ->
  est_preserves P (est_bind m k).
Proof.
  intros Hm Hk s Hs. unfold est_bind.
  specialize (Hm s Hs). destruct (m s) as [[e|a] s']; [done|]. by apply Hk.
Qed.

Lemma pres_of_option {A} (e : E) (o : option A) :
  est_preserves P (est_of_option e o).
Proof. destruct o; [apply pres_ret | apply pres_raise]. Qed.

Lemma pres_try_except {A} c (m : EST E S A) h :
  est_preserves P m -> (forall e, est_preserves P (h e)) ->
  est_preserves P (est_try_except c m h).
Proof.
  intros Hm Hh s Hs. unfold est_try_except.
  specialize (Hm s Hs). destruct (m s) as [[e|a] s']; [|done].
  destruct (c e); [by apply Hh|done].
Qed.

Lemma pres_finally {A} (m : EST E S A) fin :
  est_preserves P m -> est_preserves P fin ->
  est_preserves P (est_finally m fin).
Proof.
  intros Hm Hf s Hs. unfold est_finally.
  specialize (Hm s Hs). destruct (m s) as [r s1].
  specialize (Hf s1 Hm). by destruct (fin s1) as [[e|u] s2].
Qed.

Lemma pres_if {A} (b : bool) (m1 m2 : EST E S A) :
  est_preserves P m1 -> est_preserves P m2 ->
  est_preserves P (if b then m1 else m2).
Proof. by destruct b. Qed.
End Preserves.

Create HintDb py_pres.
#[export] Hint Resolve pres_ret pres_raise pres_get pres_of_option : py_pres.

(** One step of an invariant proof: split a program along its
    combinators; an [est_modify] leaves the update's obligation. *)
Ltac py_pres_step :=
  match goal with
  | |- est_preserves _ (est_bind _ _) => apply pres_bind; [|intro]
  | |- est_preserves _ (est_try_except _ _ _) => apply pres_try_except; [|intro]
  | |- est_preserves _ (est_finally _ _) => apply pres_finally
  | |- est_preserves _ (est_modify _) => apply pres_modify; intros ? ?
  | |- est_preserves _ (match ?x with _ => _ end) => destruct x
  end.

(** Prove that a program preserves a predicate: split it, close the
    leaves from [py_pres], and the updates by conversion. *)
Ltac py_preserves :=
  first [ py_pres_step; py_preserves
        | solve [eauto with py_pres]
        | assumption
        | idtac ].

(** ** Which exceptions a program raises

    [est_raises_only P m]: every exception [m] raises satisfies [P]. *)

Definition est_raises_only {E S A} (P : E -> Prop) (m : EST E S A) : Prop :=
  forall s e s', m s = (inl e, s') -> P e.

Section Raises.
Context {E S : Type} (P : E -> Prop).

Lemma raises_ret {A} (a : A) : est_raises_only (S:=S) P (est_ret a).
Proof. by intros s e s'. Qed.

Lemma raises_raise {A} (e : E) : P e -> est_raises_only (S:=S) (A:=A) P (est_raise e).
Proof. intros He s e' s' [= <- _]. done. Qed.

Lemma raises_get : est_raises_only (S:=S) P est_get.
Proof. by intros s e s'. Qed.

Lemma raises_modify (f : S -> S) : est_raises_only P (est_modify f).
Proof. by intros s e s'. Qed.

Lemma raises_bind {A B} (m : EST E S A) (k : A -> EST E S B) :
  est_raises_only P m -> (forall a, est_raises_only P (k a)) ->
  est_raises_only P (est_bind m k).
Proof.
  intros Hm Hk s e s'. unfold est_bind.
  destruct (m s) as [[e0|a] s0] eqn:E0; [intros [= <- _]; by eapply Hm|]. apply Hk.
Qed.
End Raises.

Create HintDb py_raises.
#[export] Hint Resolve raises_ret raises_get raises_modify : py_raises.

Ltac py_raises_step :=
  match goal with
  | |- est_raises_only _ (est_bind _ _) => apply raises_bind; [|intro]
  | |- est_raises_only _ (est_raise _) => apply raises_raise
  | |- est_raises_only _ (match ?x with _ => _ end) => destruct x
  end.

(** Prove which exceptions a program raises: split it, close the leaves
    from [py_raises], and each raised exception by computation. *)
Ltac py_raises :=
  first [ py_raises_step; py_raises
        | solve [eauto with py_raises]
        | reflexivity
        | idtac ].

(** ** Python truthiness and strings *)

(** [bool(s)] for a [str]: the empty string is falsy. *)
Definition py_str_truthy (s : string) : bool :=
  match s with EmptyString => false | _ => true end.

(** [bool(x)] for an [Optional[str]]: [None] and [""] are falsy. *)
Definition py_opt_str_truthy (o : option string) : bool :=
  match o with Some s => py_str_truthy s | None => false end.

(** The newline character, for string literals with [\n]. *)
Definition nl : string := String (Ascii.Ascii false true false true false false false false) EmptyString.

(** ** Lists *)

Lemma elem_of_take_drop {A} (x : A) (l : list A) n :
  x ∈ l <-> x ∈ take n l \/ x ∈ drop n l.
Proof. rewrite <- (take_drop n l) at 1. by rewrite elem_of_app. Qed.

Lemma elem_of_concat {A} (x : A) (ls : list (list A)) :
  x ∈ concat ls <-> exists l, l ∈ ls /\ x ∈ l.
Proof. rewrite list_elem_of_In, in_concat. by setoid_rewrite list_elem_of_In. Qed.

Lemma elem_of_map {A B} (f : A -> B) (l : list A) (y : B) :
  y ∈ map f l <-> exists x, y = f x /\ x ∈ l.
Proof. apply list_elem_of_fmap. Qed.

(** Close a decidable proposition about closed terms by evaluation. *)
Ltac decide_by_eval := apply (bool_decide_unpack _); vm_compute; exact I.
