(* ===== verification/Chunker.v ===== *)
(** * Chunker: the text splitter of app.py lines 36-37

    [RecursiveCharacterTextSplitter(chunk_size=1000, chunk_overlap=100)]
    and its [split_documents] call.  The splitter is library code; its
    window behaviour is modelled from the spec (section 4.2): a window of
    [chunk_size] characters slides over the text, advancing by
    [chunk_size - chunk_overlap], until a window reaches the end.
    [split_documents] splits every page on its own and copies the page's
    metadata onto each chunk.

    The recursion advances by a non-structural step, so it runs on fuel
    ([split_windows]); [split_text] gives it the fuel [length text], and
    [window_fuel_enough] proves that any larger fuel computes the same
    chunks.  The equations [split_text_nil], [split_text_short] and
    [split_text_long] and the induction principle [split_text_rect] carry
    every later proof. *)

From S2P Require Import Prelude.

(** ** The sliding window *)

Section Window.
Context {A : Type}.

Fixpoint split_windows (fuel cs step : nat) (l : list A) : list (list A) :=
  match fuel with
  | O => []
  | S fuel' =>
      match l with
      | [] => []
      | _ :: _ =>
          if length l <=? cs then [l]
          else take cs l :: split_windows fuel' cs step (drop step l)
      end
  end.

(** [text_splitter.split_text(text)] *)
Definition split_text (cs ov : nat) (l : list A) : list (list A) :=
  split_windows (length l) cs (cs - ov) l.

(** Undo the overlap: the first chunk whole, then each later chunk
    without its first [ov] characters. *)
Definition join_chunks (ov : nat) (chunks : list (list A)) : list A :=
  match chunks with
  | [] => []
  | c :: rest => c ++ concat (map (drop ov) rest)
  end.
End Window.

(** [c] is the substring of [l] that starts at some index [i]. *)
Definition substring_of {A} (c l : list A) : Prop :=
  exists i, c = take (length c) (drop i l).

(** ** Pages and chunks *)

(** A langchain [Document] as [PyPDFLoader] makes it: the page text and
    the metadata [{"source": path, "page": i}]. *)
Record Document := mkDocument {
  page_content : string;
  metadata_source : string;
  metadata_page : nat
}.

#[export] Instance Document_eq_dec : EqDecision Document.
Proof. solve_decision. Defined.

(** The characters of a Python [str]. *)
Abbreviation chars := String.list_ascii_of_string.

(** A splitter on characters, run on a Python [str]. *)
Definition lift_splitter (split : list Ascii.ascii -> list (list Ascii.ascii))
    (s : string) : list string :=
  map String.string_of_list_ascii (split (chars s)).

(** [split_text] on a Python [str]. *)
Definition split_text_str (cs ov : nat) : string -> list string :=
  lift_splitter (split_text cs ov).

(** The chunks of one page, each with a copy of the page's metadata. *)
Definition split_page (split : string -> list string) (d : Document) : list Document :=
  map (fun c => mkDocument c (metadata_source d) (metadata_page d)) (split (page_content d)).

(** [split_documents(docs)]: each page is split on its own. *)
Definition split_documents_with (split : string -> list string)
    (docs : list Document) : list Document :=
  concat (map (split_page split) docs).

(** The constants of line 36. *)
Definition chunk_size : nat := 1000.
Definition chunk_overlap : nat := 100.

(** Line 37: [splits = text_splitter.split_documents(docs)]. *)
Definition split_documents (docs : list Document) : list Document :=
  split_documents_with (split_text_str chunk_size chunk_overlap) docs.

(** ** Equations of the splitter *)

Section WindowTheory.
Context {A : Type} (cs ov : nat).
Hypothesis Hov : ov < cs.

Let step := cs - ov.

(** Fuel: any fuel at least the text's length gives the same chunks. *)
Lemma split_windows_fuel fuel1 fuel2 (l : list A) :
  length l <= fuel1 -> length l <= fuel2 ->
  split_windows fuel1 cs step l = split_windows fuel2 cs step l.
Proof.
  revert fuel2 l. induction fuel1 as [|f1 IH]; intros [|f2] l H1 H2.
  - done.
  - destruct l; [done|simpl in H1; lia].
  - destruct l; [done|simpl in H2; lia].
  - destruct l as [|x l]; [done|]. cbn [split_windows].
    destruct (length (x :: l) <=? cs) eqn:E; [done|].
    apply Nat.leb_gt in E. f_equal. apply IH; rewrite length_drop; lia.
Qed.

Lemma split_text_nil : split_text cs ov (@nil A) = [].
Proof. done. Qed.

(** One step of the loop on a non-empty text. *)
Lemma split_text_step (l : list A) :
  l <> [] ->
  split_text cs ov l =
    if length l <=? cs then [l]
    else take cs l :: split_windows (pred (length l)) cs step (drop step l).
Proof. intros Hne. destruct l as [|x l']; done. Qed.

Lemma split_text_short (l : list A) :
  l <> [] -> length l <= cs -> split_text cs ov l = [l].
Proof.
  intros Hne Hle. rewrite split_text_step by done.
  by rewrite (proj2 (Nat.leb_le _ cs) Hle).
Qed.

Lemma split_text_long (l : list A) :
  cs < length l ->
  split_text cs ov l = take cs l :: split_text cs ov (drop step l).
Proof.
  intros Hlt. rewrite split_text_step by (intros ->; simpl in Hlt; lia).
  rewrite (proj2 (Nat.leb_gt _ cs) Hlt). f_equal.
  apply split_windows_fuel; rewrite length_drop; lia.
Qed.

(** Induction following the splitter's three cases. *)
Lemma split_text_rect (P : list A -> Prop) :
  P [] ->
  (forall l, l <> [] -> length l <= cs -> P l) ->
  (forall l, cs < length l -> P (drop step l) -> P l) ->
  forall l, P l.
Proof.
  intros Hnil Hshort Hlong l. induction l as [l IH] using (induction_ltof1 _ (@length A)).
  destruct (decide (l = [])) as [->|Hne]; [done|].
  destruct (decide (length l <= cs)); [by apply Hshort|].
  apply Hlong; [lia|]. apply IH. unfold ltof. rewrite length_drop.
  destruct l; [done|simpl in *; lia].
Qed.

(** Dropping the overlap of every chunk leaves the text without its
    first [ov] characters. *)
Lemma split_text_concat_drop (l : list A) :
  concat (map (drop ov) (split_text cs ov l)) = drop ov l.
Proof.
  induction l as [| l Hne Hle | l Hlt IH] using split_text_rect.
  - by rewrite split_text_nil, drop_nil.
  - rewrite split_text_short by done. simpl. by rewrite app_nil_r.
  - rewrite split_text_long by done. cbn [map concat]. rewrite IH, drop_drop.
    replace (step + ov) with cs by (unfold step; lia).
    apply drop_take_drop. lia.
Qed.

Lemma split_text_head (l : list A) c :
  split_text cs ov l !! 0 = Some c -> c = take cs l.
Proof.
  induction l as [| l Hne Hle | l Hlt _] using split_text_rect.
  - done.
  - rewrite split_text_short by done. intros [= <-]. by rewrite take_ge.
  - rewrite split_text_long by done. by intros [= <-].
Qed.

(** The chunks without their first [ov] characters (the first chunk
    whole) concatenate back to the text. *)
Lemma window_join (l : list A) :
  join_chunks ov (split_text cs ov l) = l.
Proof.
  induction l as [| l Hne Hle | l Hlt _] using split_text_rect.
  - done.
  - rewrite split_text_short by done. apply app_nil_r.
  - rewrite split_text_long by done. cbn [join_chunks].
    rewrite split_text_concat_drop, drop_drop.
    replace (step + ov) with cs by (unfold step; lia). apply take_drop.
Qed.

(** No chunk is empty and none is longer than [cs]. *)
Lemma window_chunk_bounds (l : list A) c :
  c ∈ split_text cs ov l -> 0 < length c <= cs.
Proof.
  induction l as [| l Hne Hle | l Hlt IH] using split_text_rect.
  - by rewrite split_text_nil, elem_of_nil.
  - rewrite split_text_short by done. intros ->%list_elem_of_singleton.
    destruct l; [done|simpl in *; lia].
  - rewrite split_text_long by done. intros [->|Hin]%elem_of_cons; [|by apply IH].
    rewrite length_take. lia.
Qed.

(** Every chunk but the last is a full window of [cs]. *)
Lemma window_full_windows (l : list A) i c :
  split_text cs ov l !! i = Some c -> S i < length (split_text cs ov l) ->
  length c = cs.
Proof.
  revert i. induction l as [| l Hne Hle | l Hlt IH] using split_text_rect; intros i.
  - done.
  - rewrite split_text_short by done. simpl. lia.
  - rewrite split_text_long by done. destruct i as [|i].
    + intros [= <-] _. rewrite length_take. lia.
    + simpl. intros Hi Hlen. apply (IH i); [done|lia].
Qed.

(** The last [ov] characters of a chunk open the next one. *)
Lemma window_overlap (l : list A) i c1 c2 :
  split_text cs ov l !! i = Some c1 -> split_text cs ov l !! S i = Some c2 ->
  length c1 = cs /\ drop (cs - ov) c1 = take ov c2 /\ ov < length c2.
Proof.
  revert i. induction l as [| l Hne Hle | l Hlt IH] using split_text_rect; intros i.
  - done.
  - rewrite split_text_short by done. by destruct i.
  - rewrite split_text_long by done. destruct i as [|i]; [|apply IH].
    intros [= <-] H2. cbn in H2. apply split_text_head in H2 as ->.
    split; [rewrite length_take; lia|]. split.
    + rewrite skipn_firstn_comm, take_take. fold step. f_equal; lia.
    + rewrite length_take, length_drop. lia.
Qed.

(** Any fuel of at least the text's length gives the chunks. *)
Lemma window_fuel_enough fuel (l : list A) :
  length l <= fuel -> split_windows fuel cs (cs - ov) l = split_text cs ov l.
Proof. intros H. by apply split_windows_fuel. Qed.

(** The number of windows of a text longer than [cs]. *)
Lemma window_count (l : list A) :
  cs < length l ->
  cs + (length (split_text cs ov l) - 2) * (cs - ov) < length l <=
  cs + (length (split_text cs ov l) - 1) * (cs - ov).
Proof.
  induction l as [| l Hne Hle | l Hlt IH] using split_text_rect; [simpl; lia|lia|].
  intros _. rewrite split_text_long by done. cbn [length].
  rewrite length_drop in IH. fold step.
  destruct (decide (cs < length l - step)) as [Hgt|Hle].
  - specialize (IH Hgt). destruct (length (split_text cs ov (drop step l))); nia.
  - rewrite split_text_short; [simpl; unfold step in *; lia| |rewrite length_drop; lia].
    intros Hnil. apply (f_equal length) in Hnil. rewrite length_drop in Hnil.
    simpl in Hnil. unfold step in *. lia.
Qed.

(** Every chunk is a substring of the text. *)
Lemma split_text_substring (l : list A) c :
  c ∈ split_text cs ov l -> substring_of c l.
Proof.
  induction l as [| l Hne Hle | l Hlt IH] using split_text_rect.
  - by rewrite split_text_nil, elem_of_nil.
  - rewrite split_text_short by done. intros ->%list_elem_of_singleton.
    exists 0. by rewrite drop_0, take_ge.
  - rewrite split_text_long by done. intros [->|Hin]%elem_of_cons.
    + exists 0. rewrite drop_0, length_take. f_equal. lia.
    + destruct (IH Hin) as [i Hi]. exists (step + i). by rewrite <- drop_drop.
Qed.
End WindowTheory.

(** ** The splitter interface

    What the rest of the pipeline relies on from a text splitter: the
    chunks give back the text once the overlap is removed, every chunk is
    a substring of the text, and no chunk is empty. *)

Class TextSplitter {A} (split : list A -> list (list A)) (ov : nat) : Prop := {
  splitter_join l : join_chunks ov (split l) = l;
  splitter_substring l c : c ∈ split l -> substring_of c l;
  splitter_nonempty l c : c ∈ split l -> c <> []
}.

Lemma sliding_window_splitter {A} cs ov :
  ov < cs -> TextSplitter (@split_text A cs ov) ov.
Proof.
  intros Hov. split.
  - apply window_join; done.
  - apply split_text_substring; done.
  - intros l c Hc ->. apply window_chunk_bounds in Hc; [simpl in Hc; lia|done].
Qed.

(** The splitter built at line 36. *)
#[export] Instance line36_splitter {A} :
  TextSplitter (@split_text A chunk_size chunk_overlap) chunk_overlap.
Proof. apply sliding_window_splitter. unfold chunk_size, chunk_overlap. lia. Qed.

(** The window of line 36 is well formed: the overlap is smaller than
    the chunk. *)
Lemma line36_window : chunk_overlap < chunk_size.
Proof. unfold chunk_size, chunk_overlap. lia. Qed.

(** ** The splitter of line 36 *)

Section Line36.
Context {A : Type}.

(** C15. Roundtrip: the chunks of the line-36 splitter, each without
    the [chunk_overlap] = 100 characters it repeats from the chunk
    before, concatenate back to the text; no character is lost or
    duplicated. *)
Theorem split_text_join (l : list A) :
  join_chunks chunk_overlap (split_text chunk_size chunk_overlap l) = l.
Proof. apply window_join, line36_window. Qed.

(** C16. Bounds: no chunk of the line-36 splitter is empty and none is
    longer than [chunk_size] = 1000 characters. *)
Theorem split_text_chunk_bounds (l : list A) c :
  c ∈ split_text chunk_size chunk_overlap l -> 0 < length c <= chunk_size.
Proof. apply window_chunk_bounds, line36_window. Qed.

(** C17. Every chunk but the last is a full window of [chunk_size]
    characters. *)
Theorem split_text_full_windows (l : list A) i c :
  split_text chunk_size chunk_overlap l !! i = Some c ->
  S i < length (split_text chunk_size chunk_overlap l) ->
  length c = chunk_size.
Proof. apply window_full_windows, line36_window. Qed.

(** C18. Consecutive chunks overlap by exactly [chunk_overlap]
    characters: the last 100 characters of a chunk are the first 100 of
    the next, and the next chunk is longer than the overlap. *)
Theorem split_text_overlap (l : list A) i c1 c2 :
  split_text chunk_size chunk_overlap l !! i = Some c1 ->
  split_text chunk_size chunk_overlap l !! S i = Some c2 ->
  length c1 = chunk_size /\ drop (chunk_size - chunk_overlap) c1 = take chunk_overlap c2 /\
  chunk_overlap < length c2.
Proof. apply window_overlap, line36_window. Qed.

(** C19. Number of chunks: a text longer than [chunk_size] gives [k]
    windows, where the [k]-th window, starting at [(k-1) * 900], is the
    first that reaches the end of the text. *)
Theorem split_text_count (l : list A) :
  chunk_size < length l ->
  chunk_size + (length (split_text chunk_size chunk_overlap l) - 2) * (chunk_size - chunk_overlap)
    < length l <=
  chunk_size + (length (split_text chunk_size chunk_overlap l) - 1) * (chunk_size - chunk_overlap).
Proof. apply window_count, line36_window. Qed.
End Line36.

(** ** [split_documents] against the interface *)

Section SplitDocuments.
Context (split : list Ascii.ascii -> list (list Ascii.ascii)) (ov : nat).
Context `{!TextSplitter split ov}.

Lemma split_page_join d :
  join_chunks ov (map (fun c => chars (page_content c)) (split_page (lift_splitter split) d))
  = chars (page_content d).
Proof.
  unfold split_page, lift_splitter. rewrite !map_map. cbn [page_content].
  rewrite (map_ext _ id); [rewrite map_id; apply splitter_join|].
  intros c. apply String.list_ascii_of_string_of_list_ascii.
Qed.

Lemma split_page_chunk d c :
  c ∈ split_page (lift_splitter split) d ->
  metadata_source c = metadata_source d /\ metadata_page c = metadata_page d /\
  substring_of (chars (page_content c)) (chars (page_content d)) /\
  page_content c <> EmptyString.
Proof.
  unfold split_page, lift_splitter. rewrite elem_of_map.
  intros (s & -> & (c' & -> & Hc')%elem_of_map). cbn.
  rewrite String.list_ascii_of_string_of_list_ascii.
  split; [done|]. split; [done|]. split; [by eapply splitter_substring|].
  intros Hs. apply (splitter_nonempty _ _ Hc').
  rewrite <- (String.list_ascii_of_string_of_list_ascii c'), Hs. done.
Qed.
End SplitDocuments.

(** C14. Every chunk [split_documents] makes (line 37) carries the
    metadata of one page and its text is a non-empty substring of that
    page's text: a chunk never spans a page boundary. *)
Theorem split_documents_within_page docs c :
  c ∈ split_documents docs ->
  exists d, d ∈ docs /\ metadata_source c = metadata_source d /\
    metadata_page c = metadata_page d /\
    substring_of (chars (page_content c)) (chars (page_content d)) /\
    page_content c <> EmptyString.
Proof.
  unfold split_documents, split_documents_with, split_text_str.
  intros (cs & (d & -> & Hd)%elem_of_map & Hc)%elem_of_concat.
  exists d. split; [done|]. eapply split_page_chunk; [apply line36_splitter|done].
Qed.

(** ** Empty and non-empty pages *)

Lemma split_text_nonempty {A} cs ov (l : list A) :
  l <> [] -> split_text cs ov l <> [].
Proof.
  destruct l as [|x l]; [done|]. intros _. unfold split_text. cbn [length split_windows].
  by destruct (_ <=? _).
Qed.

(** A page with text gives a chunk. *)
Lemma split_documents_nonempty (g : nat -> string -> Document) pages :
  (forall i t, page_content (g i t) = t) ->
  Exists (fun t => t <> EmptyString) pages -> split_documents (imap g pages) <> [].
Proof.
  revert g. induction pages as [|t pages IH]; intros g Hg Hex; [by inversion Hex|].
  unfold split_documents, split_documents_with in *. rewrite imap_cons. cbn [map concat].
  inversion Hex as [? ? Ht|? ? Hex']; subst.
  - unfold split_page, split_text_str, lift_splitter. rewrite Hg.
    destruct (split_text chunk_size chunk_overlap (chars t)) eqn:E; [|done].
    exfalso. revert E. apply split_text_nonempty. by destruct t.
  - intros [_ Hnil]%app_eq_nil. revert Hnil. apply (IH (fun i => g (S i))); [|done].
    intros i t'. apply Hg.
Qed.

(** Pages without text give no chunk. *)
Lemma split_documents_no_text (g : nat -> string -> Document) pages :
  (forall i t, page_content (g i t) = t) ->
  Forall (fun t => t = EmptyString) pages -> split_documents (imap g pages) = [].
Proof.
  revert g. induction pages as [|t pages IH]; intros g Hg Hall; [done|].
  inversion Hall as [|? ? -> Hall']; subst.
  unfold split_documents, split_documents_with in *. rewrite imap_cons. cbn [map concat].
  unfold split_page at 1, split_text_str, lift_splitter. rewrite Hg. cbn.
  apply (IH (fun i => g (S i))); [|done]. intros i t'. apply Hg.
Qed.

(** ** Witnesses

    The theorems of the line-36 splitter on a text of 1500 characters and
    on a one-page document. *)

(** A text of 1500 characters: two windows, [0..999] and [900..1499]. *)
Definition demo_long : list nat := seq 0 1500.

Lemma split_text_chunk_bounds_witness :
  take chunk_size demo_long ∈ split_text chunk_size chunk_overlap demo_long /\
  0 < length (take chunk_size demo_long) <= chunk_size.
Proof.
  assert (Hin : take chunk_size demo_long ∈ split_text chunk_size chunk_overlap demo_long)
    by decide_by_eval.
  split; [exact Hin | exact (split_text_chunk_bounds demo_long _ Hin)].
Defined.

Lemma split_text_full_windows_witness :
  split_text chunk_size chunk_overlap demo_long !! 0 = Some (take chunk_size demo_long) /\
  1 < length (split_text chunk_size chunk_overlap demo_long) /\
  length (take chunk_size demo_long) = chunk_size.
Proof.
  assert (H1 : split_text chunk_size chunk_overlap demo_long !! 0 = Some (take chunk_size demo_long))
    by (vm_compute; reflexivity).
  assert (H2 : 1 < length (split_text chunk_size chunk_overlap demo_long)) by decide_by_eval.
  split; [exact H1|]. split; [exact H2|]. exact (split_text_full_windows demo_long 0 _ H1 H2).
Defined.

Lemma split_text_overlap_witness :
  split_text chunk_size chunk_overlap demo_long !! 0 = Some (take chunk_size demo_long) /\
  split_text chunk_size chunk_overlap demo_long !! 1 = Some (drop 900 demo_long) /\
  length (take chunk_size demo_long) = chunk_size /\
  drop (chunk_size - chunk_overlap) (take chunk_size demo_long) =
    take chunk_overlap (drop 900 demo_long) /\
  chunk_overlap < length (drop 900 demo_long).
Proof.
  assert (H1 : split_text chunk_size chunk_overlap demo_long !! 0 = Some (take chunk_size demo_long))
    by (vm_compute; reflexivity).
  assert (H2 : split_text chunk_size chunk_overlap demo_long !! 1 = Some (drop 900 demo_long))
    by (vm_compute; reflexivity).
  split; [exact H1|]. split; [exact H2|]. exact (split_text_overlap demo_long 0 _ _ H1 H2).
Defined.

Lemma split_text_count_witness :
  chunk_size < length demo_long /\
  chunk_size + (length (split_text chunk_size chunk_overlap demo_long) - 2) * (chunk_size - chunk_overlap)
    < length demo_long <=
  chunk_size + (length (split_text chunk_size chunk_overlap demo_long) - 1) * (chunk_size - chunk_overlap).
Proof.
  assert (H : chunk_size < length demo_long) by decide_by_eval.
  split; [exact H | exact (split_text_count demo_long H)].
Defined.

Definition demo_page : Document := mkDocument "Paris" "/tmp/tmp0.pdf" 1.

Lemma split_documents_within_page_witness :
  demo_page ∈ split_documents [demo_page] /\
  exists d, d ∈ [demo_page] /\ metadata_source demo_page = metadata_source d /\
    metadata_page demo_page = metadata_page d /\
    substring_of (chars (page_content demo_page)) (chars (page_content d)) /\
    page_content demo_page <> EmptyString.
Proof.
  assert (Hin : demo_page ∈ split_documents [demo_page]) by decide_by_eval.
  split; [exact Hin | apply split_documents_within_page, Hin].
Defined.
