(* ===== verification/VectorStore.v ===== *)
(** * VectorStore: the Chroma store of app.py lines 41 and 43

    [Chroma.from_documents(documents=splits, embedding=embeddings)] (line
    41) asks the in-process Chroma client for the collection named
    ["langchain"] (created when absent) and adds one entry per chunk: the
    chunk and its embedding.  The client is shared by the whole process, so
    the collection keeps the entries of every earlier call.
    [vectorstore.as_retriever()] (line 43) searches that collection for
    the [k = 4] entries nearest to the query's embedding.

    The search is modelled from the spec (section 4.4) as an exact top-k by
    Chroma's default distance (squared L2), ties kept in insertion order:
    [similarity_search_ref] sorts by a stable insertion sort and takes
    [k]; [similarity_search] keeps a buffer of at most [k] entries in one
    pass.  [search_eq_ref] proves them equal; the theorems on the
    result are proved on the reference and carried over. *)

From S2P Require Import Prelude Chunker.
From Stdlib Require Import Sorted.

(** ** Data *)

(** One record of a collection: the chunk and its embedding. *)
Record Entry := mkEntry {
  entry_doc : Document;
  entry_vec : list Z
}.

#[export] Instance Entry_eq_dec : EqDecision Entry.
Proof. solve_decision. Defined.

(** Chroma's default space ["l2"]: the squared Euclidean distance.  Vectors
    of one embedding model have one dimension; the sum runs over the
    common prefix. *)
Fixpoint sq_l2 (u v : list Z) : Z :=
  match u, v with
  | x :: u', y :: v' => ((x - y) * (x - y) + sq_l2 u' v')%Z
  | _, _ => 0%Z
  end.

(** ** The in-process client *)

(** The collection name [Chroma] uses when none is given. *)
Definition default_collection_name : string := "langchain".

(** [client.get_or_create_collection(name)] *)
Definition get_or_create_collection (name : string)
    (client : gmap string (list Entry)) : gmap string (list Entry) :=
  match client !! name with
  | Some _ => client
  | None => <[name := []]> client
  end.

(** The entries of a collection ([[]] when it does not exist). *)
Definition collection_entries (name : string) (client : gmap string (list Entry))
    : list Entry :=
  default [] (client !! name).

(** [collection.upsert(...)] with fresh ids: the entries go at the end. *)
Definition collection_add (name : string) (es : list Entry)
    (client : gmap string (list Entry)) : gmap string (list Entry) :=
  <[name := collection_entries name client ++ es]> client.

(** [as_retriever()] searches with langchain's default [k]. *)
Definition retriever_k : nat := 4.

(** ** Search *)

Section Search.
Context (q : list Z).

Definition dist (e : Entry) : Z := sq_l2 q (entry_vec e).

(** Insert after every entry that is not farther: ties stay in
    insertion order. *)
Fixpoint insert_by_dist (e : Entry) (l : list Entry) : list Entry :=
  match l with
  | [] => [e]
  | x :: l' => if Z.ltb (dist e) (dist x) then e :: x :: l' else x :: insert_by_dist e l'
  end.

Definition sort_by_dist (col : list Entry) : list Entry :=
  fold_left (fun acc e => insert_by_dist e acc) col [].

(** Reference: sort the collection, take the first [k]. *)
Definition similarity_search_ref (k : nat) (col : list Entry) : list Entry :=
  take k (sort_by_dist col).

(** One pass with a buffer of the [k] nearest entries seen so far. *)
Definition similarity_search (k : nat) (col : list Entry) : list Entry :=
  fold_left (fun buf e => take k (insert_by_dist e buf)) col [].

Definition closer (a b : Entry) : Prop := (dist a <= dist b)%Z.

(** ** The insertion *)

Lemma insert_by_dist_perm e l : insert_by_dist e l ≡ₚ e :: l.
Proof.
  induction l as [|x l IH]; [done|]. cbn.
  destruct (Z.ltb _ _); [done|]. rewrite IH. apply Permutation_swap.
Qed.

Lemma insert_by_dist_sorted e l :
  Sorted closer l -> Sorted closer (insert_by_dist e l).
Proof.
  unfold closer. induction 1 as [|x l Hs IH Hhd]; cbn; [by repeat constructor|].
  destruct (Z.ltb_spec (dist e) (dist x)).
  - constructor; [by constructor|]. constructor. lia.
  - constructor; [done|]. destruct l as [|y l]; cbn; [constructor; lia|].
    inversion Hhd; subst. destruct (Z.ltb _ _); constructor; lia.
Qed.

(** Cutting the buffer to [k] before an insertion loses nothing of the
    first [k] afterwards. *)
Lemma take_insert_take k e l :
  take k (insert_by_dist e (take k l)) = take k (insert_by_dist e l).
Proof.
  revert k. induction l as [|x l IH]; intros [|k]; [by rewrite ?take_nil..|done|].
  cbn. destruct (Z.ltb _ _).
  - destruct k; [done|]. cbn. rewrite take_take. do 3 f_equal. lia.
  - rewrite !firstn_cons. by rewrite IH.
Qed.

Lemma sort_by_dist_perm col : sort_by_dist col ≡ₚ col.
Proof.
  unfold sort_by_dist. rewrite <- (app_nil_r col) at 2.
  generalize (@nil Entry) as acc. induction col as [|e col IH]; intros acc; [done|].
  cbn. rewrite IH, insert_by_dist_perm. symmetry. apply Permutation_middle.
Qed.

Lemma sort_by_dist_sorted col : Sorted closer (sort_by_dist col).
Proof.
  unfold sort_by_dist. assert (Hnil : Sorted closer (@nil Entry)) by constructor.
  revert Hnil. generalize (@nil Entry) as acc.
  induction col as [|e col IH]; intros acc Hacc; [done|]. cbn.
  apply IH, insert_by_dist_sorted, Hacc.
Qed.

Lemma search_fold_take k col acc :
  fold_left (fun buf e => take k (insert_by_dist e buf)) col (take k acc) =
  take k (fold_left (fun acc e => insert_by_dist e acc) col acc).
Proof.
  revert acc. induction col as [|e col IH]; intros acc; [done|].
  cbn. by rewrite take_insert_take, IH.
Qed.
End Search.

(** ** The retriever interface

    What the question-answering chain relies on from a vector index: a
    search returns entries of the index, at most [k] of them, and no
    fewer than the index can give. *)

Class VectorIndex (I : Type) := {
  vi_entries : I -> list Entry;
  vi_search : I -> list Z -> nat -> list Entry
}.

Class VectorIndexLaws (I : Type) `{!VectorIndex I} : Prop := {
  vi_search_incl ix q k e : e ∈ vi_search ix q k -> e ∈ vi_entries ix;
  vi_search_length ix q k : length (vi_search ix q k) = min k (length (vi_entries ix))
}.

(** A Chroma collection is a vector index. *)
#[export] Instance collection_index : VectorIndex (list Entry) := {
  vi_entries col := col;
  vi_search col q k := similarity_search q k col
}.

#[export] Instance closer_trans q : Transitive (closer q).
Proof. unfold closer. intros a b c. lia. Qed.

Lemma sorted_app_rel {A} (R : relation A) `{!Transitive R} (l1 l2 : list A) :
  Sorted R (l1 ++ l2) -> forall x y, x ∈ l1 -> y ∈ l2 -> R x y.
Proof.
  intros Hs%Sorted_StronglySorted; [|done]. induction l1 as [|a l1 IH]; intros x y.
  - by rewrite elem_of_nil.
  - inversion Hs as [|? ? Hs' Hall]; subst. rewrite elem_of_cons.
    intros [->|Hx] Hy; [|by apply IH].
    rewrite Forall_forall in Hall. apply Hall, elem_of_app. by right.
Qed.

Lemma sorted_app_l {A} (R : relation A) (l1 l2 : list A) :
  Sorted R (l1 ++ l2) -> Sorted R l1.
Proof.
  induction l1 as [|a l1 IH]; intros Hs; [constructor|].
  inversion Hs as [|? ? Hs' Hhd]; subst. constructor; [by apply IH|].
  destruct l1; constructor. by inversion Hhd.
Qed.

(** The streaming search computes the reference. *)
Lemma search_eq_ref q k col : similarity_search q k col = similarity_search_ref q k col.
Proof.
  unfold similarity_search, similarity_search_ref, sort_by_dist.
  rewrite <- (take_nil (A:=Entry) k) at 1. apply search_fold_take.
Qed.

Lemma search_ref_length q k col : length (similarity_search_ref q k col) = min k (length col).
Proof. unfold similarity_search_ref. by rewrite length_take, sort_by_dist_perm. Qed.

Lemma search_ref_topk q k col :
  exists rest, col ≡ₚ similarity_search_ref q k col ++ rest /\
    Sorted (closer q) (similarity_search_ref q k col) /\
    forall x y, x ∈ similarity_search_ref q k col -> y ∈ rest -> closer q x y.
Proof.
  unfold similarity_search_ref.
  pose proof (sort_by_dist_sorted q col) as Hs.
  rewrite <- (take_drop k (sort_by_dist q col)) in Hs.
  exists (drop k (sort_by_dist q col)). split; [|split].
  - by rewrite take_drop, sort_by_dist_perm.
  - by apply sorted_app_l in Hs.
  - intros x y. apply (sorted_app_rel (closer q) _ _ Hs).
Qed.

Lemma similarity_search_incl q k col e :
  e ∈ similarity_search q k col -> e ∈ col.
Proof.
  rewrite search_eq_ref. destruct (search_ref_topk q k col) as (rest & Hp & _).
  intros He. rewrite Hp. apply elem_of_app. by left.
Qed.

#[export] Instance collection_index_laws : VectorIndexLaws (list Entry).
Proof.
  split; cbn.
  - intros col q k e. apply similarity_search_incl.
  - intros col q k. rewrite search_eq_ref. apply search_ref_length.
Qed.

(** ** Ties

    The entries at one distance [r] keep the order in which they were
    added: the sort is stable, and the search keeps the first of them. *)

Lemma filter_all_false {A} (P : A -> Prop) `{!forall x, Decision (P x)} (l : list A) :
  (forall x, x ∈ l -> ~ P x) -> filter P l = [].
Proof.
  induction l as [|x l IH]; intros Hno; [done|].
  rewrite filter_cons_False by (apply Hno; by left). apply IH. intros y Hy. apply Hno. by right.
Qed.

Lemma filter_insert_by_dist q r e l :
  Sorted (closer q) l ->
  filter (fun x => dist q x = r) (insert_by_dist q e l) =
  filter (fun x => dist q x = r) l ++ filter (fun x => dist q x = r) [e].
Proof.
  intros Hs%Sorted_StronglySorted; [|intros a b c; unfold closer; lia].
  induction Hs as [|x l Hs IH Hall]; [done|]. cbn [insert_by_dist].
  destruct (Z.ltb_spec (dist q e) (dist q x)) as [Hlt|Hge].
  - rewrite Forall_forall in Hall. unfold closer in Hall.
    rewrite (filter_cons _ e), (filter_cons _ e []), filter_nil.
    case_decide as He; [|by rewrite app_nil_r].
    rewrite (filter_all_false (fun x0 => dist q x0 = r)); [done|].
    intros y [->|Hy]%elem_of_cons; [lia|]. specialize (Hall y Hy). lia.
  - rewrite !(filter_cons _ x). case_decide; cbn; by rewrite IH.
Qed.

Lemma sort_by_dist_stable q r col :
  filter (fun x => dist q x = r) (sort_by_dist q col) = filter (fun x => dist q x = r) col.
Proof.
  unfold sort_by_dist.
  assert (Hgen : forall acc, Sorted (closer q) acc ->
    filter (fun x => dist q x = r) (fold_left (fun acc e => insert_by_dist q e acc) col acc) =
    filter (fun x => dist q x = r) acc ++ filter (fun x => dist q x = r) col).
  { induction col as [|e col IH]; intros acc Hacc; cbn [fold_left]; [by rewrite app_nil_r|].
    rewrite IH by (by apply insert_by_dist_sorted).
    rewrite filter_insert_by_dist by done. rewrite <- app_assoc. f_equal.
    change (e :: col) with ([e] ++ col). by rewrite filter_app. }
  by rewrite Hgen by constructor.
Qed.

Lemma filter_take_prefix {A} (P : A -> Prop) `{!forall x, Decision (P x)} k (l : list A) :
  filter P (take k l) `prefix_of` filter P l.
Proof. rewrite <- (take_drop k l) at 2. rewrite filter_app. by apply prefix_app_r. Qed.

(** A collection of at most [k] entries is returned whole, in the
    order of distance. *)
Lemma similarity_search_all q k col : length col <= k -> similarity_search q k col ≡ₚ col.
Proof.
  intros Hk. rewrite search_eq_ref. unfold similarity_search_ref.
  rewrite take_ge; [apply sort_by_dist_perm|]. by rewrite (Permutation_length (sort_by_dist_perm q col)).
Qed.

(** C20. Bounds: the search returns [min k n] entries of a collection of
    [n] entries. *)
Theorem similarity_search_length q k col :
  length (similarity_search q k col) = min k (length col).
Proof. rewrite search_eq_ref. apply search_ref_length. Qed.

(** C21. Top-k: the result and the entries left out make up the
    collection; the result is sorted by distance, and no entry left out is
    closer to the query than an entry returned. *)
Theorem similarity_search_topk q k col :
  exists rest, col ≡ₚ similarity_search q k col ++ rest /\
    Sorted (closer q) (similarity_search q k col) /\
    forall x y, x ∈ similarity_search q k col -> y ∈ rest -> closer q x y.
Proof. rewrite search_eq_ref. apply search_ref_topk. Qed.

(** ** The client's collections *)

Lemma collection_entries_add name es client :
  collection_entries name (collection_add name es client) =
  collection_entries name client ++ es.
Proof. unfold collection_entries, collection_add. by rewrite lookup_insert_eq. Qed.

Lemma collection_entries_add_ne name name' es client :
  name <> name' ->
  collection_entries name' (collection_add name es client) = collection_entries name' client.
Proof. intros Hne. unfold collection_entries, collection_add. by rewrite lookup_insert_ne. Qed.

Lemma collection_entries_get_or_create name name' client :
  collection_entries name' (get_or_create_collection name client) =
  collection_entries name' client.
Proof.
  unfold get_or_create_collection, collection_entries.
  destruct (client !! name) eqn:E; [done|].
  destruct (decide (name = name')) as [->|Hne].
  - by rewrite lookup_insert_eq, E.
  - by rewrite lookup_insert_ne.
Qed.

(** C26. Ties (spec section 4.4): among the entries at any one distance
    from the query, the search returns the ones added first, in the order
    they were added: ties are broken by insertion order. *)
Theorem similarity_search_ties q k col r :
  filter (fun e => dist q e = r) (similarity_search q k col) `prefix_of`
  filter (fun e => dist q e = r) col.
Proof.
  rewrite search_eq_ref. unfold similarity_search_ref.
  rewrite <- (sort_by_dist_stable q r col). apply filter_take_prefix.
Qed.
