(* ===== verification/Runtime.v ===== *)
(** * Runtime: the Python and Streamlit runtime that app.py runs in

    The exceptions the script can meet, the page elements it emits, the
    external services it calls (the PDF parser behind [PyPDFLoader], the
    Google embedding API, the Gemini chat API) as the class [Services],
    the chain object it builds, the per-user session state, and the world
    record that holds every piece of state the script reads or writes.
    The primitives at the end are the library calls the script makes, each
    as an operation of the monad [M]. *)

From S2P Require Import Prelude Chunker VectorStore.

(** ** Exceptions *)

Inductive Exn :=
| OSError (msg : string)            (** failed write, missing file *)
| FileExistsError                   (** [tempfile] ran out of names *)
| ValueError (msg : string)         (** [PyPDFLoader] path check, Chroma ids check *)
| PdfReadError (msg : string)       (** the PDF parser failed *)
| EmbeddingError (msg : string)     (** the embedding API failed *)
| GenerationError (msg : string)    (** the chat API failed *)
| AttributeError (msg : string)     (** attribute of [None] or a missing key *)
| TypeError (msg : string)          (** a value of the wrong type *)
| StopException.                    (** [st.stop()] *)

(** [except Exception] catches every exception but Streamlit's
    script-control exception, which derives from [BaseException]. *)
Definition is_Exception (e : Exn) : bool :=
  match e with StopException => false | _ => true end.

(** [str(e)] *)
Definition exn_str (e : Exn) : string :=
  match e with
  | OSError m | ValueError m | PdfReadError m | EmbeddingError m
  | GenerationError m | AttributeError m | TypeError m => m
  | FileExistsError => "No usable temporary file name found"
  | StopException => ""
  end.

(** ** Page elements *)

Inductive Element :=
| ElPageConfig (title : string)
| ElTitle (s : string)
| ElWrite (s : string)
| ElHeader (s : string)
| ElFileUploader (label : string)
| ElTextInput (label : string)
| ElSpinner (text : string)
| ElSuccess (s : string)
| ElError (s : string)
| ElInfo (s : string)
| ElException (e : Exn)
| ElSidebar (el : Element).

(** ** The chain the script builds *)

(** [ChatGoogleGenerativeAI(model=..., temperature=...)]; the temperature
    in tenths. *)
Record ChatModel := mkChatModel {
  llm_model : string;
  llm_temperature_tenths : nat
}.

(** [RetrievalQA.from_chain_type(llm, chain_type, retriever)] with the
    retriever [as_retriever()] of a Chroma store: the collection it reads,
    the embedding model of its queries and its [k]. *)
Record QAChain := mkQAChain {
  qa_collection : string;
  qa_embed_model : string;
  qa_k : nat;
  qa_llm : ChatModel;
  qa_chain_type : string
}.

(** Chat messages of a prompt. *)
Inductive Role := SystemRole | HumanRole.

(** ** External services

    Each service answers [inr] with its result or [inl] with the message
    of the exception its client library raises. *)

(** The task type an embedding request carries: LangChain's
    [GoogleGenerativeAIEmbeddings] sends [embed_documents] requests as
    [RETRIEVAL_DOCUMENT] and [embed_query] requests as [RETRIEVAL_QUERY]. *)
Inductive EmbedTask := RetrievalDocument | RetrievalQuery.

Class Services := {
  svc_parse_pdf : list Byte.byte -> string + list string;
  svc_embed : string -> EmbedTask -> string -> string + list Z;
  svc_generate : ChatModel -> list (Role * string) -> string + string
}.

(** ** Session state and the world *)

(** [st.session_state]: [ss_qa_chain] is [None] when the key is absent,
    [Some None] when it holds Python's [None]. *)
Record Session := mkSession {
  ss_qa_chain : option (option QAChain);
  ss_file_name : option string
}.

Definition empty_session : Session := mkSession None None.

(** A file as Streamlit's [UploadedFile] gives it: its name, the read
    position of the stream ([tell()]) and its bytes ([getvalue()]).  A
    file fresh from [st.file_uploader] is at position 0, and the script
    never reads from the stream ([getvalue()] does not move it). *)
Record UploadedFile := mkUploadedFile {
  uf_name : string;
  uf_pos : nat;
  uf_bytes : list Byte.byte
}.

(** The key [@st.cache_resource] computes for an [UploadedFile]
    argument: Streamlit's hasher has a branch of its own for it, which
    hashes the file's name, its position and its bytes. *)
Record CacheKey := mkCacheKey {
  ck_name : string;
  ck_pos : nat;
  ck_bytes : list Byte.byte
}.

#[export] Instance CacheKey_eq_dec : EqDecision CacheKey.
Proof. solve_decision. Defined.

#[export] Instance CacheKey_countable : Countable CacheKey.
Proof.
  apply (inj_countable' (fun k => (ck_name k, ck_pos k, ck_bytes k))
                        (fun '(n, p, b) => mkCacheKey n p b)).
  by intros [].
Defined.

Record World := mkWorld {
  w_env : gmap string string;                  (** [os.environ] *)
  w_dotenv : gmap string string;               (** the [.env] file *)
  w_fs : gmap string (list Byte.byte);         (** files *)
  w_fs_free : nat;                             (** bytes the disk can still take *)
  w_tmp_seq : nat;                             (** [tempfile]'s name sequence *)
  w_stdout : list string;                      (** lines printed *)
  w_ui : list Element;                         (** elements of this run *)
  w_chroma : gmap string (list Entry);         (** the in-process Chroma client *)
  w_cache : gmap CacheKey (option QAChain * list Element);
                                               (** [st.cache_resource] *)
  w_session : Session                          (** [st.session_state] *)
}.

Definition set_env e w := mkWorld e (w_dotenv w) (w_fs w) (w_fs_free w) (w_tmp_seq w)
  (w_stdout w) (w_ui w) (w_chroma w) (w_cache w) (w_session w).
Definition set_fs f n w := mkWorld (w_env w) (w_dotenv w) f n (w_tmp_seq w)
  (w_stdout w) (w_ui w) (w_chroma w) (w_cache w) (w_session w).
Definition set_tmp_seq n w := mkWorld (w_env w) (w_dotenv w) (w_fs w) (w_fs_free w) n
  (w_stdout w) (w_ui w) (w_chroma w) (w_cache w) (w_session w).
Definition set_stdout o w := mkWorld (w_env w) (w_dotenv w) (w_fs w) (w_fs_free w)
  (w_tmp_seq w) o (w_ui w) (w_chroma w) (w_cache w) (w_session w).
Definition set_ui u w := mkWorld (w_env w) (w_dotenv w) (w_fs w) (w_fs_free w)
  (w_tmp_seq w) (w_stdout w) u (w_chroma w) (w_cache w) (w_session w).
Definition set_chroma c w := mkWorld (w_env w) (w_dotenv w) (w_fs w) (w_fs_free w)
  (w_tmp_seq w) (w_stdout w) (w_ui w) c (w_cache w) (w_session w).
Definition set_cache c w := mkWorld (w_env w) (w_dotenv w) (w_fs w) (w_fs_free w)
  (w_tmp_seq w) (w_stdout w) (w_ui w) (w_chroma w) c (w_session w).
Definition set_session s w := mkWorld (w_env w) (w_dotenv w) (w_fs w) (w_fs_free w)
  (w_tmp_seq w) (w_stdout w) (w_ui w) (w_chroma w) (w_cache w) s.

(** The monad of the script: Python statements over the world. *)
Abbreviation M := (EST Exn World).

Local Open Scope py_scope.

(** ** Primitives *)

(** [st.<element>(...)] *)
Definition st_emit (el : Element) : M unit :=
  est_modify (fun w => set_ui (w_ui w ++ [el]) w).

Arguments st_emit el /.

(** [print(s)] *)
Definition py_print (s : string) : M unit :=
  est_modify (fun w => set_stdout (w_stdout w ++ [s]) w).

Arguments py_print s /.

(** A service call: its failure is raised as [mk msg]. *)
Definition call_service {A} (mk : string -> Exn) (r : string + A) : M A :=
  match r with inl msg => est_raise (mk msg) | inr a => est_ret a end.

(** [os.path.exists(path)] *)
Definition os_path_exists (path : string) : M bool :=
  w <- est_get ;; est_ret (bool_decide (is_Some (w_fs w !! path))).

(** [os.remove(path)]: frees the file's bytes. *)
Definition os_remove (path : string) : M unit :=
  w <- est_get ;;
  match w_fs w !! path with
  | None => est_raise (OSError ("No such file or directory: " ++ path))
  | Some bytes => est_modify (set_fs (delete path (w_fs w)) (w_fs_free w + length bytes))
  end.

(** [f.write(data)] on a file just created empty: fails when the disk is
    full, leaving the file empty. *)
Definition file_write (path : string) (data : list Byte.byte) : M unit :=
  w <- est_get ;;
  if decide (length data <= w_fs_free w)
  then est_modify (set_fs (<[path := data]> (w_fs w)) (w_fs_free w - length data))
  else est_raise (OSError "[Errno 28] No space left on device").

(** The [n]-th name of [tempfile]'s sequence, with the suffix [.pdf]. *)
Definition tmp_name (n : nat) : string := "/tmp/tmp" ++ pretty n ++ ".pdf".

(** [tempfile.TMP_MAX]: the number of names [mkstemp] tries.  [tempfile]
    takes [os.TMP_MAX], the C library's [TMP_MAX], which glibc defines as
    238328 (its fallback 10000 is for platforms without it). *)
Definition TMP_MAX : nat := 238328.

(** [tempfile._mkstemp_inner]: take the next name, open it with
    [O_CREAT | O_EXCL] (an existing name is skipped), up to [tries] times. *)
Fixpoint mkstemp (tries : nat) : M string :=
  match tries with
  | O => est_raise FileExistsError
  | S tries' =>
      w <- est_get ;;
      let name := tmp_name (w_tmp_seq w) in
      est_modify (set_tmp_seq (S (w_tmp_seq w))) ;;
      if decide (is_Some (w_fs w !! name)) then mkstemp tries'
      else est_modify (fun w => set_fs (<[name := []]> (w_fs w)) (w_fs_free w) w) ;;
           est_ret name
  end.

(** [with tempfile.NamedTemporaryFile(delete=False, suffix=".pdf") as f:
        f.write(data); path = f.name] (app.py lines 28-30).  With
    [delete=False] the file stays when the block is left, by an exception
    too. *)
Definition named_temporary_file_write (data : list Byte.byte) : M string :=
  path <- mkstemp TMP_MAX ;;
  file_write path data ;;
  est_ret path.

(** Compute a program on the world: the monad, the world's setters and
    projections and the primitives, nothing of the maps. *)
Ltac world_simp :=
  cbn [est_bind est_ret est_raise est_get est_modify est_try_except est_finally
       est_of_option fst snd negb py_str_truthy py_opt_str_truthy
       set_env set_fs set_tmp_seq set_stdout set_ui set_chroma set_cache set_session
       w_env w_dotenv w_fs w_fs_free w_tmp_seq w_stdout w_ui w_chroma w_cache w_session
       ss_qa_chain ss_file_name uf_name uf_pos uf_bytes
       st_emit py_print call_service os_path_exists os_remove file_write
       named_temporary_file_write] in *.

(** ** The temporary file *)

Lemma mkstemp_ok n w p w' :
  mkstemp n w = (inr p, w') ->
  w_fs w !! p = None /\
  exists seq, w' = set_tmp_seq seq (set_fs (<[p := []]> (w_fs w)) (w_fs_free w) w).
Proof.
  revert w. induction n as [|n IH]; intros w; cbn [mkstemp]; world_simp; [by intros [=]|].
  case_decide as Hused.
  - intros [Hp [seq ->]]%IH. split; [done|]. exists seq. reflexivity.
  - intros [= <- <-]. split; [by apply eq_None_not_Some|]. exists (S (w_tmp_seq w)). reflexivity.
Qed.

Lemma mkstemp_err n w e w' :
  mkstemp n w = (inl e, w') -> e = FileExistsError /\ exists seq, w' = set_tmp_seq seq w.
Proof.
  revert w. induction n as [|n IH]; intros w; cbn [mkstemp]; world_simp.
  - intros [= <- <-]. split; [done|]. exists (w_tmp_seq w). by destruct w.
  - case_decide; [|done]. intros [-> [seq ->]]%IH. split; [done|]. exists seq. reflexivity.
Qed.

(** The first name of the sequence is taken when it is free. *)
Lemma mkstemp_first n w :
  w_fs w !! tmp_name (w_tmp_seq w) = None ->
  mkstemp (S n) w =
    (inr (tmp_name (w_tmp_seq w)),
     set_fs (<[tmp_name (w_tmp_seq w) := []]> (w_fs w)) (w_fs_free w)
            (set_tmp_seq (S (w_tmp_seq w)) w)).
Proof. intros Hfree. cbn [mkstemp]. world_simp. by rewrite decide_False by (rewrite Hfree; by intros []). Qed.

(** [mkstemp] finds a name whenever one of the next [n] names is free. *)
Lemma mkstemp_succeeds n w :
  (exists i, i < n /\ w_fs w !! tmp_name (w_tmp_seq w + i) = None) ->
  exists p w', mkstemp n w = (inr p, w').
Proof.
  revert w. induction n as [|n IH]; intros w [i [Hi Hfree]]; [lia|]. cbn [mkstemp]. world_simp.
  case_decide as Hused; [|by eauto].
  apply IH. destruct i as [|i].
  - rewrite Nat.add_0_r in Hfree. rewrite Hfree in Hused. by destruct Hused.
  - exists i. split; [lia|]. world_simp.
    replace (S (w_tmp_seq w) + i) with (w_tmp_seq w + S i) by lia. exact Hfree.
Qed.

(** Resetting the name counter twice keeps the last value. *)
Lemma set_tmp_seq_twice n m w : set_tmp_seq n (set_tmp_seq m w) = set_tmp_seq n w.
Proof. by destruct w. Qed.

(** [mkstemp] takes the first free name among the next [n]. *)
Lemma mkstemp_first_free n w i :
  i < n ->
  (forall j, j < i -> is_Some (w_fs w !! tmp_name (w_tmp_seq w + j))) ->
  w_fs w !! tmp_name (w_tmp_seq w + i) = None ->
  mkstemp n w =
    (inr (tmp_name (w_tmp_seq w + i)),
     set_fs (<[tmp_name (w_tmp_seq w + i) := []]> (w_fs w)) (w_fs_free w)
            (set_tmp_seq (w_tmp_seq w + i + 1) w)).
Proof.
  revert n w. induction i as [|i IH]; intros [|n] w Hi Htaken Hfree; try lia.
  - rewrite Nat.add_0_r in *. rewrite Nat.add_1_r. by apply mkstemp_first.
  - cbn [mkstemp]. world_simp.
    rewrite decide_True by (rewrite <- (Nat.add_0_r (w_tmp_seq w)); apply Htaken; lia).
    rewrite (IH n); world_simp; [|lia| |].
    + replace (S (w_tmp_seq w) + i) with (w_tmp_seq w + S i) by lia. by rewrite set_tmp_seq_twice.
    + intros j Hj. replace (S (w_tmp_seq w) + j) with (w_tmp_seq w + S j) by lia. apply Htaken. lia.
    + by replace (S (w_tmp_seq w) + i) with (w_tmp_seq w + S i) by lia.
Qed.

Lemma TMP_MAX_S : TMP_MAX = S (pred TMP_MAX).
Proof. reflexivity. Qed.

Lemma named_temporary_file_write_ok data w p w' :
  named_temporary_file_write data w = (inr p, w') ->
  w_fs w !! p = None /\ length data <= w_fs_free w /\
  exists seq, w' = set_tmp_seq seq (set_fs (<[p := data]> (w_fs w)) (w_fs_free w - length data) w).
Proof.
  unfold named_temporary_file_write. world_simp.
  destruct (mkstemp TMP_MAX w) as [[e|p0] w0] eqn:Em; [done|].
  apply mkstemp_ok in Em as [Hp [seq ->]]. world_simp.
  case_decide as Hroom; [|done]. intros [= <- <-]. split; [done|]. split; [done|].
  exists seq. by rewrite insert_insert_eq.
Qed.

Lemma named_temporary_file_write_err data w e w' :
  named_temporary_file_write data w = (inl e, w') ->
  (e = FileExistsError /\ w_fs w' = w_fs w) \/
  (e = OSError "[Errno 28] No space left on device" /\ w_fs_free w < length data /\
   exists p, w_fs w !! p = None /\ w_fs w' = <[p := []]> (w_fs w)).
Proof.
  unfold named_temporary_file_write. world_simp.
  destruct (mkstemp TMP_MAX w) as [[e0|p0] w0] eqn:Em.
  - intros [= <- <-]. apply mkstemp_err in Em as [-> [seq ->]]. by left.
  - apply mkstemp_ok in Em as [Hp [seq ->]]. world_simp.
    case_decide as Hroom; [done|]. intros [= <- <-]. right.
    split; [done|]. split; [lia|]. by exists p0.
Qed.

Lemma named_temporary_file_write_succeeds data w :
  (exists i, i < TMP_MAX /\ w_fs w !! tmp_name (w_tmp_seq w + i) = None) ->
  length data <= w_fs_free w ->
  exists p w', named_temporary_file_write data w = (inr p, w').
Proof.
  intros Hname Hroom. unfold named_temporary_file_write. world_simp.
  destruct (mkstemp_succeeds TMP_MAX w Hname) as (p & w1 & Em). rewrite Em.
  apply mkstemp_ok in Em as (_ & seq & ->). world_simp.
  rewrite decide_True by done. world_simp. by eauto.
Qed.

(** C29. The name [NamedTemporaryFile] picks (lines 28-30): when the
    first [i] names of the sequence are taken and the [i]-th is free,
    with [i < TMP_MAX], and the disk has room for the upload, the file
    is created under the [i]-th name and holds the upload's bytes; the
    counter moves past that name and nothing else of the world changes:
    no existing file is overwritten. *)
Theorem named_temporary_file_write_first_free data w i :
  i < TMP_MAX ->
  (forall j, j < i -> is_Some (w_fs w !! tmp_name (w_tmp_seq w + j))) ->
  w_fs w !! tmp_name (w_tmp_seq w + i) = None ->
  length data <= w_fs_free w ->
  named_temporary_file_write data w =
    (inr (tmp_name (w_tmp_seq w + i)),
     set_fs (<[tmp_name (w_tmp_seq w + i) := data]> (w_fs w)) (w_fs_free w - length data)
            (set_tmp_seq (w_tmp_seq w + i + 1) w)).
Proof.
  intros Hi Htaken Hfree Hroom. unfold named_temporary_file_write. world_simp.
  rewrite (mkstemp_first_free TMP_MAX w i Hi Htaken Hfree). world_simp.
  rewrite decide_True by done. world_simp. by rewrite insert_insert_eq.
Qed.

(** C30. The bound of the search: when the next [n] names are all
    taken, [mkstemp n] raises [FileExistsError] after consuming exactly
    [n] names, without creating a file ([named_temporary_file_write]
    calls it with [n = TMP_MAX]). *)
Theorem mkstemp_exhausted n w :
  (forall j, j < n -> is_Some (w_fs w !! tmp_name (w_tmp_seq w + j))) ->
  mkstemp n w = (inl FileExistsError, set_tmp_seq (w_tmp_seq w + n) w).
Proof.
  revert w. induction n as [|n IH]; intros w Htaken; cbn [mkstemp]; world_simp.
  - rewrite Nat.add_0_r. by destruct w.
  - rewrite decide_True by (rewrite <- (Nat.add_0_r (w_tmp_seq w)); apply Htaken; lia).
    rewrite IH; world_simp.
    + replace (S (w_tmp_seq w) + n) with (w_tmp_seq w + S n) by lia. by rewrite set_tmp_seq_twice.
    + intros j Hj. replace (S (w_tmp_seq w) + j) with (w_tmp_seq w + S j) by lia. apply Htaken. lia.
Qed.

(** Staging the upload touches the file system and the name sequence
    only. *)
Lemma named_temporary_file_write_frame data w r w' :
  named_temporary_file_write data w = (r, w') ->
  exists seq f n, w' = set_tmp_seq seq (set_fs f n w).
Proof.
  unfold named_temporary_file_write. world_simp.
  destruct (mkstemp TMP_MAX w) as [[e|p] w0] eqn:Em.
  - intros [= <- <-]. apply mkstemp_err in Em as [_ [seq ->]].
    exists seq, (w_fs w), (w_fs_free w). by destruct w.
  - apply mkstemp_ok in Em as [_ [seq ->]]. world_simp.
    case_decide; intros [= <- <-]; eexists _, _, _; reflexivity.
Qed.

(** So it keeps every property of the Chroma client. *)
Lemma named_temporary_file_write_chroma (Q : gmap string (list Entry) -> Prop) data :
  est_preserves (fun w => Q (w_chroma w)) (named_temporary_file_write data).
Proof.
  intros w Hw. destruct (named_temporary_file_write data w) as [r w'] eqn:E.
  apply named_temporary_file_write_frame in E as (seq & f & n & ->). exact Hw.
Qed.

(** ** A fixture for concrete runs

    Services that parse a non-empty file into one page holding its bytes
    as text, embed a text as the one-dimensional vector of its length, and
    answer with the first message of the prompt; a world with an empty
    disk of [free] bytes.  The witnesses of the theorems run on them. *)

Definition demo_services : Services := {|
  svc_parse_pdf bytes :=
    match bytes with
    | [] => inl "Cannot read an empty file"
    | _ => inr [String.string_of_list_ascii (map Ascii.ascii_of_byte bytes)]
    end;
  svc_embed model task t := inr [Z.of_nat (String.length t)];
  svc_generate m msgs :=
    match msgs with (_, ctx) :: _ => inr ctx | [] => inl "empty prompt" end
|}.

Definition demo_world (env : gmap string string) (free : nat) : World :=
  mkWorld env ∅ ∅ free 0 [] [] ∅ ∅ empty_session.

(** An upload: the file [name] with the bytes of [text]. *)
Definition demo_upload (name text : string) : UploadedFile :=
  mkUploadedFile name 0 (map Ascii.byte_of_ascii (String.list_ascii_of_string text)).

(** ** Witnesses: a disk where the first name of the sequence is taken. *)

Definition crowded_world : World :=
  mkWorld ∅ ∅ {[tmp_name 0 := []]} 100 0 [] [] ∅ ∅ empty_session.

Lemma crowded_first_taken :
  forall j, j < 1 -> is_Some (w_fs crowded_world !! tmp_name (w_tmp_seq crowded_world + j)).
Proof. intros j Hj. replace j with 0 by lia. decide_by_eval. Defined.

Lemma named_temporary_file_write_first_free_witness :
  named_temporary_file_write [Byte.x41] crowded_world =
    (inr (tmp_name 1),
     set_fs (<[tmp_name 1 := [Byte.x41]]> (w_fs crowded_world)) 99 (set_tmp_seq 2 crowded_world)).
Proof.
  assert (Hi : 1 < TMP_MAX) by (apply Nat.ltb_lt; vm_compute; reflexivity).
  assert (Hfree : w_fs crowded_world !! tmp_name (w_tmp_seq crowded_world + 1) = None)
    by (vm_compute; reflexivity).
  assert (Hroom : length [Byte.x41] <= w_fs_free crowded_world) by (cbn; lia).
  exact (named_temporary_file_write_first_free [Byte.x41] crowded_world 1 Hi crowded_first_taken Hfree Hroom).
Defined.

Lemma mkstemp_exhausted_witness :
  mkstemp 1 crowded_world = (inl FileExistsError, set_tmp_seq 1 crowded_world).
Proof. exact (mkstemp_exhausted 1 crowded_world crowded_first_taken). Defined.
