(* ===== verification/Config.v ===== *)
(** * Config: the credential check of app.py lines 16-21

    [load_dotenv()] adds the assignments of the [.env] file that the
    environment does not set already; the script stops with one error
    element when [GOOGLE_API_KEY] is unset or empty, and otherwise writes
    the key back into [os.environ].  The check runs at the top of every
    rerun, before any other element. *)

From S2P Require Import Prelude Chunker VectorStore Runtime.

Local Open Scope py_scope.

Definition GOOGLE_API_KEY : string := "GOOGLE_API_KEY".

Definition missing_key_message : string :=
  "GOOGLE_API_KEY not found in .env file. Please add it and restart.".

(** [load_dotenv()]: without [override], variables already set win. *)
Definition load_dotenv : M unit :=
  est_modify (fun w => set_env (w_env w ∪ w_dotenv w) w).

(** [os.getenv(k)] *)
Definition os_getenv (k : string) : M (option string) :=
  w <- est_get ;; est_ret (w_env w !! k).

(** [os.environ[k] = v] for [v : Optional[str]]: [None] is a type error. *)
Definition os_environ_set (k : string) (v : option string) : M unit :=
  match v with
  | Some s => est_modify (fun w => set_env (<[k := s]> (w_env w)) w)
  | None => est_raise (TypeError "str expected, not NoneType")
  end.

(** [st.stop()] *)
Definition st_stop {A} : M A := est_raise StopException.

(** Lines 17-21. *)
Definition check_api_key : M unit :=
  load_dotenv ;;
  key <- os_getenv GOOGLE_API_KEY ;;
  if negb (py_opt_str_truthy key) then
    st_emit (ElError missing_key_message) ;;
    st_stop
  else
    v <- os_getenv GOOGLE_API_KEY ;;
    os_environ_set GOOGLE_API_KEY v.

(** The environment after [load_dotenv()]. *)
Definition loaded_env (w : World) : gmap string string := w_env w ∪ w_dotenv w.

Lemma check_api_key_missing w :
  py_opt_str_truthy (loaded_env w !! GOOGLE_API_KEY) = false ->
  check_api_key w =
    (inl StopException, set_ui (w_ui w ++ [ElError missing_key_message]) (set_env (loaded_env w) w)).
Proof.
  unfold check_api_key, load_dotenv, os_getenv, st_stop, loaded_env. intros H.
  world_simp. by rewrite H.
Qed.

Lemma check_api_key_present w :
  py_opt_str_truthy (loaded_env w !! GOOGLE_API_KEY) = true ->
  check_api_key w = (inr tt, set_env (loaded_env w) w).
Proof.
  unfold check_api_key, load_dotenv, os_getenv, os_environ_set, loaded_env. intros H.
  world_simp. rewrite H. world_simp.
  destruct ((w_env w ∪ w_dotenv w) !! GOOGLE_API_KEY) as [k|] eqn:E; [|cbv in H; discriminate H].
  world_simp. by rewrite insert_id.
Qed.
