(* ===== verification/Pipeline.v ===== *)
(** * Pipeline: [get_qa_chain_from_pdf] (app.py lines 25-61) and [qa_chain.run] (line 91)

    The function prints a progress line, stages the upload in a named
    temporary file (outside the [try]), and in the [try] block loads the
    pages, splits them, embeds the chunks into the shared Chroma
    collection and builds the chain.  Any exception of the block is
    reported with [st.error] and turned into [None]; the [finally] block
    removes the temporary file if it exists.

    [qa_chain_run] embeds the question, takes the [k] nearest chunks of the
    chain's collection as the collection is at the time of the call, and
    sends the "stuff" prompt to the chat model. *)

From S2P Require Import Prelude Chunker VectorStore Runtime.

Local Open Scope py_scope.

(** Line 39 and line 46. *)
Definition embedding_model : string := "models/embedding-001".
Definition gemini : ChatModel := mkChatModel "gemini-pro" 3.

(** Lines 43-51: [as_retriever()] on the store of collection [name] and
    [RetrievalQA.from_chain_type(llm=llm, chain_type="stuff", retriever=retriever)]. *)
Definition build_qa_chain (name : string) : QAChain :=
  mkQAChain name embedding_model retriever_k gemini "stuff".

(** The prompt of langchain's "stuff" chain for a chat model: the
    documents joined by blank lines in the system message, the question as
    the human message. *)
Fixpoint join_strings (sep : string) (l : list string) : string :=
  match l with
  | [] => ""
  | [s] => s
  | s :: l' => s ++ sep ++ join_strings sep l'
  end.

Definition stuff_system_prefix : string :=
  "Use the following pieces of context to answer the user's question. " ++ nl ++
  "If you don't know the answer, just say that you don't know, don't try to make up an answer." ++
  nl ++ "----------------" ++ nl.

Definition stuff_prompt (docs : list Document) (q : string) : list (Role * string) :=
  [(SystemRole, (stuff_system_prefix ++ join_strings (nl ++ nl) (map page_content docs))%string);
   (HumanRole, q)].

Section Pipeline.
Context `{!Services}.

(** [PyPDFLoader(path)] checks that the path is a file; [load()] parses
    it into one document per page, with the metadata
    [{"source": path, "page": i}]. *)
Definition pypdf_loader_load (path : string) : M (list Document) :=
  w <- est_get ;;
  match w_fs w !! path with
  | None => est_raise (ValueError ("File path " ++ path ++ " is not a valid file or url"))
  | Some bytes =>
      pages <- call_service PdfReadError (svc_parse_pdf bytes) ;;
      est_ret (imap (fun i t => mkDocument t path i) pages)
  end.

(** [embeddings.embed_documents(texts)]: one vector per text; the first
    failure aborts the batch. *)
Fixpoint embed_documents (model : string) (texts : list string) : string + list (list Z) :=
  match texts with
  | [] => inr []
  | t :: ts =>
      match svc_embed model RetrievalDocument t with
      | inl msg => inl msg
      | inr v =>
          match embed_documents model ts with
          | inl msg => inl msg
          | inr vs => inr (v :: vs)
          end
      end
  end.

(** [Chroma.from_documents(documents=splits, embedding=embeddings)]
    (line 41): open (or create) the default collection of the shared
    client, embed the chunks, and [upsert] them with fresh ids; Chroma
    refuses an empty list of ids.  The store is the collection's name. *)
Definition chroma_from_documents (splits : list Document) (model : string) : M string :=
  est_modify (fun w => set_chroma (get_or_create_collection default_collection_name (w_chroma w)) w) ;;
  vecs <- call_service EmbeddingError (embed_documents model (map page_content splits)) ;;
  if decide (splits = []) then
    est_raise (ValueError "Expected IDs to be a non-empty list, got []")
  else
    (est_modify (fun w => set_chroma (collection_add default_collection_name
                                        (zip_with mkEntry splits vecs) (w_chroma w)) w) ;;
     est_ret default_collection_name).

(** Lines 33-54: the [try] block. *)
Definition process_pdf (path : string) : M (option QAChain) :=
  docs <- pypdf_loader_load path ;;
  let splits := split_documents docs in
  vectorstore <- chroma_from_documents splits embedding_model ;;
  est_ret (Some (build_qa_chain vectorstore)).

(** Lines 56-58: the [except Exception as e] block. *)
Definition report_error (e : Exn) : M (option QAChain) :=
  st_emit (ElError ("Error processing PDF: " ++ exn_str e)) ;;
  est_ret None.

(** Lines 32-58: [try: ... except Exception as e: ...]. *)
Definition guarded_process_pdf (path : string) : M (option QAChain) :=
  est_try_except is_Exception (process_pdf path) report_error.

(** Lines 59-61: the [finally] block. *)
Definition remove_temp_file (path : string) : M unit :=
  b <- os_path_exists path ;;
  if b then os_remove path else est_ret tt.

(** Lines 25-61, without the decorator (see [Cache]). *)
Definition get_qa_chain_from_pdf (uf : UploadedFile) : M (option QAChain) :=
  py_print ("--- Processing " ++ uf_name uf ++ " ---") ;;
  temp_file_path <- named_temporary_file_write (uf_bytes uf) ;;
  est_finally (guarded_process_pdf temp_file_path) (remove_temp_file temp_file_path).

(** Line 91: [qa_chain.run(user_question)]. *)
Definition qa_chain_run (c : QAChain) (q : string) : M string :=
  qv <- call_service EmbeddingError (svc_embed (qa_embed_model c) RetrievalQuery q) ;;
  w <- est_get ;;
  let hits := similarity_search qv (qa_k c) (collection_entries (qa_collection c) (w_chroma w)) in
  call_service GenerationError (svc_generate (qa_llm c) (stuff_prompt (map entry_doc hits) q)).
End Pipeline.

(** ** Theorems *)

Section PipelineTheory.
Context `{!Services}.

(** The world after line 26's [print]. *)
Definition printed (uf : UploadedFile) (w : World) : World :=
  set_stdout (w_stdout w ++ [("--- Processing " ++ uf_name uf ++ " ---")%string]) w.

Lemma get_qa_chain_from_pdf_unfold uf w :
  get_qa_chain_from_pdf uf w =
    match named_temporary_file_write (uf_bytes uf) (printed uf w) with
    | (inl e, w2) => (inl e, w2)
    | (inr p, w2) => est_finally (guarded_process_pdf p) (remove_temp_file p) w2
    end.
Proof. reflexivity. Qed.

(** The [finally] block removes a file that exists. *)
Lemma finally_remove_temp {A} (m : M A) p w r w1 data :
  m w = (r, w1) -> w_fs w1 !! p = Some data ->
  est_finally m (remove_temp_file p) w =
    (r, set_fs (delete p (w_fs w1)) (w_fs_free w1 + length data) w1).
Proof.
  intros Hm Hp. cbn [est_finally]. rewrite Hm. unfold remove_temp_file. world_simp.
  rewrite Hp. world_simp. rewrite bool_decide_true by done. world_simp. by rewrite Hp.
Qed.

Definition fs_is (f : gmap string (list Byte.byte)) (n : nat) (w : World) : Prop :=
  w_fs w = f /\ w_fs_free w = n.

(** The [try] block and its handler only read the file system. *)
Lemma guarded_process_pdf_keeps_fs p f n :
  est_preserves (fs_is f n) (guarded_process_pdf p).
Proof.
  unfold guarded_process_pdf, process_pdf, pypdf_loader_load, chroma_from_documents,
    report_error, call_service, st_emit.
  py_preserves.
Qed.

(** The [try] block raises nothing but an [Exception]. *)
Lemma process_pdf_raises_Exception p :
  est_raises_only (fun e => is_Exception e = true) (process_pdf p).
Proof.
  unfold process_pdf, pypdf_loader_load, chroma_from_documents, call_service.
  py_raises.
Qed.

(** So the guarded block always returns. *)
Lemma guarded_process_pdf_returns p w :
  exists r w', guarded_process_pdf p w = (inr r, w').
Proof.
  unfold guarded_process_pdf. cbn [est_try_except].
  destruct (process_pdf p w) as [[e|r] w1] eqn:E; [|by eauto].
  rewrite (process_pdf_raises_Exception p w e w1 E). by eexists _, _.
Qed.

(** With the temporary file on disk, the [try]/[finally] returns. *)
Lemma guarded_finally_returns p w data :
  w_fs w !! p = Some data ->
  exists r w', est_finally (guarded_process_pdf p) (remove_temp_file p) w = (inr r, w').
Proof.
  intros Hp. destruct (guarded_process_pdf_returns p w) as (r & w3 & Eg).
  destruct (guarded_process_pdf_keeps_fs p _ _ w (conj eq_refl eq_refl)) as [Hfs _].
  rewrite Eg in Hfs. cbn [snd] in Hfs. exists r. eexists.
  apply (finally_remove_temp _ p _ _ w3 data Eg). by rewrite Hfs.
Qed.

(** A returned call leaves the file system as it found it. *)
Lemma get_qa_chain_from_pdf_restores_fs uf w r w' :
  get_qa_chain_from_pdf uf w = (inr r, w') ->
  w_fs w' = w_fs w /\ w_fs_free w' = w_fs_free w.
Proof.
  rewrite get_qa_chain_from_pdf_unfold.
  destruct (named_temporary_file_write _ _) as [[e|p] w2] eqn:Ew; [done|].
  apply named_temporary_file_write_ok in Ew as (Hp & Hroom & seq & ->).
  set (w2 := set_tmp_seq seq _).
  destruct (guarded_process_pdf p w2) as [r1 w3] eqn:Eg.
  destruct (guarded_process_pdf_keeps_fs p _ _ w2 (conj eq_refl eq_refl)) as [Hfs Hfree].
  rewrite Eg in Hfs, Hfree. cbn [snd] in Hfs, Hfree. subst w2.
  rewrite (finally_remove_temp _ p _ r1 w3 (uf_bytes uf) Eg) by (rewrite Hfs; apply lookup_insert_eq).
  intros [= -> <-]. unfold printed in *. world_simp. rewrite Hfs, Hfree. world_simp.
  split; [by apply delete_insert_id|lia].
Qed.
(** C1. Safety: whenever [get_qa_chain_from_pdf] returns, the file
    system is as it was before the call: the temporary file that was
    written has been removed and its space given back, on success and on
    every handled error. *)
Theorem get_qa_chain_from_pdf_cleanup uf w r w' :
  get_qa_chain_from_pdf uf w = (inr r, w') ->
  w_fs w' = w_fs w /\ w_fs_free w' = w_fs_free w.
Proof. apply get_qa_chain_from_pdf_restores_fs. Qed.


(** With a free name and room on the disk, the call returns. *)
Lemma get_qa_chain_from_pdf_total uf w :
  (exists i, i < TMP_MAX /\ w_fs w !! tmp_name (w_tmp_seq w + i) = None) ->
  length (uf_bytes uf) <= w_fs_free w ->
  exists r w', get_qa_chain_from_pdf uf w = (inr r, w').
Proof.
  intros Hname Hroom. rewrite get_qa_chain_from_pdf_unfold.
  destruct (named_temporary_file_write_succeeds (uf_bytes uf) (printed uf w) Hname Hroom)
    as (p & w2 & Ew).
  rewrite Ew. apply named_temporary_file_write_ok in Ew as (_ & _ & seq & ->).
  apply (guarded_finally_returns _ _ (uf_bytes uf)). world_simp. apply lookup_insert_eq.
Qed.
(** C6. Liveness: when one of the next [TMP_MAX] temporary names is free
    and the disk has room for the upload, [get_qa_chain_from_pdf]
    returns (a chain or [None]); it raises nothing. *)
Theorem get_qa_chain_from_pdf_returns uf w :
  (exists i, i < TMP_MAX /\ w_fs w !! tmp_name (w_tmp_seq w + i) = None) ->
  length (uf_bytes uf) <= w_fs_free w ->
  exists r w', get_qa_chain_from_pdf uf w = (inr r, w').
Proof. apply get_qa_chain_from_pdf_total. Qed.


(** A full disk makes the write of line 29 raise out of the call. *)
Lemma get_qa_chain_from_pdf_disk_full uf w :
  w_fs w !! tmp_name (w_tmp_seq w) = None ->
  w_fs_free w < length (uf_bytes uf) ->
  exists w', get_qa_chain_from_pdf uf w = (inl (OSError "[Errno 28] No space left on device"), w') /\
    w_fs w' = <[tmp_name (w_tmp_seq w) := []]> (w_fs w).
Proof.
  intros Hfree Hfull. rewrite get_qa_chain_from_pdf_unfold.
  unfold named_temporary_file_write. world_simp.
  rewrite TMP_MAX_S, mkstemp_first by done. unfold printed. world_simp.
  rewrite decide_False by lia. world_simp. by eexists.
Qed.
(** C7. Finding: the upload is written outside the [try] of line 32, so
    when the write fails (disk full) the exception escapes
    [get_qa_chain_from_pdf] and the temporary file, created with
    [delete=False], stays on disk. *)
Theorem get_qa_chain_from_pdf_write_error_leaks uf w :
  w_fs w !! tmp_name (w_tmp_seq w) = None ->
  w_fs_free w < length (uf_bytes uf) ->
  exists w', get_qa_chain_from_pdf uf w = (inl (OSError "[Errno 28] No space left on device"), w') /\
    w_fs w' = <[tmp_name (w_tmp_seq w) := []]> (w_fs w).
Proof. apply get_qa_chain_from_pdf_disk_full. Qed.


(** The pages [PyPDFLoader] makes of a parsed file. *)
Definition loaded_pages (path : string) (pages : list string) : list Document :=
  imap (fun i t => mkDocument t path i) pages.

(** The world after the upload is written to the first free name. *)
Lemma named_temporary_file_write_first data w :
  w_fs w !! tmp_name (w_tmp_seq w) = None -> length data <= w_fs_free w ->
  named_temporary_file_write data w =
    (inr (tmp_name (w_tmp_seq w)),
     set_fs (<[tmp_name (w_tmp_seq w) := data]> (w_fs w)) (w_fs_free w - length data)
            (set_tmp_seq (S (w_tmp_seq w)) w)).
Proof.
  intros Hfree Hroom. unfold named_temporary_file_write. world_simp.
  rewrite TMP_MAX_S, mkstemp_first by done. world_simp.
  rewrite decide_True by done. world_simp. by rewrite insert_insert_eq.
Qed.

Lemma process_pdf_ok p w bytes pages vecs :
  w_fs w !! p = Some bytes -> svc_parse_pdf bytes = inr pages ->
  split_documents (loaded_pages p pages) <> [] ->
  embed_documents embedding_model (map page_content (split_documents (loaded_pages p pages)))
    = inr vecs ->
  process_pdf p w =
    (inr (Some (build_qa_chain default_collection_name)),
     set_chroma (collection_add default_collection_name
                   (zip_with mkEntry (split_documents (loaded_pages p pages)) vecs)
                   (get_or_create_collection default_collection_name (w_chroma w))) w).
Proof.
  intros Hp Hparse Hne Hemb.
  unfold process_pdf, pypdf_loader_load, chroma_from_documents, call_service.
  world_simp. rewrite Hp. world_simp. rewrite Hparse. world_simp.
  fold (loaded_pages p pages). rewrite Hemb. world_simp.
  rewrite decide_False by done. reflexivity.
Qed.

Lemma process_pdf_parse_error p w bytes msg :
  w_fs w !! p = Some bytes -> svc_parse_pdf bytes = inl msg ->
  process_pdf p w = (inl (PdfReadError msg), w).
Proof.
  intros Hp Hparse. unfold process_pdf, pypdf_loader_load, call_service.
  world_simp. rewrite Hp. world_simp. by rewrite Hparse.
Qed.

(** The world after a successful processing: the printed line, the next
    temporary name used, and the chunks added to the default collection;
    the temporary file is gone. *)
Lemma get_qa_chain_from_pdf_ok uf w pages vecs :
  w_fs w !! tmp_name (w_tmp_seq w) = None ->
  length (uf_bytes uf) <= w_fs_free w ->
  svc_parse_pdf (uf_bytes uf) = inr pages ->
  split_documents (loaded_pages (tmp_name (w_tmp_seq w)) pages) <> [] ->
  embed_documents embedding_model
    (map page_content (split_documents (loaded_pages (tmp_name (w_tmp_seq w)) pages))) = inr vecs ->
  get_qa_chain_from_pdf uf w =
    (inr (Some (build_qa_chain default_collection_name)),
     set_chroma (collection_add default_collection_name
                   (zip_with mkEntry (split_documents (loaded_pages (tmp_name (w_tmp_seq w)) pages)) vecs)
                   (get_or_create_collection default_collection_name (w_chroma w)))
                (set_tmp_seq (S (w_tmp_seq w)) (printed uf w))).
Proof.
  intros Hfree Hroom Hparse Hne Hemb. rewrite get_qa_chain_from_pdf_unfold.
  rewrite named_temporary_file_write_first by done.
  erewrite finally_remove_temp with (data := uf_bytes uf).
  2: { unfold guarded_process_pdf. cbn [est_try_except].
       rewrite (process_pdf_ok _ _ (uf_bytes uf) pages vecs); [reflexivity|..]; try done.
       world_simp. apply lookup_insert_eq. }
  2: { world_simp. apply lookup_insert_eq. }
  unfold printed. world_simp. rewrite delete_insert_id by done.
  by rewrite Nat.sub_add by done.
Qed.

(** C2. Functional behaviour on success: when the upload parses into
    pages whose chunks are non-empty and all embed, the function returns
    the chain over the default collection, the collection gains exactly
    the new chunks with their vectors after what it held before, and the
    file system, the page, the session and the cache are unchanged. *)
Theorem get_qa_chain_from_pdf_success uf w pages vecs :
  w_fs w !! tmp_name (w_tmp_seq w) = None ->
  length (uf_bytes uf) <= w_fs_free w ->
  svc_parse_pdf (uf_bytes uf) = inr pages ->
  split_documents (loaded_pages (tmp_name (w_tmp_seq w)) pages) <> [] ->
  embed_documents embedding_model
    (map page_content (split_documents (loaded_pages (tmp_name (w_tmp_seq w)) pages))) = inr vecs ->
  exists w', get_qa_chain_from_pdf uf w = (inr (Some (build_qa_chain default_collection_name)), w') /\
    collection_entries default_collection_name (w_chroma w') =
      collection_entries default_collection_name (w_chroma w) ++
      zip_with mkEntry (split_documents (loaded_pages (tmp_name (w_tmp_seq w)) pages)) vecs /\
    w_fs w' = w_fs w /\ w_ui w' = w_ui w /\ w_session w' = w_session w /\ w_cache w' = w_cache w.
Proof.
  intros Hfree Hroom Hparse Hne Hemb.
  rewrite (get_qa_chain_from_pdf_ok uf w pages vecs) by done.
  eexists. split; [reflexivity|]. unfold printed. world_simp.
  by rewrite collection_entries_add, collection_entries_get_or_create.
Qed.

(** The world once the upload is staged: printed, the next name used,
    the bytes written to it. *)
Definition staged (uf : UploadedFile) (w : World) : World :=
  set_fs (<[tmp_name (w_tmp_seq w) := uf_bytes uf]> (w_fs w)) (w_fs_free w - length (uf_bytes uf))
         (set_tmp_seq (S (w_tmp_seq w)) (printed uf w)).

Lemma named_temporary_file_write_staged uf w :
  w_fs w !! tmp_name (w_tmp_seq w) = None -> length (uf_bytes uf) <= w_fs_free w ->
  named_temporary_file_write (uf_bytes uf) (printed uf w) = (inr (tmp_name (w_tmp_seq w)), staged uf w).
Proof. intros Hfree Hroom. exact (named_temporary_file_write_first _ (printed uf w) Hfree Hroom). Qed.

(** A handled error of the [try] block, which may have touched the
    client's collections: the function returns [None] after one error
    element, and the temporary file is gone. *)
Lemma get_qa_chain_from_pdf_handled uf w e c :
  w_fs w !! tmp_name (w_tmp_seq w) = None ->
  length (uf_bytes uf) <= w_fs_free w ->
  process_pdf (tmp_name (w_tmp_seq w)) (staged uf w) = (inl e, set_chroma c (staged uf w)) ->
  is_Exception e = true ->
  get_qa_chain_from_pdf uf w =
    (inr None, set_ui (w_ui w ++ [ElError ("Error processing PDF: " ++ exn_str e)])
                      (set_chroma c (set_tmp_seq (S (w_tmp_seq w)) (printed uf w)))).
Proof.
  intros Hfree Hroom Hp He. rewrite get_qa_chain_from_pdf_unfold.
  rewrite named_temporary_file_write_staged by done.
  erewrite finally_remove_temp with (data := uf_bytes uf).
  2: { unfold guarded_process_pdf. cbn [est_try_except]. rewrite Hp, He.
       unfold report_error. world_simp. reflexivity. }
  2: { unfold staged. world_simp. apply lookup_insert_eq. }
  unfold staged, printed. world_simp. rewrite delete_insert_id by done.
  by rewrite Nat.sub_add by done.
Qed.

(** The world after the parser rejects the upload. *)
Lemma get_qa_chain_from_pdf_rejected uf w msg :
  w_fs w !! tmp_name (w_tmp_seq w) = None ->
  length (uf_bytes uf) <= w_fs_free w ->
  svc_parse_pdf (uf_bytes uf) = inl msg ->
  get_qa_chain_from_pdf uf w =
    (inr None, set_ui (w_ui w ++ [ElError ("Error processing PDF: " ++ msg)])
                      (set_tmp_seq (S (w_tmp_seq w)) (printed uf w))).
Proof.
  intros Hfree Hroom Hparse.
  rewrite (get_qa_chain_from_pdf_handled uf w (PdfReadError msg) (w_chroma w)); [reflexivity|done|done| |done].
  rewrite (process_pdf_parse_error _ _ (uf_bytes uf) msg); [by destruct w|unfold staged; world_simp; apply lookup_insert_eq|done].
Qed.

(** C5. Functional behaviour on a parse error (a corrupt or empty PDF):
    the function returns [None]; the only changes to the world are the
    printed line, one error element with the parser's message, and the
    next temporary name being used.  The collection, the file system,
    the session and the cache are as they were. *)
Theorem get_qa_chain_from_pdf_parse_error uf w msg :
  w_fs w !! tmp_name (w_tmp_seq w) = None ->
  length (uf_bytes uf) <= w_fs_free w ->
  svc_parse_pdf (uf_bytes uf) = inl msg ->
  get_qa_chain_from_pdf uf w =
    (inr None, set_ui (w_ui w ++ [ElError ("Error processing PDF: " ++ msg)])
                      (set_tmp_seq (S (w_tmp_seq w)) (printed uf w))).
Proof. apply get_qa_chain_from_pdf_rejected. Qed.

Lemma process_pdf_no_text p w bytes pages :
  w_fs w !! p = Some bytes -> svc_parse_pdf bytes = inr pages ->
  Forall (fun t => t = EmptyString) pages ->
  process_pdf p w =
    (inl (ValueError "Expected IDs to be a non-empty list, got []"),
     set_chroma (get_or_create_collection default_collection_name (w_chroma w)) w).
Proof.
  intros Hp Hparse Hnone.
  unfold process_pdf, pypdf_loader_load, chroma_from_documents, call_service.
  world_simp. rewrite Hp. world_simp. rewrite Hparse. world_simp.
  rewrite split_documents_no_text by done. cbn [map embed_documents]. world_simp.
  by rewrite decide_True by done.
Qed.

(** C23. Boundary: a PDF whose pages carry no text (a scan without a text
    layer) parses, but gives no chunk; Chroma refuses the empty list of
    ids with a [ValueError], which the [except] block reports.  The
    function returns [None]; the default collection has been created
    (empty) in the shared client, and the temporary file is gone. *)
Theorem get_qa_chain_from_pdf_no_text uf w pages :
  w_fs w !! tmp_name (w_tmp_seq w) = None ->
  length (uf_bytes uf) <= w_fs_free w ->
  svc_parse_pdf (uf_bytes uf) = inr pages ->
  Forall (fun t => t = EmptyString) pages ->
  get_qa_chain_from_pdf uf w =
    (inr None,
     set_ui (w_ui w ++ [ElError ("Error processing PDF: " ++
                                 "Expected IDs to be a non-empty list, got []")])
            (set_chroma (get_or_create_collection default_collection_name (w_chroma w))
                        (set_tmp_seq (S (w_tmp_seq w)) (printed uf w)))).
Proof.
  intros Hfree Hroom Hparse Hnone.
  rewrite (get_qa_chain_from_pdf_handled uf w (ValueError "Expected IDs to be a non-empty list, got []")
             (get_or_create_collection default_collection_name (w_chroma w)));
    [reflexivity|done|done| |done].
  rewrite (process_pdf_no_text _ _ (uf_bytes uf) pages);
    [reflexivity|unfold staged; world_simp; apply lookup_insert_eq|done|done].
Qed.
End PipelineTheory.

(** ** What processing changes *)

(** A chain is the one lines 43-51 build on the store of line 41: it reads
    the default collection, embeds queries with the model of line 39,
    retrieves [k = 4] chunks and asks Gemini with the "stuff" chain. *)
Definition chain_ok (c : QAChain) : Prop := c = build_qa_chain default_collection_name.

(** [w'] has the session and the cache of [w], and the default
    collection of [w'] extends that of [w]. *)
Definition frame_of (w w' : World) : Prop :=
  w_session w' = w_session w /\ w_cache w' = w_cache w /\
  collection_entries default_collection_name (w_chroma w) `prefix_of`
  collection_entries default_collection_name (w_chroma w').

#[export] Instance frame_of_preorder : PreOrder frame_of.
Proof.
  split.
  - intros w. unfold frame_of. done.
  - intros w1 w2 w3 (? & ? & ?) (? & ? & ?). unfold frame_of.
    split; [congruence|]. split; [congruence|]. by etrans.
Qed.

Definition collection_grows (E : list Entry) (w : World) : Prop :=
  E `prefix_of` collection_entries default_collection_name (w_chroma w).

Section Frame.
Context `{!Services}.

Lemma guarded_process_pdf_keeps_session p s :
  est_preserves (fun w => w_session w = s) (guarded_process_pdf p).
Proof.
  unfold guarded_process_pdf, process_pdf, pypdf_loader_load, chroma_from_documents,
    report_error, call_service, st_emit.
  py_preserves.
Qed.

Lemma guarded_process_pdf_keeps_cache p c :
  est_preserves (fun w => w_cache w = c) (guarded_process_pdf p).
Proof.
  unfold guarded_process_pdf, process_pdf, pypdf_loader_load, chroma_from_documents,
    report_error, call_service, st_emit.
  py_preserves.
Qed.

(** The [try] block only adds to the default collection. *)
Lemma guarded_process_pdf_grows p E :
  est_preserves (collection_grows E) (guarded_process_pdf p).
Proof.
  unfold guarded_process_pdf, process_pdf, pypdf_loader_load, chroma_from_documents,
    report_error, call_service, st_emit.
  py_preserves; unfold collection_grows in *; world_simp.
  - by rewrite collection_entries_get_or_create.
  - rewrite collection_entries_add. by apply prefix_app_r.
Qed.

Lemma process_pdf_result p w r w' :
  process_pdf p w = (inr r, w') -> r = Some (build_qa_chain default_collection_name).
Proof.
  unfold process_pdf, pypdf_loader_load, chroma_from_documents, call_service. world_simp.
  destruct (w_fs w !! p); world_simp; [|done].
  destruct (svc_parse_pdf _); world_simp; [done|].
  destruct (embed_documents _ _); world_simp; [done|].
  case_decide; world_simp; [done|]. by intros [= <- _].
Qed.

Lemma guarded_process_pdf_result p w r w' :
  guarded_process_pdf p w = (inr r, w') ->
  forall c, r = Some c -> chain_ok c.
Proof.
  unfold guarded_process_pdf. cbn [est_try_except].
  destruct (process_pdf p w) as [[e|r0] w0] eqn:E.
  - destruct (is_Exception e); [|done]. unfold report_error. world_simp. by intros [= <- _].
  - intros [= <- _] c Hc. apply process_pdf_result in E. rewrite E in Hc.
    by injection Hc as <-.
Qed.

Lemma guarded_process_pdf_frame p w :
  frame_of w (snd (guarded_process_pdf p w)).
Proof.
  split; [|split].
  - apply (guarded_process_pdf_keeps_session p (w_session w) w eq_refl).
  - apply (guarded_process_pdf_keeps_cache p (w_cache w) w eq_refl).
  - apply (guarded_process_pdf_grows p _ w). unfold collection_grows. reflexivity.
Qed.

Lemma remove_temp_file_frame p w0 :
  est_preserves (frame_of w0) (remove_temp_file p).
Proof. unfold remove_temp_file, os_path_exists, os_remove. py_preserves. Qed.

(** Processing changes neither the session nor the cache, only extends
    the default collection, and returns only chains over it. *)
Lemma get_qa_chain_from_pdf_frame uf w r w' :
  get_qa_chain_from_pdf uf w = (r, w') ->
  frame_of w w' /\ (forall c, r = inr (Some c) -> chain_ok c).
Proof.
  rewrite get_qa_chain_from_pdf_unfold.
  destruct (named_temporary_file_write _ _) as [[e|p] w2] eqn:Ew;
    apply named_temporary_file_write_frame in Ew as (seq & f & n & ->).
  - intros [= <- <-]. split; [|done]. unfold frame_of. world_simp. done.
  - cbn [est_finally].
    match goal with |- context [guarded_process_pdf p ?W] => set (w2 := W) end.
    assert (H2 : frame_of w w2) by (unfold frame_of; world_simp; done).
    pose proof (guarded_process_pdf_frame p w2) as Hg.
    pose proof (guarded_process_pdf_result p w2) as Hres.
    destruct (guarded_process_pdf p w2) as [r1 w3] eqn:Eg. cbn [snd] in Hg.
    pose proof (remove_temp_file_frame p w3 w3 (reflexivity _)) as Hr.
    destruct (remove_temp_file p w3) as [[e|u] w4]; cbn [snd] in Hr;
      intros [= <- <-]; (split; [by do 2 (etrans; [eassumption|])|]).
    + done.
    + intros c ->. exact (Hres (Some c) w3 eq_refl c eq_refl).
Qed.
End Frame.

(** ** Witnesses

    The theorems on an upload holding the sentence of the spec's
    end-to-end scenario, on the spec's zero-byte [fake.pdf], and on a disk
    of 1000 bytes (5 for the full disk). *)

#[local] Existing Instance demo_services.

Definition paris_upload : UploadedFile :=
  demo_upload "capital.pdf" "The capital of France is Paris.".
Definition fake_upload : UploadedFile := demo_upload "fake.pdf" "".
Definition disk_1000 : World := demo_world ∅ 1000.
Definition disk_5 : World := demo_world ∅ 5.

Lemma get_qa_chain_from_pdf_cleanup_witness :
  get_qa_chain_from_pdf paris_upload disk_1000 =
    (inr (Some (build_qa_chain default_collection_name)),
     snd (get_qa_chain_from_pdf paris_upload disk_1000)) /\
  w_fs (snd (get_qa_chain_from_pdf paris_upload disk_1000)) = w_fs disk_1000 /\
  w_fs_free (snd (get_qa_chain_from_pdf paris_upload disk_1000)) = w_fs_free disk_1000.
Proof.
  assert (H : get_qa_chain_from_pdf paris_upload disk_1000 =
    (inr (Some (build_qa_chain default_collection_name)),
     snd (get_qa_chain_from_pdf paris_upload disk_1000))) by (vm_compute; reflexivity).
  split; [exact H | exact (get_qa_chain_from_pdf_cleanup _ _ _ _ H)].
Defined.

Lemma get_qa_chain_from_pdf_returns_witness :
  (exists i, i < TMP_MAX /\ w_fs disk_1000 !! tmp_name (w_tmp_seq disk_1000 + i) = None) /\
  length (uf_bytes paris_upload) <= w_fs_free disk_1000 /\
  exists r w', get_qa_chain_from_pdf paris_upload disk_1000 = (inr r, w').
Proof.
  assert (H1 : exists i, i < TMP_MAX /\ w_fs disk_1000 !! tmp_name (w_tmp_seq disk_1000 + i) = None)
    by (exists 0; split; [rewrite TMP_MAX_S; apply Nat.lt_0_succ | reflexivity]).
  assert (H2 : length (uf_bytes paris_upload) <= w_fs_free disk_1000) by (vm_compute; lia).
  split; [exact H1|]. split; [exact H2|]. exact (get_qa_chain_from_pdf_returns _ _ H1 H2).
Defined.

Lemma get_qa_chain_from_pdf_write_error_leaks_witness :
  w_fs disk_5 !! tmp_name (w_tmp_seq disk_5) = None /\
  w_fs_free disk_5 < length (uf_bytes paris_upload) /\
  exists w', get_qa_chain_from_pdf paris_upload disk_5 =
               (inl (OSError "[Errno 28] No space left on device"), w') /\
             w_fs w' = <[tmp_name (w_tmp_seq disk_5) := []]> (w_fs disk_5).
Proof.
  assert (H1 : w_fs disk_5 !! tmp_name (w_tmp_seq disk_5) = None) by reflexivity.
  assert (H2 : w_fs_free disk_5 < length (uf_bytes paris_upload)) by (vm_compute; lia).
  split; [exact H1|]. split; [exact H2|]. exact (get_qa_chain_from_pdf_write_error_leaks _ _ H1 H2).
Defined.

Definition paris_pages : list string := ["The capital of France is Paris."].
Definition paris_splits : list Document :=
  split_documents (loaded_pages (tmp_name (w_tmp_seq disk_1000)) paris_pages).

Lemma get_qa_chain_from_pdf_success_witness :
  svc_parse_pdf (uf_bytes paris_upload) = inr paris_pages /\
  paris_splits <> [] /\
  embed_documents embedding_model (map page_content paris_splits) = inr [[31%Z]] /\
  exists w', get_qa_chain_from_pdf paris_upload disk_1000 =
               (inr (Some (build_qa_chain default_collection_name)), w') /\
    collection_entries default_collection_name (w_chroma w') =
      collection_entries default_collection_name (w_chroma disk_1000) ++
      zip_with mkEntry paris_splits [[31%Z]] /\
    w_fs w' = w_fs disk_1000 /\ w_ui w' = w_ui disk_1000 /\
    w_session w' = w_session disk_1000 /\ w_cache w' = w_cache disk_1000.
Proof.
  assert (H1 : svc_parse_pdf (uf_bytes paris_upload) = inr paris_pages) by reflexivity.
  assert (H2 : paris_splits <> []) by decide_by_eval.
  assert (H3 : embed_documents embedding_model (map page_content paris_splits) = inr [[31%Z]])
    by reflexivity.
  split; [exact H1|]. split; [exact H2|]. split; [exact H3|].
  apply (get_qa_chain_from_pdf_success paris_upload disk_1000 paris_pages [[31%Z]]);
    [reflexivity | vm_compute; lia | exact H1 | exact H2 | exact H3].
Defined.

Lemma get_qa_chain_from_pdf_parse_error_witness :
  svc_parse_pdf (uf_bytes fake_upload) = inl "Cannot read an empty file" /\
  get_qa_chain_from_pdf fake_upload disk_1000 =
    (inr None, set_ui (w_ui disk_1000 ++
                       [ElError ("Error processing PDF: " ++ "Cannot read an empty file")])
                      (set_tmp_seq (S (w_tmp_seq disk_1000)) (printed fake_upload disk_1000))).
Proof.
  assert (H : svc_parse_pdf (uf_bytes fake_upload) = inl "Cannot read an empty file")
    by reflexivity.
  split; [exact H|].
  apply (get_qa_chain_from_pdf_parse_error fake_upload disk_1000);
    [reflexivity | vm_compute; lia | exact H].
Defined.

Definition france_question : string := "What is the capital of France?".

(** A parser for scanned documents: every file is two pages without text. *)
Definition scanned_services : Services := {|
  svc_parse_pdf bytes := inr [EmptyString; EmptyString];
  svc_embed := @svc_embed demo_services;
  svc_generate := @svc_generate demo_services
|}.

Lemma get_qa_chain_from_pdf_no_text_witness :
  @svc_parse_pdf scanned_services (uf_bytes paris_upload) = inr [EmptyString; EmptyString] /\
  @get_qa_chain_from_pdf scanned_services paris_upload disk_1000 =
    (inr None,
     set_ui (w_ui disk_1000 ++ [ElError ("Error processing PDF: " ++
                                         "Expected IDs to be a non-empty list, got []")])
            (set_chroma (get_or_create_collection default_collection_name (w_chroma disk_1000))
                        (set_tmp_seq (S (w_tmp_seq disk_1000)) (printed paris_upload disk_1000)))).
Proof.
  assert (H : @svc_parse_pdf scanned_services (uf_bytes paris_upload) = inr [EmptyString; EmptyString])
    by reflexivity.
  split; [exact H|].
  apply (@get_qa_chain_from_pdf_no_text scanned_services paris_upload disk_1000 [EmptyString; EmptyString]);
    [reflexivity | vm_compute; lia | exact H | repeat constructor].
Defined.
