(* ===== verification/Cache.v ===== *)
(** * Cache: [@st.cache_resource] on [get_qa_chain_from_pdf] (app.py line 24)

    Streamlit keys the cache of a decorated function by a hash of its
    arguments; its hasher treats an [UploadedFile] apart and hashes the
    file's name, its read position and its bytes ([cache_key]), so two
    uploads share an entry when they have the same name and the same
    content.  On a miss the function runs; if it returns, its value is
    stored together with the page elements it emitted, which Streamlit
    replays on every later hit.  An exception is not cached.  A returned
    [None] is a value like any other: a failed processing is cached too.
    The cache belongs to the process, not to a session. *)

From S2P Require Import Prelude Chunker VectorStore Runtime Pipeline.

Local Open Scope py_scope.

(** The cache key of the argument [uploaded_file]: its name, position
    and bytes. *)
Definition cache_key (uf : UploadedFile) : CacheKey :=
  mkCacheKey (uf_name uf) (uf_pos uf) (uf_bytes uf).

(** The decorator: look the key up; on a hit replay the recorded elements
    and return the stored value; on a miss run [body] with a fresh record
    of elements, append them to the page, and store the value. *)
Definition cache_resource (key : CacheKey) (body : M (option QAChain))
    : M (option QAChain) :=
  fun w =>
    match w_cache w !! key with
    | Some (v, msgs) => (inr v, set_ui (w_ui w ++ msgs) w)
    | None =>
        let '(r, w1) := body (set_ui [] w) in
        let w2 := set_ui (w_ui w ++ w_ui w1) w1 in
        match r with
        | inl e => (inl e, w2)
        | inr v => (inr v, set_cache (<[key := (v, w_ui w1)]> (w_cache w2)) w2)
        end
    end.

(** Every chain in the cache reads the default collection. *)
Definition cache_ok (cache : gmap CacheKey (option QAChain * list Element)) : Prop :=
  forall k c msgs, cache !! k = Some (Some c, msgs) -> chain_ok c.

(** The decorator keeps every property of the world that the page and
    the cache do not affect, as soon as the decorated body keeps it. *)
Lemma cache_resource_preserves (P : World -> Prop) key body :
  (forall w u, P w -> P (set_ui u w)) -> (forall w c, P w -> P (set_cache c w)) ->
  est_preserves P body -> est_preserves P (cache_resource key body).
Proof.
  intros Hui Hc Hb w Hw. unfold cache_resource.
  destruct (w_cache w !! key) as [[v msgs]|]; [cbn [snd]; auto|].
  pose proof (Hb _ (Hui w [] Hw)) as H1.
  destruct (body (set_ui [] w)) as [[e|[v|]] w1]; cbn [snd] in *;
    first [by apply Hui | apply Hc, Hui, H1].
Qed.

(** C28. The cache round trip: whatever the state of the cache, once a
    call of the decorated function with [key] has returned [v] and shown
    the elements [msgs], the next call with the same key returns [v]
    again and shows [msgs] again, whatever body it is given: the body is
    not run, and nothing but the page changes. *)
Theorem cache_resource_replay key body body' w v w1 :
  cache_resource key body w = (inr v, w1) ->
  exists msgs, w_ui w1 = w_ui w ++ msgs /\
    cache_resource key body' w1 = (inr v, set_ui (w_ui w1 ++ msgs) w1).
Proof.
  unfold cache_resource. destruct (w_cache w !! key) as [[v0 msgs]|] eqn:Ek.
  - intros [= <- <-]. exists msgs. world_simp. rewrite Ek. by split.
  - destruct (body (set_ui [] w)) as [[e|v0] w0]; intros [= <- <-].
    exists (w_ui w0). world_simp. rewrite lookup_insert_eq. by split.
Qed.

(** A returned value is in the cache under its key afterwards. *)
Lemma cache_resource_stores key body w v w1 :
  cache_resource key body w = (inr v, w1) -> exists msgs, w_cache w1 !! key = Some (v, msgs).
Proof.
  unfold cache_resource. destruct (w_cache w !! key) as [[v0 msgs]|] eqn:Ek.
  - intros [= <- <-]. by exists msgs.
  - destruct (body (set_ui [] w)) as [[e|v0] w0]; intros [= <- <-].
    exists (w_ui w0). world_simp. apply lookup_insert_eq.
Qed.

(** Entries are never removed: when the body leaves the cache alone,
    the decorator only adds the entry of a miss. *)
Lemma cache_resource_grows key body w r w1 :
  (forall w, w_cache (snd (body w)) = w_cache w) ->
  cache_resource key body w = (r, w1) -> w_cache w ⊆ w_cache w1.
Proof.
  intros Hb. unfold cache_resource. destruct (w_cache w !! key) as [[v0 msgs]|] eqn:Ek.
  - intros [= <- <-]. done.
  - pose proof (Hb (set_ui [] w)) as H0.
    destruct (body (set_ui [] w)) as [[e|[v0|]] w0]; cbn [snd] in H0; intros [= <- <-]; world_simp;
      rewrite H0; world_simp; first [done|by apply insert_subseteq].
Qed.

Section Cache.
Context `{!Services}.

(** Line 24-25: the decorated function. *)
Definition cached_get_qa_chain_from_pdf (uf : UploadedFile) : M (option QAChain) :=
  cache_resource (cache_key uf) (get_qa_chain_from_pdf uf).

(** An upload whose bytes are in the cache runs nothing (no print, no
    temporary file, no parsing, no embedding): the stored value is
    returned and the recorded elements are shown again. *)
Lemma cached_get_qa_chain_hit uf w v msgs :
  w_cache w !! cache_key uf = Some (v, msgs) ->
  cached_get_qa_chain_from_pdf uf w = (inr v, set_ui (w_ui w ++ msgs) w).
Proof. intros Hhit. unfold cached_get_qa_chain_from_pdf, cache_resource. by rewrite Hhit. Qed.

Lemma cached_get_qa_chain_miss uf w r w1 :
  w_cache w !! cache_key uf = None ->
  get_qa_chain_from_pdf uf (set_ui [] w) = (r, w1) ->
  cached_get_qa_chain_from_pdf uf w =
    match r with
    | inl e => (inl e, set_ui (w_ui w ++ w_ui w1) w1)
    | inr v => (inr v, set_cache (<[cache_key uf := (v, w_ui w1)]> (w_cache w1))
                                 (set_ui (w_ui w ++ w_ui w1) w1))
    end.
Proof.
  intros Hmiss Hrun. unfold cached_get_qa_chain_from_pdf, cache_resource.
  rewrite Hmiss, Hrun. by destruct r.
Qed.

(** The decorated call keeps the session and [cache_ok], only extends
    the default collection, and returns only chains over it. *)
Lemma cached_get_qa_chain_frame uf w r w' :
  cache_ok (w_cache w) ->
  cached_get_qa_chain_from_pdf uf w = (r, w') ->
  w_session w' = w_session w /\ cache_ok (w_cache w') /\
  collection_entries default_collection_name (w_chroma w) `prefix_of`
    collection_entries default_collection_name (w_chroma w') /\
  (forall c, r = inr (Some c) -> chain_ok c).
Proof.
  intros Hok. unfold cached_get_qa_chain_from_pdf, cache_resource.
  destruct (w_cache w !! cache_key uf) as [[v msgs]|] eqn:Ek.
  - intros [= <- <-]. world_simp. split; [done|]. split; [done|]. split; [done|].
    intros c [= ->]. exact (Hok _ _ _ Ek).
  - destruct (get_qa_chain_from_pdf uf (set_ui [] w)) as [r1 w1] eqn:Eg.
    apply get_qa_chain_from_pdf_frame in Eg as [(Hs & Hc & Hp) Hr]. world_simp.
    destruct r1 as [e|[c0|]]; intros [= <- <-]; world_simp;
      (split; [done|]); (split; [|split; [done|]]);
      first [ by rewrite Hc
            | intros k c msgs; rewrite lookup_insert; case_decide;
                [intros [= -> _]; by apply Hr | rewrite Hc; apply Hok]
            | intros c [= ->]; by apply Hr
            | done ].
Qed.

Lemma cached_get_qa_chain_grows uf w r w1 :
  cached_get_qa_chain_from_pdf uf w = (r, w1) -> w_cache w ⊆ w_cache w1.
Proof.
  apply cache_resource_grows. intros w0.
  destruct (get_qa_chain_from_pdf uf w0) as [r0 w0'] eqn:Eg.
  by apply get_qa_chain_from_pdf_frame in Eg as [(_ & Hc & _) _].
Qed.
End Cache.

#[local] Existing Instance demo_services.

(** ** Witness: the spec's zero-byte [fake.pdf] is rejected and the
    result cached; the next call replays it without running its body,
    here a body that would raise. *)

Definition after_fake : World := snd (cached_get_qa_chain_from_pdf fake_upload disk_1000).

Lemma cache_resource_replay_witness :
  cache_resource (cache_key fake_upload) (get_qa_chain_from_pdf fake_upload) disk_1000 =
    (inr None, after_fake) /\
  exists msgs, w_ui after_fake = w_ui disk_1000 ++ msgs /\
    cache_resource (cache_key fake_upload) (est_raise FileExistsError) after_fake =
      (inr None, set_ui (w_ui after_fake ++ msgs) after_fake).
Proof.
  assert (H : cache_resource (cache_key fake_upload) (get_qa_chain_from_pdf fake_upload) disk_1000 =
                (inr None, after_fake)) by (vm_compute; reflexivity).
  split; [exact H|]. exact (cache_resource_replay _ _ _ _ _ _ H).
Defined.
