(* ===== verification/App.v ===== *)
(** * App: the Streamlit page of app.py (lines 16-95) as a rerun step

    Streamlit runs the whole script again on every interaction, with the
    widgets' current values: the uploaded file (or none) and the text of
    the question box.  [app_script] is one run of the script; [rerun]
    adds what the script runner does around it (a fresh page, an uncaught
    exception shown on the page, [st.stop] ending the run quietly), and
    [app_step] relates the world before and after a rerun.  The session
    state, the cache, the Chroma client and the file system carry over
    from one rerun to the next.

    The theorems: the session invariant of every reachable world
    ([session_ok]), processing keyed by the file name, the crash when a
    question is asked after a failed processing, the entries of earlier
    uploads staying in the collection every later chain searches, and the
    missing-credential run. *)

From S2P Require Import Prelude Chunker VectorStore Runtime Config Pipeline Cache.

Local Open Scope py_scope.

(** The widgets' values in a run: [st.file_uploader] and [st.text_input]. *)
Record Inputs := mkInputs {
  in_file : option UploadedFile;
  in_question : string
}.

Section App.
Context `{!Services}.

(** Lines 64-70. *)
Definition page_header : M unit :=
  st_emit (ElPageConfig "AskDoc RAG") ;;
  st_emit (ElTitle "AskDoc RAG") ;;
  st_emit (ElWrite "Upload a PDF document and ask any question about its content.") ;;
  st_emit (ElSidebar (ElHeader "Upload Your Document")) ;;
  st_emit (ElSidebar (ElFileUploader "Upload a PDF")).

(** Line 74's condition: no chain in the session, or a chain for
    another file name.  The [or] short-circuits: [file_name] is read only
    when [qa_chain] is present. *)
Definition needs_processing (name : string) : M bool :=
  w <- est_get ;;
  match ss_qa_chain (w_session w) with
  | None => est_ret true
  | Some _ =>
      match ss_file_name (w_session w) with
      | None => est_raise (AttributeError "st.session_state has no attribute file_name")
      | Some n => est_ret (negb (String.eqb n name))
      end
  end.

(** Lines 76-77: [st.session_state.qa_chain = ...] then
    [st.session_state.file_name = uploaded_file.name]. *)
Definition store_result (chain : option QAChain) (name : string) : M unit :=
  est_modify (fun w => set_session (mkSession (Some chain) (ss_file_name (w_session w))) w) ;;
  est_modify (fun w => set_session (mkSession (ss_qa_chain (w_session w)) (Some name)) w).

(** Lines 75-82: the body of the [if]. *)
Definition process_upload (uf : UploadedFile) : M unit :=
  st_emit (ElSpinner ("Processing " ++ uf_name uf ++ "... This may take a moment.")) ;;
  chain <- cached_get_qa_chain_from_pdf uf ;;
  store_result chain (uf_name uf) ;;
  match chain with
  | Some _ => st_emit (ElSuccess "Document processed! You can now ask questions.")
  | None => st_emit (ElError "Failed to process document. Please try again.")
  end.

(** Lines 73-82. *)
Definition process_document (uf : UploadedFile) : M unit :=
  b <- needs_processing (uf_name uf) ;;
  if b then process_upload uf else est_ret tt.

(** Lines 84-92: the key test of line 85 is membership, so a session
    holding [None] shows the question box too. *)
Definition handle_question (q : string) : M unit :=
  w <- est_get ;;
  match ss_qa_chain (w_session w) with
  | None => est_ret tt
  | Some chain =>
      st_emit (ElTextInput "Ask a question about your document:") ;;
      if py_str_truthy q then
        st_emit (ElSpinner "Searching for the answer...") ;;
        match chain with
        | None => est_raise (AttributeError "'NoneType' object has no attribute 'run'")
        | Some c => response <- qa_chain_run c q ;; st_emit (ElWrite response)
        end
      else est_ret tt
  end.

(** Lines 63-95. *)
Definition app_body (inp : Inputs) : M unit :=
  page_header ;;
  match in_file inp with
  | Some uf => process_document uf ;; handle_question (in_question inp)
  | None => st_emit (ElInfo "Please upload a PDF document in the sidebar to get started.")
  end.

(** Lines 16-95. *)
Definition app_script (inp : Inputs) : M unit :=
  check_api_key ;;
  app_body inp.

(** Streamlit's script runner around one run. *)
Definition rerun (inp : Inputs) (w : World) : World :=
  let '(r, w') := app_script inp (set_ui [] w) in
  match r with
  | inl e => if is_Exception e then set_ui (w_ui w' ++ [ElException e]) w' else w'
  | inr _ => w'
  end.

Inductive app_step : World -> World -> Prop :=
| app_step_rerun inp w : app_step w (rerun inp w).

Definition reachable (w0 w : World) : Prop := rtc app_step w0 w.
End App.

(** A fresh process: nothing cached, no collection, an empty session. *)
Definition initial_world (env dotenv : gmap string string)
    (fs : gmap string (list Byte.byte)) (free : nat) : World :=
  mkWorld env dotenv fs free 0 [] [] ∅ ∅ empty_session.

(** ** The invariant of the session and the cache *)

(** A chain in the session comes with its file name, and reads the
    default collection. *)
Definition session_ok (s : Session) : Prop :=
  (is_Some (ss_qa_chain s) -> is_Some (ss_file_name s)) /\
  (forall c, ss_qa_chain s = Some (Some c) -> chain_ok c).

(** The invariant, and the default collection extending [E]. *)
Definition app_inv (E : list Entry) (w : World) : Prop :=
  session_ok (w_session w) /\ cache_ok (w_cache w) /\ collection_grows E w.

Section AppInvariant.
Context `{!Services}.

Lemma qa_chain_run_readonly c q w : snd (qa_chain_run c q w) = w.
Proof.
  unfold qa_chain_run, call_service. world_simp.
  destruct (svc_embed _ _ _); world_simp; [done|]. by destruct (svc_generate _ _).
Qed.

Lemma qa_chain_run_preserves (P : World -> Prop) c q : est_preserves P (qa_chain_run c q).
Proof. intros w Hw. by rewrite qa_chain_run_readonly. Qed.

Lemma process_upload_inv E uf : est_preserves (app_inv E) (process_upload uf).
Proof.
  intros w (Hs & Hc & Hg). unfold process_upload, store_result. world_simp.
  match goal with |- context [cached_get_qa_chain_from_pdf uf ?W] => set (w1 := W) end.
  destruct (cached_get_qa_chain_from_pdf uf w1) as [r w2] eqn:Ec.
  apply cached_get_qa_chain_frame in Ec as (Hs2 & Hc2 & Hp2 & Hr); [|done].
  assert (Hg2 : collection_grows E w2) by (unfold collection_grows in *; by etrans).
  destruct r as [e|chain]; world_simp.
  - split; [rewrite Hs2; exact Hs|done].
  - split; [|destruct chain; done]. split; [destruct chain; by eauto|].
    intros c Hc'. destruct chain as [c0|]; world_simp; [|congruence]. injection Hc' as <-. by apply Hr.
Qed.

(** A property of the world that the page elements and the environment
    do not affect is kept by a whole run of the script as soon as
    processing an upload keeps it: the rest of the script only writes the
    page and [os.environ], and [qa_chain.run] writes nothing. *)
Lemma app_script_preserves (P : World -> Prop) inp :
  (forall w u, P w -> P (set_ui u w)) -> (forall w e, P w -> P (set_env e w)) ->
  (forall uf, est_preserves P (process_upload uf)) -> est_preserves P (app_script inp).
Proof.
  intros Hui Henv Hup. pose proof (qa_chain_run_preserves P).
  unfold app_script, app_body, check_api_key, load_dotenv, os_getenv, os_environ_set, st_stop,
    page_header, process_document, needs_processing, handle_question, st_emit.
  py_preserves; eauto.
Qed.

Lemma rerun_preserves (P : World -> Prop) inp w :
  (forall w u, P w -> P (set_ui u w)) -> (forall w e, P w -> P (set_env e w)) ->
  (forall uf, est_preserves P (process_upload uf)) -> P w -> P (rerun inp w).
Proof.
  intros Hui Henv Hup Hw. unfold rerun.
  pose proof (app_script_preserves P inp Hui Henv Hup (set_ui [] w) (Hui _ _ Hw)) as H'.
  destruct (app_script inp (set_ui [] w)) as [[e|u] w']; [|done].
  destruct (is_Exception e); [by apply Hui|done].
Qed.

Lemma reachable_preserves (P : World -> Prop) w1 w2 :
  (forall w u, P w -> P (set_ui u w)) -> (forall w e, P w -> P (set_env e w)) ->
  (forall uf, est_preserves P (process_upload uf)) -> reachable w1 w2 -> P w1 -> P w2.
Proof.
  intros Hui Henv Hup. induction 1 as [|w w' w'' [inp]]; [done|].
  intros Hw. by apply IHrtc, rerun_preserves.
Qed.

Lemma reachable_inv E w1 w2 : reachable w1 w2 -> app_inv E w1 -> app_inv E w2.
Proof. apply reachable_preserves; [done|done|apply process_upload_inv]. Qed.

(** Entries of the resource cache are never removed by a rerun. *)
Lemma process_upload_cache_grows c0 uf : est_preserves (fun w => c0 ⊆ w_cache w) (process_upload uf).
Proof.
  intros w Hw. unfold process_upload, store_result. world_simp.
  match goal with |- context [cached_get_qa_chain_from_pdf uf ?W] => set (w1 := W) end.
  destruct (cached_get_qa_chain_from_pdf uf w1) as [r w2] eqn:Ec.
  apply cached_get_qa_chain_grows in Ec. subst w1.
  destruct r as [e|[c|]]; world_simp; (etrans; [exact Hw|exact Ec]).
Qed.

Lemma reachable_cache_grows w1 w2 : reachable w1 w2 -> w_cache w1 ⊆ w_cache w2.
Proof.
  intros Hr. apply (reachable_preserves (fun w => w_cache w1 ⊆ w_cache w) w1 w2);
    [by intros..|apply process_upload_cache_grows|exact Hr|reflexivity].
Qed.
End AppInvariant.

(** ** Runs of the script *)

Definition header_elements : list Element :=
  [ElPageConfig "AskDoc RAG"; ElTitle "AskDoc RAG";
   ElWrite "Upload a PDF document and ask any question about its content.";
   ElSidebar (ElHeader "Upload Your Document"); ElSidebar (ElFileUploader "Upload a PDF")].

Section Runs.
Context `{!Services}.

Lemma page_header_run w : page_header w = (inr tt, set_ui (w_ui w ++ header_elements) w).
Proof. unfold page_header, header_elements. world_simp. by rewrite <- !app_assoc. Qed.

Lemma app_script_key_present inp w :
  py_opt_str_truthy (loaded_env w !! GOOGLE_API_KEY) = true ->
  app_script inp w = app_body inp (set_env (loaded_env w) w).
Proof. intros Hkey. unfold app_script. cbn [est_bind]. by rewrite check_api_key_present. Qed.

(** Line 74 is false for the file whose name the session holds: nothing
    runs. *)
Lemma process_document_same_name uf w chain :
  ss_qa_chain (w_session w) = Some chain -> ss_file_name (w_session w) = Some (uf_name uf) ->
  process_document uf w = (inr tt, w).
Proof.
  intros Hc Hn. unfold process_document, needs_processing. world_simp.
  rewrite Hc. world_simp. rewrite Hn. world_simp. by rewrite String.eqb_refl.
Qed.

(** Lines 85-91 with [None] in the session and a question. *)
Lemma handle_question_none q w :
  ss_qa_chain (w_session w) = Some None -> py_str_truthy q = true ->
  handle_question q w =
    (inl (AttributeError "'NoneType' object has no attribute 'run'"),
     set_ui (w_ui w ++ [ElTextInput "Ask a question about your document:";
                        ElSpinner "Searching for the answer..."]) w).
Proof.
  intros Hc Hq. unfold handle_question. world_simp. rewrite Hc. world_simp.
  rewrite Hq. world_simp. by rewrite <- app_assoc.
Qed.
End Runs.

(** ** Theorems *)

Section AppTheorems.
Context `{!Services}.

Lemma initial_world_inv env dotenv fs free : app_inv [] (initial_world env dotenv fs free).
Proof.
  unfold initial_world. split; [|split]; world_simp.
  - split; [by intros []|done].
  - intros k c msgs. by rewrite lookup_empty.
  - apply prefix_nil.
Qed.

(** C4. Invariant: in every world reachable from a fresh process, a
    chain in the session comes with the file name it was built for, and
    every chain in the session or in the cache is the chain of lines
    43-51 over the default collection ([chain_ok]). *)
Theorem reachable_session_cache_ok env dotenv fs free w :
  reachable (initial_world env dotenv fs free) w ->
  session_ok (w_session w) /\ cache_ok (w_cache w).
Proof.
  intros Hr. destruct (reachable_inv [] _ _ Hr (initial_world_inv env dotenv fs free))
    as (Hs & Hc & _).
  done.
Qed.

(** C9. Finding: the chunks of an earlier upload stay searchable.  Once
    an entry is in the shared collection, every chain the session holds
    afterwards, for whatever file, searches a collection that contains
    it: uploading a new file does not discard the old index. *)
Theorem earlier_chunks_stay_searchable env dotenv fs free w1 w2 c e :
  reachable (initial_world env dotenv fs free) w1 -> reachable w1 w2 ->
  e ∈ collection_entries default_collection_name (w_chroma w1) ->
  ss_qa_chain (w_session w2) = Some (Some c) ->
  e ∈ collection_entries (qa_collection c) (w_chroma w2).
Proof.
  intros Hr1 Hr12 He Hc.
  destruct (reachable_inv [] _ _ Hr1 (initial_world_inv env dotenv fs free)) as (Hs1 & Hc1 & _).
  destruct (reachable_inv (collection_entries default_collection_name (w_chroma w1)) _ _ Hr12)
    as ([_ Hchain] & _ & Hgrow); [split; [done|split; [done|]]; unfold collection_grows; done|].
  rewrite (Hchain c Hc). cbn [qa_collection build_qa_chain].
  destruct Hgrow as [k ->]. apply elem_of_app. by left.
Qed.

Lemma process_upload_parse_error uf w msg :
  w_cache w !! cache_key uf = None ->
  w_fs w !! tmp_name (w_tmp_seq w) = None ->
  length (uf_bytes uf) <= w_fs_free w ->
  svc_parse_pdf (uf_bytes uf) = inl msg ->
  exists w', process_upload uf w = (inr tt, w') /\
    w_session w' = mkSession (Some None) (Some (uf_name uf)) /\
    w_env w' = w_env w /\ w_dotenv w' = w_dotenv w /\
    w_ui w' = w_ui w ++ [ElSpinner ("Processing " ++ uf_name uf ++ "... This may take a moment.");
                         ElError ("Error processing PDF: " ++ msg);
                         ElError "Failed to process document. Please try again."].
Proof.
  intros Hmiss Hfree Hroom Hparse. unfold process_upload, store_result. world_simp.
  match goal with |- context [cached_get_qa_chain_from_pdf uf ?W] => set (w1 := W) end.
  rewrite (cached_get_qa_chain_miss uf w1 _ _ Hmiss
    (get_qa_chain_from_pdf_rejected uf (set_ui [] w1) msg Hfree Hroom Hparse)).
  world_simp. eexists. split; [reflexivity|]. unfold printed, w1. world_simp.
  split; [done|]. split; [done|]. split; [done|]. by rewrite <- !app_assoc.
Qed.

(** The key stays set across reruns once [load_dotenv] has run. *)
Lemma loaded_env_idem w :
  py_opt_str_truthy (loaded_env w !! GOOGLE_API_KEY) = true ->
  py_opt_str_truthy (loaded_env (set_env (loaded_env w) w) !! GOOGLE_API_KEY) = true.
Proof.
  unfold loaded_env. world_simp.
  destruct ((w_env w ∪ w_dotenv w) !! GOOGLE_API_KEY) eqn:E; [|done].
  by rewrite (lookup_union_Some_l _ _ _ _ E).
Qed.

(** C3. Code bug: when processing fails, line 76 stores [None] under
    the key [qa_chain], and line 85 tests the key's presence, not the
    value: the question box is shown, and the first question makes line
    91 call [None.run] and end the run with an [AttributeError].  The
    spec asks that a failed processing leave no pipeline and that the
    page not attempt retrieval. *)
Theorem question_after_failed_processing_crashes uf q w msg :
  py_opt_str_truthy (loaded_env w !! GOOGLE_API_KEY) = true ->
  ss_qa_chain (w_session w) = None ->
  w_cache w !! cache_key uf = None ->
  w_fs w !! tmp_name (w_tmp_seq w) = None ->
  length (uf_bytes uf) <= w_fs_free w ->
  svc_parse_pdf (uf_bytes uf) = inl msg ->
  py_str_truthy q = true ->
  ss_qa_chain (w_session (rerun (mkInputs (Some uf) "") w)) = Some None /\
  w_ui (rerun (mkInputs (Some uf) q) (rerun (mkInputs (Some uf) "") w)) =
    header_elements ++
    [ElTextInput "Ask a question about your document:";
     ElSpinner "Searching for the answer...";
     ElException (AttributeError "'NoneType' object has no attribute 'run'")].
Proof.
  intros Hkey Hnone Hmiss Hfree Hroom Hparse Hq.
  assert (Hrun1 : exists w1, rerun (mkInputs (Some uf) "") w = w1 /\
    w_session w1 = mkSession (Some None) (Some (uf_name uf)) /\
    py_opt_str_truthy (loaded_env w1 !! GOOGLE_API_KEY) = true).
  { unfold rerun. rewrite app_script_key_present by exact Hkey.
    unfold app_body. cbn [est_bind]. rewrite page_header_run. cbn [in_file in_question].
    unfold process_document, needs_processing. world_simp. rewrite Hnone. world_simp.
    match goal with |- context [process_upload uf ?W] => set (w0 := W) end.
    destruct (process_upload_parse_error uf w0 msg) as (w' & Hup & Hs & Henv & Hdot & _);
      try done.
    rewrite Hup. unfold handle_question. world_simp. rewrite Hs. world_simp.
    eexists. split; [reflexivity|]. split; [done|].
    unfold loaded_env. world_simp. rewrite Henv, Hdot. exact (loaded_env_idem w Hkey). }
  destruct Hrun1 as (w1 & -> & Hs1 & Hkey1). split; [by rewrite Hs1|].
  unfold rerun. rewrite app_script_key_present by exact Hkey1.
  unfold app_body. cbn [est_bind]. rewrite page_header_run. cbn [in_file in_question].
  world_simp. rewrite (process_document_same_name uf _ None) by (world_simp; by rewrite Hs1).
  rewrite handle_question_none by (world_simp; by rewrite ?Hs1). world_simp.
  by rewrite <- app_assoc.
Qed.

(** [w] keeps the state of [w0] that outlives the page. *)
Definition untouched (w0 w : World) : Prop :=
  w_session w = w_session w0 /\ w_cache w = w_cache w0 /\ w_chroma w = w_chroma w0 /\
  w_fs w = w_fs w0 /\ w_stdout w = w_stdout w0 /\ w_tmp_seq w = w_tmp_seq w0.

Lemma handle_question_untouched w0 q : est_preserves (untouched w0) (handle_question q).
Proof.
  pose proof (qa_chain_run_preserves (untouched w0)).
  unfold handle_question, st_emit. py_preserves.
Qed.

(** C8. Memoisation by file name (spec section 5): when the session
    holds a chain (or [None]) for a file of the same name, a rerun
    processes nothing, whatever the bytes of the upload and whatever the
    question: the session, the cache, the collection, the file system,
    the printed log and the temporary names are as before. *)
Theorem rerun_same_name_skips_processing uf q w chain :
  ss_qa_chain (w_session w) = Some chain ->
  ss_file_name (w_session w) = Some (uf_name uf) ->
  untouched w (rerun (mkInputs (Some uf) q) w).
Proof.
  intros Hc Hn. unfold rerun.
  destruct (py_opt_str_truthy (loaded_env w !! GOOGLE_API_KEY)) eqn:Hk.
  - rewrite app_script_key_present by exact Hk.
    unfold app_body. cbn [est_bind]. rewrite page_header_run. cbn [in_file in_question].
    world_simp. rewrite (process_document_same_name uf _ chain) by done. world_simp.
    match goal with |- context [handle_question q ?W] => set (w1 := W) end.
    pose proof (handle_question_untouched w q w1) as Hh.
    destruct (handle_question q w1) as [[e|u] w2]; cbn [snd] in Hh.
    + destruct (is_Exception e); apply Hh; done.
    + apply Hh. done.
  - unfold app_script. cbn [est_bind]. rewrite check_api_key_missing by exact Hk.
    world_simp. done.
Qed.

(** C11. Missing credential (spec section 8): when [GOOGLE_API_KEY] is
    unset or empty after [load_dotenv()], a rerun shows exactly one
    element, the error, and nothing else of the page, and processes
    nothing. *)
Theorem rerun_missing_key_stops inp w :
  py_opt_str_truthy (loaded_env w !! GOOGLE_API_KEY) = false ->
  w_ui (rerun inp w) = [ElError missing_key_message] /\ untouched w (rerun inp w).
Proof.
  intros Hk. unfold rerun, app_script. cbn [est_bind].
  rewrite check_api_key_missing by exact Hk. world_simp. done.
Qed.
(** C22. Errors while answering (spec section 7): when the chat model
    fails on a question about the current file, the exception is not
    caught: the page shows the question box and the spinner, then the
    exception, and the session keeps its chain, so the next question can
    be answered without processing again. *)
Theorem answering_error_keeps_chain uf q w c qv msg :
  py_opt_str_truthy (loaded_env w !! GOOGLE_API_KEY) = true ->
  ss_qa_chain (w_session w) = Some (Some c) ->
  ss_file_name (w_session w) = Some (uf_name uf) ->
  py_str_truthy q = true ->
  svc_embed (qa_embed_model c) RetrievalQuery q = inr qv ->
  svc_generate (qa_llm c)
    (stuff_prompt (map entry_doc (similarity_search qv (qa_k c)
                                    (collection_entries (qa_collection c) (w_chroma w)))) q)
    = inl msg ->
  w_ui (rerun (mkInputs (Some uf) q) w) =
    header_elements ++
    [ElTextInput "Ask a question about your document:";
     ElSpinner "Searching for the answer...";
     ElException (GenerationError msg)] /\
  w_session (rerun (mkInputs (Some uf) q) w) = w_session w.
Proof.
  intros Hkey Hc Hn Hq Hemb Hgen. unfold rerun. rewrite app_script_key_present by exact Hkey.
  unfold app_body. cbn [est_bind]. rewrite page_header_run. cbn [in_file in_question].
  world_simp. rewrite (process_document_same_name uf _ (Some c)) by (world_simp; done).
  unfold handle_question, qa_chain_run. world_simp. rewrite Hc. world_simp.
  rewrite Hq. world_simp. rewrite Hemb. world_simp. rewrite Hgen. world_simp.
  split; [by rewrite <- !app_assoc|done].
Qed.


End AppTheorems.

(** C10. Finding (spec sections 7 and 8: a failure leaves no cached
    pipeline and a re-upload lets the user proceed): a failed processing
    is cached for the whole process.  Once the decorated function has
    returned [None] for an upload (a corrupt file, or a transient
    embedding or quota error), every later call with a file of the same
    name and content, after any reruns of the process, returns [None]
    again and replays the error elements without running anything, even
    when every service would now succeed: the first call runs with the
    services [S], the later reruns and the call with any [S']. *)
Theorem cached_failure_sticks (S S' : Services) uf w w1 w2 uf' :
  @cached_get_qa_chain_from_pdf S uf w = (inr None, w1) ->
  @reachable S' w1 w2 ->
  uf_name uf' = uf_name uf -> uf_pos uf' = uf_pos uf -> uf_bytes uf' = uf_bytes uf ->
  exists msgs, @cached_get_qa_chain_from_pdf S' uf' w2 = (inr None, set_ui (w_ui w2 ++ msgs) w2).
Proof.
  intros Hc Hr Hn Hp Hb. destruct (cache_resource_stores _ _ _ _ _ Hc) as [msgs Hk].
  exists msgs. apply (@cached_get_qa_chain_hit S').
  replace (cache_key uf') with (cache_key uf) by (unfold cache_key; congruence).
  exact (lookup_weaken _ _ _ _ Hk (@reachable_cache_grows S' w1 w2 Hr)).
Qed.
(** ** Witnesses

    A fresh process with the key set and a disk of 1000 bytes; the upload
    of the spec's sentence, then of another file. *)

#[local] Existing Instance demo_services.

Definition key_env : gmap string string := {[GOOGLE_API_KEY := "key"]}.
Definition fresh_process : World := initial_world key_env ∅ ∅ 1000.
Definition berlin_upload : UploadedFile :=
  demo_upload "berlin.pdf" "The capital of Germany is Berlin.".
Definition after_paris : World := rerun (mkInputs (Some paris_upload) "") fresh_process.
Definition after_berlin : World := rerun (mkInputs (Some berlin_upload) "") after_paris.

Lemma reachable_session_cache_ok_witness :
  reachable fresh_process after_paris /\
  session_ok (w_session after_paris) /\ cache_ok (w_cache after_paris).
Proof.
  assert (H : reachable fresh_process after_paris) by (apply rtc_once; constructor).
  split; [exact H|]. exact (reachable_session_cache_ok key_env ∅ ∅ 1000 _ H).
Defined.

Definition paris_entry : Entry :=
  mkEntry (mkDocument "The capital of France is Paris." (tmp_name 0) 0) [31%Z].

Lemma earlier_chunks_stay_searchable_witness :
  reachable fresh_process after_paris /\ reachable after_paris after_berlin /\
  paris_entry ∈ collection_entries default_collection_name (w_chroma after_paris) /\
  ss_qa_chain (w_session after_berlin) = Some (Some (build_qa_chain default_collection_name)) /\
  paris_entry ∈ collection_entries (qa_collection (build_qa_chain default_collection_name))
                  (w_chroma after_berlin).
Proof.
  assert (H1 : reachable fresh_process after_paris) by (apply rtc_once; constructor).
  assert (H2 : reachable after_paris after_berlin) by (apply rtc_once; constructor).
  assert (H3 : paris_entry ∈ collection_entries default_collection_name (w_chroma after_paris))
    by decide_by_eval.
  assert (H4 : ss_qa_chain (w_session after_berlin) =
               Some (Some (build_qa_chain default_collection_name))) by (vm_compute; reflexivity).
  split; [exact H1|]. split; [exact H2|]. split; [exact H3|]. split; [exact H4|].
  exact (earlier_chunks_stay_searchable key_env ∅ ∅ 1000 _ _ _ _ H1 H2 H3 H4).
Defined.

Lemma question_after_failed_processing_crashes_witness :
  py_opt_str_truthy (loaded_env fresh_process !! GOOGLE_API_KEY) = true /\
  svc_parse_pdf (uf_bytes fake_upload) = inl "Cannot read an empty file" /\
  ss_qa_chain (w_session (rerun (mkInputs (Some fake_upload) "") fresh_process)) = Some None /\
  w_ui (rerun (mkInputs (Some fake_upload) france_question)
          (rerun (mkInputs (Some fake_upload) "") fresh_process)) =
    header_elements ++
    [ElTextInput "Ask a question about your document:";
     ElSpinner "Searching for the answer...";
     ElException (AttributeError "'NoneType' object has no attribute 'run'")].
Proof.
  assert (H1 : py_opt_str_truthy (loaded_env fresh_process !! GOOGLE_API_KEY) = true)
    by reflexivity.
  assert (H2 : svc_parse_pdf (uf_bytes fake_upload) = inl "Cannot read an empty file")
    by reflexivity.
  split; [exact H1|]. split; [exact H2|].
  apply (question_after_failed_processing_crashes fake_upload france_question fresh_process
           "Cannot read an empty file");
    [exact H1 | reflexivity | reflexivity | reflexivity | vm_compute; lia | exact H2 | reflexivity].
Defined.

(** The same file name with other bytes. *)
Definition capital_other_bytes : UploadedFile := demo_upload "capital.pdf" "Another text.".

Lemma rerun_same_name_skips_processing_witness :
  ss_qa_chain (w_session after_paris) = Some (Some (build_qa_chain default_collection_name)) /\
  ss_file_name (w_session after_paris) = Some (uf_name capital_other_bytes) /\
  untouched after_paris (rerun (mkInputs (Some capital_other_bytes) france_question) after_paris).
Proof.
  assert (H1 : ss_qa_chain (w_session after_paris) =
               Some (Some (build_qa_chain default_collection_name))) by (vm_compute; reflexivity).
  assert (H2 : ss_file_name (w_session after_paris) = Some (uf_name capital_other_bytes))
    by (vm_compute; reflexivity).
  split; [exact H1|]. split; [exact H2|].
  exact (rerun_same_name_skips_processing _ _ _ _ H1 H2).
Defined.

Lemma rerun_missing_key_stops_witness :
  py_opt_str_truthy (loaded_env (initial_world ∅ ∅ ∅ 1000) !! GOOGLE_API_KEY) = false /\
  w_ui (rerun (mkInputs (Some paris_upload) france_question) (initial_world ∅ ∅ ∅ 1000))
    = [ElError missing_key_message] /\
  untouched (initial_world ∅ ∅ ∅ 1000)
    (rerun (mkInputs (Some paris_upload) france_question) (initial_world ∅ ∅ ∅ 1000)).
Proof.
  assert (H : py_opt_str_truthy (loaded_env (initial_world ∅ ∅ ∅ 1000) !! GOOGLE_API_KEY) = false)
    by reflexivity.
  split; [exact H|]. exact (rerun_missing_key_stops _ _ H).
Defined.

(** Services whose chat model is out of quota. *)
Definition quota_services : Services := {|
  svc_parse_pdf := @svc_parse_pdf demo_services;
  svc_embed := @svc_embed demo_services;
  svc_generate m msgs := inl "429 Resource has been exhausted"
|}.

Lemma answering_error_keeps_chain_witness :
  let w := @rerun quota_services (mkInputs (Some paris_upload) "") fresh_process in
  let c := build_qa_chain default_collection_name in
  py_opt_str_truthy (loaded_env w !! GOOGLE_API_KEY) = true /\
  ss_qa_chain (w_session w) = Some (Some c) /\
  ss_file_name (w_session w) = Some (uf_name paris_upload) /\
  @w_ui (@rerun quota_services (mkInputs (Some paris_upload) france_question) w) =
    header_elements ++
    [ElTextInput "Ask a question about your document:";
     ElSpinner "Searching for the answer...";
     ElException (GenerationError "429 Resource has been exhausted")] /\
  w_session (@rerun quota_services (mkInputs (Some paris_upload) france_question) w) = w_session w.
Proof.
  intros w c.
  assert (H1 : py_opt_str_truthy (loaded_env w !! GOOGLE_API_KEY) = true) by (vm_compute; reflexivity).
  assert (H2 : ss_qa_chain (w_session w) = Some (Some c)) by (vm_compute; reflexivity).
  assert (H3 : ss_file_name (w_session w) = Some (uf_name paris_upload)) by (vm_compute; reflexivity).
  split; [exact H1|]. split; [exact H2|]. split; [exact H3|].
  apply (@answering_error_keeps_chain quota_services paris_upload france_question w c [30%Z]);
    [exact H1 | exact H2 | exact H3 | reflexivity | reflexivity | reflexivity].
Defined.

(** A parser, an embedding API and a chat model that now all succeed. *)
Definition working_services : Services := {|
  svc_parse_pdf bytes := inr ["Recovered text."];
  svc_embed model task t := inr [1%Z];
  svc_generate m msgs := inr "ok"
|}.

Definition fake_rejected : World := snd (cached_get_qa_chain_from_pdf fake_upload fresh_process).
Definition fake_then_paris : World :=
  @rerun working_services (mkInputs (Some paris_upload) "") fake_rejected.
Definition fake_again : UploadedFile := demo_upload "fake.pdf" "".

Lemma cached_failure_sticks_witness :
  cached_get_qa_chain_from_pdf fake_upload fresh_process = (inr None, fake_rejected) /\
  @reachable working_services fake_rejected fake_then_paris /\
  exists msgs, @cached_get_qa_chain_from_pdf working_services fake_again fake_then_paris =
                 (inr None, set_ui (w_ui fake_then_paris ++ msgs) fake_then_paris).
Proof.
  assert (H1 : cached_get_qa_chain_from_pdf fake_upload fresh_process = (inr None, fake_rejected))
    by (vm_compute; reflexivity).
  assert (H2 : @reachable working_services fake_rejected fake_then_paris) by (apply rtc_once; constructor).
  split; [exact H1|]. split; [exact H2|].
  exact (cached_failure_sticks demo_services working_services fake_upload fresh_process fake_rejected
           fake_then_paris fake_again H1 H2 eq_refl eq_refl eq_refl).
Defined.
