(* ===== verification/ClientInvariant.v ===== *)
(** * ClientInvariant: what holds of every entry of the shared Chroma client

    Line 41 is the only statement of the script that writes the client: it
    opens the default collection and appends one entry per chunk, holding
    the vector the embedding API returned for that chunk's text under the
    model of line 39.  So a property that every such fresh entry has holds
    of every entry of every collection in every world a fresh process
    reaches ([reachable_entries_ok]), whatever the uploads and the answers
    of the services were.  The proof composes the preservation lemmas of
    each layer: the tempfile staging and the [finally] block do not touch
    the client ([Runtime], [Pipeline]), the decorator keeps what its body
    keeps ([Cache]), and a rerun keeps what processing an upload keeps
    ([App]).

    The instance proved here: every entry carries the embedding of its own
    text, and every chain in the session embeds queries with the same
    model, so chunks and queries live in one vector space (spec sections 3
    and 4.3). *)

From S2P Require Import Prelude Chunker VectorStore Runtime Config Pipeline Cache App.

Local Open Scope py_scope.

(** Every entry of every collection of [client] satisfies [P]. *)
Definition client_entries_ok (P : Entry -> Prop) (client : gmap string (list Entry)) : Prop :=
  forall name e, e ∈ collection_entries name client -> P e.

Definition world_entries_ok (P : Entry -> Prop) (w : World) : Prop :=
  client_entries_ok P (w_chroma w).

(** An entry holds the embedding of its own text, requested as a
    retrieval document, under the model of line 39. *)
Definition entry_embedded `{!Services} (e : Entry) : Prop :=
  svc_embed embedding_model RetrievalDocument (page_content (entry_doc e)) = inr (entry_vec e).

Lemma client_entries_ok_goc P name client :
  client_entries_ok P client -> client_entries_ok P (get_or_create_collection name client).
Proof. intros H n e. rewrite collection_entries_get_or_create. apply H. Qed.

Lemma client_entries_ok_add P name es client :
  Forall P es -> client_entries_ok P client -> client_entries_ok P (collection_add name es client).
Proof.
  intros Hes H n e. destruct (decide (name = n)) as [<-|Hne].
  - rewrite collection_entries_add, elem_of_app. intros [He|He]; [by apply (H name)|].
    rewrite Forall_forall in Hes. by apply Hes.
  - rewrite collection_entries_add_ne by done. apply H.
Qed.

Lemma client_entries_ok_empty P : client_entries_ok P ∅.
Proof. intros n e. unfold collection_entries. rewrite lookup_empty. cbn. by rewrite elem_of_nil. Qed.

Section Entries.
Context `{!Services} (P : Entry -> Prop).

(** Every entry line 41 can make satisfies [P]. *)
Hypothesis HP : forall d v, svc_embed embedding_model RetrievalDocument (page_content d) = inr v -> P (mkEntry d v).

Lemma embed_documents_entries splits vecs :
  embed_documents embedding_model (map page_content splits) = inr vecs ->
  Forall P (zip_with mkEntry splits vecs).
Proof.
  revert vecs. induction splits as [|d splits IH]; intros vecs; cbn [map embed_documents].
  - intros [= <-]. constructor.
  - destruct (svc_embed embedding_model RetrievalDocument (page_content d)) as [m|v] eqn:Ev; [done|].
    destruct (embed_documents embedding_model (map page_content splits)) as [m|vs]; [done|].
    intros [= <-]. cbn. constructor; [by apply HP|by apply IH].
Qed.

Lemma chroma_from_documents_entries splits :
  est_preserves (world_entries_ok P) (chroma_from_documents splits embedding_model).
Proof.
  intros w Hw. unfold chroma_from_documents, call_service. world_simp.
  assert (H1 : client_entries_ok P (get_or_create_collection default_collection_name (w_chroma w)))
    by by apply client_entries_ok_goc.
  destruct (embed_documents _ _) as [m|vecs] eqn:E; world_simp; [exact H1|].
  case_decide; world_simp; [exact H1|].
  apply client_entries_ok_add; [by apply embed_documents_entries|exact H1].
Qed.

Lemma get_qa_chain_from_pdf_entries uf :
  est_preserves (world_entries_ok P) (get_qa_chain_from_pdf uf).
Proof.
  pose proof chroma_from_documents_entries.
  assert (est_preserves (world_entries_ok P) (named_temporary_file_write (uf_bytes uf)))
    by apply named_temporary_file_write_chroma.
  unfold get_qa_chain_from_pdf, guarded_process_pdf, process_pdf, pypdf_loader_load, report_error,
    remove_temp_file, os_path_exists, os_remove, call_service, st_emit, py_print.
  py_preserves.
Qed.

Lemma process_upload_entries uf : est_preserves (world_entries_ok P) (process_upload uf).
Proof.
  assert (est_preserves (world_entries_ok P) (cached_get_qa_chain_from_pdf uf)).
  { apply cache_resource_preserves; [by intros..|apply get_qa_chain_from_pdf_entries]. }
  unfold process_upload, store_result, st_emit. py_preserves.
Qed.

Lemma reachable_entries_ok w1 w2 :
  reachable w1 w2 -> world_entries_ok P w1 -> world_entries_ok P w2.
Proof. apply reachable_preserves; [by intros..|apply process_upload_entries]. Qed.
End Entries.

Section Store.
Context `{!Services}.

(** C24. Type of the store: in every world a fresh process reaches,
    every entry of every collection of the shared client holds the vector
    the embedding API returns for the entry's own text under the model of
    line 39, and every chain in the session embeds its queries with that
    model and reads the default collection: chunks and queries are
    compared in one vector space (spec sections 3 and 4.3). *)
Theorem reachable_store_well_typed env dotenv fs free w :
  reachable (initial_world env dotenv fs free) w ->
  (forall name e, e ∈ collection_entries name (w_chroma w) -> entry_embedded e) /\
  (forall c, ss_qa_chain (w_session w) = Some (Some c) ->
     qa_embed_model c = embedding_model /\ qa_collection c = default_collection_name).
Proof.
  intros Hr. split.
  - apply (reachable_entries_ok entry_embedded (fun d v Hv => Hv) _ _ Hr).
    apply client_entries_ok_empty.
  - intros c Hc.
    destruct (reachable_inv [] _ _ Hr (initial_world_inv env dotenv fs free)) as ([_ Hchain] & _).
    by rewrite (Hchain c Hc).
Qed.
End Store.

(** ** Witness: the world after the spec's upload. *)

#[local] Existing Instance demo_services.

Lemma reachable_store_well_typed_witness :
  reachable fresh_process after_paris /\
  (forall name e, e ∈ collection_entries name (w_chroma after_paris) -> entry_embedded e) /\
  (forall c, ss_qa_chain (w_session after_paris) = Some (Some c) ->
     qa_embed_model c = embedding_model /\ qa_collection c = default_collection_name).
Proof.
  assert (H : reachable fresh_process after_paris) by (apply rtc_once; constructor).
  split; [exact H|]. exact (reachable_store_well_typed key_env ∅ ∅ 1000 _ H).
Defined.
