(* ===== verification/Sessions.v ===== *)
(** * Sessions: one Streamlit server, several browser sessions

    A Streamlit server runs the script once per interaction of each
    connected browser session.  [st.session_state] belongs to the session;
    everything else the script touches belongs to the process: the
    [@st.cache_resource] cache, the in-process Chroma client of line 41,
    the file system and [os.environ].  [serve sid inp] is the rerun of
    session [sid]: the session's state is put in the world, the script
    runs ([App.rerun]), and the state it leaves is stored back for [sid].
    Sessions the server has not seen start empty.

    The spec assumes one user (section 5); the script does not restrict
    the number of sessions.  The theorem here shows what the shared
    client means then: the chunks any session uploaded are searched by the
    chain of every session afterwards. *)

From S2P Require Import Prelude Chunker VectorStore Runtime Config Pipeline Cache App.

Local Open Scope py_scope.

Record Server := mkServer {
  srv_world : World;
  srv_sessions : gmap nat Session
}.

(** The state of session [sid]. *)
Definition session_of (sid : nat) (srv : Server) : Session :=
  default empty_session (srv_sessions srv !! sid).

Section Serve.
Context `{!Services}.

(** One rerun of the script for session [sid]. *)
Definition serve (sid : nat) (inp : Inputs) (srv : Server) : Server :=
  let w' := rerun inp (set_session (session_of sid srv) (srv_world srv)) in
  mkServer w' (<[sid := w_session w']> (srv_sessions srv)).

Inductive serve_step : Server -> Server -> Prop :=
| serve_step_intro sid inp srv : serve_step srv (serve sid inp srv).

Definition served (s1 s2 : Server) : Prop := rtc serve_step s1 s2.
End Serve.

(** A fresh server: a fresh process, no session yet. *)
Definition initial_server (env dotenv : gmap string string)
    (fs : gmap string (list Byte.byte)) (free : nat) : Server :=
  mkServer (initial_world env dotenv fs free) ∅.

(** The invariant of [App] for the process, and [session_ok] for every
    session. *)
Definition server_inv (E : list Entry) (srv : Server) : Prop :=
  app_inv E (srv_world srv) /\
  forall sid s, srv_sessions srv !! sid = Some s -> session_ok s.

Section ServeTheory.
Context `{!Services}.

(** A session other than [sid] is not touched by its rerun. *)
Lemma serve_other_session sid sid' inp srv :
  sid <> sid' -> srv_sessions (serve sid inp srv) !! sid' = srv_sessions srv !! sid'.
Proof. intros Hne. cbn. by rewrite lookup_insert_ne. Qed.

Lemma session_of_ok E sid srv : server_inv E srv -> session_ok (session_of sid srv).
Proof.
  intros [_ Hs]. unfold session_of.
  destruct (srv_sessions srv !! sid) as [s|] eqn:E'; cbn; [by apply (Hs sid)|].
  split; [by intros []|done].
Qed.

Lemma serve_inv E sid inp srv : server_inv E srv -> server_inv E (serve sid inp srv).
Proof.
  intros Hinv. pose proof (session_of_ok E sid srv Hinv) as Hses.
  destruct Hinv as [(Hs & Hc & Hg) Hall].
  assert (Hw : app_inv E (rerun inp (set_session (session_of sid srv) (srv_world srv)))).
  { apply rerun_preserves; [done|done|apply process_upload_inv|]. by split. }
  split; [exact Hw|]. intros sid' s. cbn. rewrite lookup_insert.
  case_decide; [intros [= <-]; apply Hw|apply Hall].
Qed.

Lemma served_inv E s1 s2 : served s1 s2 -> server_inv E s1 -> server_inv E s2.
Proof. induction 1 as [|s s' s'' [sid inp]]; [done|]. intros Hs. by apply IHrtc, serve_inv. Qed.

Lemma initial_server_inv env dotenv fs free : server_inv [] (initial_server env dotenv fs free).
Proof. split; [apply initial_world_inv|]. intros sid s. cbn. by rewrite lookup_empty. Qed.

(** C27. Finding (sessions share the store): once an entry is in the
    shared default collection, the chain of every session afterwards,
    another user's included, searches a collection that contains it: a
    question in one browser session retrieves chunks of documents other
    sessions uploaded.  The spec assumes a single user and does not cover
    this. *)
Theorem sessions_share_chunks env dotenv fs free s1 s2 e sid ses c :
  served (initial_server env dotenv fs free) s1 -> served s1 s2 ->
  e ∈ collection_entries default_collection_name (w_chroma (srv_world s1)) ->
  srv_sessions s2 !! sid = Some ses -> ss_qa_chain ses = Some (Some c) ->
  e ∈ collection_entries (qa_collection c) (w_chroma (srv_world s2)).
Proof.
  intros Hr1 Hr12 He Hsid Hc.
  destruct (served_inv [] _ _ Hr1 (initial_server_inv env dotenv fs free))
    as [(Hs1 & Hc1 & _) Hall1].
  destruct (served_inv (collection_entries default_collection_name (w_chroma (srv_world s1))) _ _ Hr12)
    as [(_ & _ & Hgrow) Hall2]; [split; [split; [done|split; [done|]]; unfold collection_grows|]; done|].
  destruct (Hall2 sid ses Hsid) as [_ Hchain]. rewrite (Hchain c Hc). cbn [qa_collection build_qa_chain].
  destruct Hgrow as [k ->]. apply elem_of_app. by left.
Qed.
End ServeTheory.

(** ** Witness: user 0 uploads the spec's document, then user 1 uploads
    another file in a session of its own. *)

#[local] Existing Instance demo_services.

Definition user0_uploaded : Server :=
  serve 0 (mkInputs (Some paris_upload) "") (initial_server key_env ∅ ∅ 1000).
Definition user1_uploaded : Server := serve 1 (mkInputs (Some berlin_upload) "") user0_uploaded.
Definition user1_session : Session :=
  mkSession (Some (Some (build_qa_chain default_collection_name))) (Some "berlin.pdf").

Lemma sessions_share_chunks_witness :
  served (initial_server key_env ∅ ∅ 1000) user0_uploaded /\ served user0_uploaded user1_uploaded /\
  paris_entry ∈ collection_entries default_collection_name (w_chroma (srv_world user0_uploaded)) /\
  srv_sessions user1_uploaded !! 1 = Some user1_session /\
  ss_qa_chain user1_session = Some (Some (build_qa_chain default_collection_name)) /\
  paris_entry ∈ collection_entries (qa_collection (build_qa_chain default_collection_name))
                  (w_chroma (srv_world user1_uploaded)).
Proof.
  assert (H1 : served (initial_server key_env ∅ ∅ 1000) user0_uploaded) by (apply rtc_once; constructor).
  assert (H2 : served user0_uploaded user1_uploaded) by (apply rtc_once; constructor).
  assert (H3 : paris_entry ∈ collection_entries default_collection_name (w_chroma (srv_world user0_uploaded)))
    by decide_by_eval.
  assert (H4 : srv_sessions user1_uploaded !! 1 = Some user1_session) by (vm_compute; reflexivity).
  assert (H5 : ss_qa_chain user1_session = Some (Some (build_qa_chain default_collection_name)))
    by reflexivity.
  split; [exact H1|]. split; [exact H2|]. split; [exact H3|]. split; [exact H4|]. split; [exact H5|].
  exact (sessions_share_chunks key_env ∅ ∅ 1000 _ _ _ 1 _ _ H1 H2 H3 H4 H5).
Defined.
