(* ===== verification/Orchestrator.v ===== *)
(** * Orchestrator: the state machine of spec section 4.6, refined by the reruns

    The spec describes the pipeline as a state machine: [Idle] (no
    document), [Processing], [Ready] (an index, answering available) and
    [Answering].  In the script, [Processing] and [Answering] begin and
    end inside one rerun (lines 75-82 and 88-92), so between reruns the
    orchestrator is [Idle] or [Ready doc]: [phase_of] reads that off the
    session state of lines 76-77.  An upload of a file name is the event
    [Upload name]; a rerun without a file is [NoUpload].

    [spec_step] is the spec's transition relation at that granularity,
    with its failure edge; [spec_next] is its successful fragment.  The
    refinement theorems hold for reruns whose services succeed (every
    upload parses into at least one non-empty page and fits on the disk,
    the embedding API answers): each rerun moves the session along
    [spec_next], and a sequence of reruns follows the spec's run.  The
    failure edge is refined for an upload the pipeline is not [Ready] for
    ([rerun_failed_processing_refines_fail]); the spec's retry of a name
    that failed is not: the code keeps the failed name and does not
    process it again (see [App.rerun_same_name_skips_processing]); at the
    level of phases that rerun stays [Idle], which the failure edge
    allows.  A full disk while staging a new upload keeps the old
    document [Ready], which no edge allows
    ([rerun_disk_full_keeps_old_document]).  [Failures] refines every
    rerun whatever the services answer.  The
    index of a [Ready] state
    is not part of the refinement, since the shared collection keeps the
    chunks of earlier documents (see [App.earlier_chunks_stay_searchable]). *)

From S2P Require Import Prelude Chunker VectorStore Runtime Config Pipeline Cache App.

Local Open Scope py_scope.

(** ** The spec's state machine *)

Inductive Phase := Idle | Ready (doc : string).

#[export] Instance Phase_eq_dec : EqDecision Phase.
Proof. solve_decision. Defined.

Inductive Event := NoUpload | Upload (name : string).

(** Spec section 4.6 between reruns: a new document is processed and the
    pipeline becomes [Ready] for it, or processing fails and the pipeline
    is [Idle]; the document the pipeline is [Ready] for is not processed
    again (spec section 5). *)
Inductive spec_step : Phase -> Event -> Phase -> Prop :=
| spec_wait s : spec_step s NoUpload s
| spec_memo n : spec_step (Ready n) (Upload n) (Ready n)
| spec_process s n : s <> Ready n -> spec_step s (Upload n) (Ready n)
| spec_fail s n : s <> Ready n -> spec_step s (Upload n) Idle.

(** The successful fragment, as a function. *)
Definition spec_next (s : Phase) (e : Event) : Phase :=
  match e with
  | NoUpload => s
  | Upload n => Ready n
  end.

(** ** The abstraction of the code's state *)

(** Lines 76-77 store the chain and the name; a chain that is not [None]
    is an active pipeline. *)
Definition phase_of (s : Session) : Phase :=
  match ss_qa_chain s, ss_file_name s with
  | Some (Some _), Some n => Ready n
  | _, _ => Idle
  end.

Definition event_of (inp : Inputs) : Event :=
  match in_file inp with
  | Some uf => Upload (uf_name uf)
  | None => NoUpload
  end.

(** A sequence of reruns. *)
Fixpoint reruns `{!Services} (inps : list Inputs) (w : World) : World :=
  match inps with
  | [] => w
  | inp :: inps' => reruns inps' (rerun inp w)
  end.

(** ** Reruns whose services succeed *)

(** The upload fits on the disk and parses into pages of which one at
    least has text. *)
Definition upload_ok `{!Services} (uf : UploadedFile) (w : World) : Prop :=
  length (uf_bytes uf) <= w_fs_free w /\
  exists pages, svc_parse_pdf (uf_bytes uf) = inr pages /\ Exists (fun t => t <> EmptyString) pages.

Definition inputs_ok `{!Services} (inp : Inputs) (w : World) : Prop :=
  match in_file inp with
  | Some uf => upload_ok uf w
  | None => True
  end.

(** No temporary file is on disk. *)
Definition no_tmp_files (w : World) : Prop := forall k, w_fs w !! tmp_name k = None.

(** A chain in the session has its name and is not [None]. *)
Definition session_active_ok (s : Session) : Prop :=
  (is_Some (ss_qa_chain s) -> is_Some (ss_file_name s)) /\ ss_qa_chain s <> Some None.

(** The cache holds no [None]. *)
Definition cache_some (w : World) : Prop :=
  forall k v msgs, w_cache w !! k = Some (v, msgs) -> is_Some v.

(** The invariant of successful reruns. *)
Definition orch_inv (w : World) : Prop :=
  py_opt_str_truthy (loaded_env w !! GOOGLE_API_KEY) = true /\ no_tmp_files w /\
  session_active_ok (w_session w) /\ cache_some w.

(** What a rerun keeps apart from the session, the cache, the collection
    and the page. *)
Definition keeps_disk (w0 w : World) : Prop :=
  w_fs w = w_fs w0 /\ w_fs_free w = w_fs_free w0 /\ w_dotenv w = w_dotenv w0 /\
  w_env w = w_env w0.

(** The state a rerun reaches from [w0] on event [e]: the disk and the
    environment kept, the session moved along [spec_next], the invariant
    of the session and the cache. *)
Definition after_step (w0 : World) (e : Event) (w : World) : Prop :=
  keeps_disk w0 w /\ phase_of (w_session w) = spec_next (phase_of (w_session w0)) e /\
  session_active_ok (w_session w) /\ cache_some w.

(** [w] has the disk, environment, session and cache of [w0]. *)
Definition same_state (w0 w : World) : Prop :=
  keeps_disk w0 w /\ w_session w = w_session w0 /\ w_cache w = w_cache w0.

(** Runs of the spec: a sequence of [spec_step]s. *)
Inductive spec_run : Phase -> list Event -> Phase -> Prop :=
| spec_run_nil s : spec_run s [] s
| spec_run_cons s e s' es s'' :
    spec_step s e s' -> spec_run s' es s'' -> spec_run s (e :: es) s''.

(** ** Lemmas *)

Lemma spec_next_step s e : spec_step s e (spec_next s e).
Proof.
  destruct e as [|n]; [constructor|]. cbn.
  destruct (decide (s = Ready n)) as [->|]; by constructor.
Qed.

Lemma after_step_same w0 e w1 w2 : after_step w0 e w1 -> same_state w1 w2 -> after_step w0 e w2.
Proof.
  unfold after_step, same_state, keeps_disk, cache_some.
  intros ((? & ? & ? & ?) & Hp & Hs & Hc) ((? & ? & ? & ?) & Hs2 & Hc2).
  rewrite Hs2, Hc2. split; [|done]. split; [congruence|]. split; [congruence|]. split; congruence.
Qed.

Lemma inputs_ok_free `{!Services} inp w w' :
  w_fs_free w' = w_fs_free w -> inputs_ok inp w -> inputs_ok inp w'.
Proof. intros Hf. unfold inputs_ok, upload_ok. destruct (in_file inp); [|done]. by rewrite Hf. Qed.

(** A fresh process whose environment or [.env] sets the key, with no
    temporary file on disk, satisfies the invariant. *)
Lemma initial_orch_inv env dotenv fs free :
  py_opt_str_truthy ((env ∪ dotenv) !! GOOGLE_API_KEY) = true ->
  (forall k, fs !! tmp_name k = None) ->
  orch_inv (initial_world env dotenv fs free).
Proof.
  intros Hkey Hfs. split; [exact Hkey|]. split; [exact Hfs|].
  split; [split; [by intros []|done]|]. unfold cache_some, initial_world. world_simp.
  intros k v msgs. by rewrite lookup_empty.
Qed.

Section Refinement.
Context `{!Services}.

(** The embedding API answers every request. *)
Hypothesis embed_total : forall m t, exists v, svc_embed m RetrievalDocument t = inr v.

Lemma embed_documents_total m ts : exists vs, embed_documents m ts = inr vs.
Proof.
  induction ts as [|t ts [vs IH]]; [by exists []|]. cbn [embed_documents].
  destruct (embed_total m t) as [v ->]. rewrite IH. by eexists.
Qed.

Lemma get_qa_chain_success uf w :
  no_tmp_files w -> upload_ok uf w ->
  exists w', get_qa_chain_from_pdf uf w = (inr (Some (build_qa_chain default_collection_name)), w') /\
    keeps_disk w w' /\ w_session w' = w_session w /\ w_cache w' = w_cache w.
Proof.
  intros Hfs (Hroom & pages & Hparse & Hex).
  destruct (embed_documents_total embedding_model
    (map page_content (split_documents (loaded_pages (tmp_name (w_tmp_seq w)) pages)))) as [vecs Hemb].
  rewrite (get_qa_chain_from_pdf_ok uf w pages vecs); [|apply Hfs|done|done| |exact Hemb].
  - eexists. split; [reflexivity|]. unfold keeps_disk, printed. world_simp. done.
  - unfold loaded_pages. apply split_documents_nonempty; [by intros|exact Hex].
Qed.

Lemma cached_success uf w :
  no_tmp_files w -> upload_ok uf w -> cache_some w ->
  exists c w', cached_get_qa_chain_from_pdf uf w = (inr (Some c), w') /\
    keeps_disk w w' /\ w_session w' = w_session w /\ cache_some w'.
Proof.
  intros Hfs Hup Hc.
  destruct (w_cache w !! cache_key uf) as [[v msgs]|] eqn:Ek.
  - destruct (Hc _ _ _ Ek) as [c ->]. exists c. eexists.
    rewrite (cached_get_qa_chain_hit uf w (Some c) msgs Ek). split; [reflexivity|].
    unfold keeps_disk. world_simp. done.
  - destruct (get_qa_chain_success uf (set_ui [] w)) as (w1 & Eg & Hk & Hs & Hcache);
      [exact Hfs|exact Hup|].
    rewrite (cached_get_qa_chain_miss uf w _ _ Ek Eg). eexists _, _. split; [reflexivity|].
    unfold keeps_disk, cache_some in *. world_simp. split; [done|]. split; [done|].
    intros k v msgs. rewrite lookup_insert. case_decide.
    + intros [= <- _]. by eexists.
    + rewrite Hcache. apply Hc.
Qed.

Lemma process_upload_success uf w :
  no_tmp_files w -> upload_ok uf w -> cache_some w ->
  exists w', process_upload uf w = (inr tt, w') /\ keeps_disk w w' /\
    phase_of (w_session w') = Ready (uf_name uf) /\ session_active_ok (w_session w') /\
    cache_some w'.
Proof.
  intros Hfs Hup Hc. unfold process_upload, store_result. world_simp.
  match goal with |- context [cached_get_qa_chain_from_pdf uf ?W] => set (w1 := W) end.
  destruct (cached_success uf w1) as (c & w2 & Ec & Hk & Hs & Hc2); [exact Hfs|exact Hup|exact Hc|].
  rewrite Ec. world_simp. eexists. split; [reflexivity|].
  unfold keeps_disk, session_active_ok, cache_some in *. world_simp.
  split; [exact Hk|]. split; [done|]. split; [split; [by eexists|done]|exact Hc2].
Qed.

(** Lines 73-82 end with the pipeline [Ready] for the upload's name. *)
Lemma process_document_success uf w :
  no_tmp_files w -> upload_ok uf w -> cache_some w -> session_active_ok (w_session w) ->
  exists w', process_document uf w = (inr tt, w') /\ keeps_disk w w' /\
    phase_of (w_session w') = Ready (uf_name uf) /\ session_active_ok (w_session w') /\
    cache_some w'.
Proof.
  intros Hfs Hup Hc Hok. unfold process_document, needs_processing. world_simp.
  destruct (ss_qa_chain (w_session w)) as [[c|]|] eqn:Ec.
  - destruct (ss_file_name (w_session w)) as [n|] eqn:En.
    + world_simp. destruct (String.eqb_spec n (uf_name uf)) as [<-|Hne]; world_simp.
      * exists w. split; [done|]. split; [by repeat split|].
        unfold phase_of. rewrite Ec, En. by split.
      * by apply process_upload_success.
    + exfalso. destruct Hok as [Hname _]. rewrite Ec, En in Hname. by destruct Hname.
  - exfalso. by destruct Hok as [_ Hnone].
  - world_simp. by apply process_upload_success.
Qed.

(** Lines 84-92 keep the disk, the environment, the session and the
    cache, whether the answer is written or an exception ends the run. *)
Lemma handle_question_same q w0 : est_preserves (same_state w0) (handle_question q).
Proof.
  pose proof (qa_chain_run_preserves (same_state w0)).
  unfold handle_question, st_emit. py_preserves.
Qed.

(** Lines 63-95 after the credential check. *)
Lemma app_body_success inp w r w' :
  no_tmp_files w -> cache_some w -> session_active_ok (w_session w) -> inputs_ok inp w ->
  app_body inp w = (r, w') -> after_step w (event_of inp) w'.
Proof.
  intros Hfs Hc Hs Hin. unfold app_body. cbn [est_bind]. rewrite page_header_run.
  unfold inputs_ok in Hin. destruct inp as [[uf|] q]; cbn [in_file in_question event_of] in *.
  - cbn [est_bind].
    match goal with |- context [process_document uf ?W] => set (w1 := W) end.
    destruct (process_document_success uf w1) as (w2 & Ed & Hk & Hp & Hs2 & Hc2);
      [exact Hfs|exact Hin|exact Hc|exact Hs|].
    rewrite Ed. world_simp.
    pose proof (handle_question_same q w2 w2) as Hh.
    destruct (handle_question q w2) as [r2 w3]. intros [= <- <-]. cbn [snd] in Hh.
    apply (after_step_same w _ w2); [|apply Hh; by repeat split].
    unfold after_step, keeps_disk in *. subst w1. world_simp.
    split; [exact Hk|]. split; [exact Hp|]. by split.
  - world_simp. intros [= <- <-]. unfold after_step, keeps_disk. world_simp.
    split; [by repeat split|]. split; [done|]. by split.
Qed.

Lemma rerun_success inp w :
  orch_inv w -> inputs_ok inp w ->
  orch_inv (rerun inp w) /\ w_fs_free (rerun inp w) = w_fs_free w /\
  phase_of (w_session (rerun inp w)) = spec_next (phase_of (w_session w)) (event_of inp).
Proof.
  intros (Hkey & Hfs & Hs & Hc) Hin. unfold rerun.
  rewrite app_script_key_present by exact Hkey.
  destruct (app_body inp _) as [r w'] eqn:E.
  apply app_body_success in E as ((Hfs' & Hfree & Hdot & Henv) & Hp & Hs' & Hc');
    [|exact Hfs|exact Hc|exact Hs|exact Hin].
  world_simp.
  assert (Hw : orch_inv w' /\ w_fs_free w' = w_fs_free w /\
              phase_of (w_session w') = spec_next (phase_of (w_session w)) (event_of inp)).
  { split; [split; [|split; [|split]]|split]; [|intros k; rewrite Hfs'; apply Hfs|done..].
    unfold loaded_env. rewrite Henv, Hdot. exact (loaded_env_idem w Hkey). }
  destruct r as [e|u]; [destruct (is_Exception e)|]; exact Hw.
Qed.

(** C12. Refinement (spec section 4.6): on a rerun whose services
    succeed (the upload fits on the disk and parses into pages with text,
    the embedding API answers), the pipeline moves as the spec's state
    machine does: without a file the phase stays, and an upload of a file
    name ends [Ready] for that name, processed or found memoised.  The
    invariant (key set, no temporary file left, no [None] in the session
    or the cache) is kept. *)
Theorem rerun_refines_orchestrator inp w :
  orch_inv w -> inputs_ok inp w ->
  spec_step (phase_of (w_session w)) (event_of inp) (phase_of (w_session (rerun inp w))) /\
  phase_of (w_session (rerun inp w)) = spec_next (phase_of (w_session w)) (event_of inp) /\
  orch_inv (rerun inp w).
Proof.
  intros Hinv Hin. destruct (rerun_success inp w Hinv Hin) as (Hinv' & _ & ->).
  split; [apply spec_next_step|done].
Qed.

(** C13. Refinement of runs: from a world satisfying the invariant, a
    sequence of reruns whose services succeed is a run of the spec's
    state machine over the reruns' events, and it ends in the phase the
    spec's successful run computes. *)
Theorem reruns_follow_spec inps w :
  orch_inv w -> Forall (fun inp => inputs_ok inp w) inps ->
  spec_run (phase_of (w_session w)) (map event_of inps) (phase_of (w_session (reruns inps w))) /\
  phase_of (w_session (reruns inps w)) = fold_left spec_next (map event_of inps) (phase_of (w_session w)).
Proof.
  revert w. induction inps as [|inp inps IH]; intros w Hinv Hok; [split; [constructor|done]|].
  inversion Hok as [|? ? Hin Hrest]; subst.
  destruct (rerun_success inp w Hinv Hin) as (Hinv' & Hfree & Hp).
  destruct (IH (rerun inp w) Hinv') as [Hrun Heq].
  { eapply Forall_impl; [exact Hrest|]. intros i. by apply inputs_ok_free. }
  cbn [map reruns fold_left]. rewrite <- Hp. split; [|exact Heq].
  econstructor; [|exact Hrun]. rewrite Hp. apply spec_next_step.
Qed.
End Refinement.

(** ** Reruns whose processing fails *)

Section Failure.
Context `{!Services}.

(** Lines 84-92 only add elements to the page. *)
Lemma handle_question_ui_grows q l :
  est_preserves (fun w => l `prefix_of` w_ui w) (handle_question q).
Proof.
  pose proof (qa_chain_run_preserves (fun w => l `prefix_of` w_ui w)).
  unfold handle_question, st_emit. py_preserves; world_simp; by apply prefix_app_r.
Qed.

(** Line 74 is true when the pipeline is not [Ready] for the name. *)
Lemma needs_processing_not_ready uf w :
  session_active_ok (w_session w) -> phase_of (w_session w) <> Ready (uf_name uf) ->
  needs_processing (uf_name uf) w = (inr true, w).
Proof.
  intros [Hname Hnone] Hphase. unfold needs_processing. world_simp. unfold phase_of in Hphase.
  destruct (ss_qa_chain (w_session w)) as [[c|]|] eqn:Ec; world_simp; [|done|done].
  destruct (ss_file_name (w_session w)) as [n|] eqn:En; world_simp.
  - destruct (String.eqb_spec n (uf_name uf)) as [->|]; [done|reflexivity].
  - exfalso. by destruct (Hname ltac:(by eexists)).
Qed.

(** C25. Refinement of the failure edge (spec sections 4.6 and 7): when
    an upload the pipeline is not [Ready] for is rejected by the parser,
    the rerun takes the spec's failure transition to [Idle], and the
    failure is surfaced: the parser's message and the request to try
    again are on the page, whatever the question box holds. *)
Theorem rerun_failed_processing_refines_fail uf q w msg :
  py_opt_str_truthy (loaded_env w !! GOOGLE_API_KEY) = true ->
  session_active_ok (w_session w) ->
  phase_of (w_session w) <> Ready (uf_name uf) ->
  w_cache w !! cache_key uf = None ->
  w_fs w !! tmp_name (w_tmp_seq w) = None ->
  length (uf_bytes uf) <= w_fs_free w ->
  svc_parse_pdf (uf_bytes uf) = inl msg ->
  spec_step (phase_of (w_session w)) (Upload (uf_name uf))
    (phase_of (w_session (rerun (mkInputs (Some uf) q) w))) /\
  phase_of (w_session (rerun (mkInputs (Some uf) q) w)) = Idle /\
  ElError ("Error processing PDF: " ++ msg) ∈ w_ui (rerun (mkInputs (Some uf) q) w) /\
  ElError "Failed to process document. Please try again." ∈ w_ui (rerun (mkInputs (Some uf) q) w).
Proof.
  intros Hkey Hok Hphase Hmiss Hfree Hroom Hparse. unfold rerun.
  rewrite app_script_key_present by exact Hkey.
  unfold app_body. cbn [est_bind]. rewrite page_header_run. cbn [in_file in_question est_bind].
  unfold process_document. cbn [est_bind].
  rewrite needs_processing_not_ready by done.
  match goal with |- context [process_upload uf ?W] => set (w1 := W) end.
  destruct (process_upload_parse_error uf w1 msg) as (w2 & Hup & Hs & _ & _ & Hui); try done.
  rewrite Hup. cbn [est_bind].
  pose proof (handle_question_same q w2 w2 ltac:(by repeat split)) as Hh.
  pose proof (handle_question_ui_grows q (w_ui w2) w2 (reflexivity _)) as Hg.
  destruct (handle_question q w2) as [r3 w3]. cbn [snd] in Hh, Hg.
  destruct Hh as (_ & Hs3 & _). rewrite Hs in Hs3. rewrite Hui in Hg.
  assert (Hin : forall l, w_ui w3 `prefix_of` l ->
    ElError ("Error processing PDF: " ++ msg) ∈ l /\
    ElError "Failed to process document. Please try again." ∈ l).
  { intros l Hl. split; (eapply elem_of_prefix; [|etrans; [exact Hg|exact Hl]]);
      rewrite !elem_of_app, !elem_of_cons; auto. }
  assert (Hend : phase_of (w_session w3) = Idle) by (by rewrite Hs3).
  destruct r3 as [e|u]; [destruct (is_Exception e)|]; world_simp;
    (split; [rewrite Hend; by constructor|]); (split; [exact Hend|]); apply Hin;
    [by apply prefix_app_r|done|done].
Qed.
(** The spec has no edge from [Ready m] to [Ready m] on another name. *)
Lemma no_spec_step_stay m n : m <> n -> ~ spec_step (Ready m) (Upload n) (Ready m).
Proof. intros Hne Hs. inversion Hs; congruence. Qed.

(** C34. Finding (spec section 4.6, "on any failure during Processing,
    transitions to Idle"): when the pipeline is [Ready] for a document
    [m] and the upload of another file cannot be staged because the disk
    is full, the [OSError] of line 29 escapes (it is outside the [try])
    and ends the rerun before line 76: the session keeps the chain of
    [m], so the pipeline stays [Ready] for the old document, which is no
    transition of the spec, and the page ends with the exception. *)
Theorem rerun_disk_full_keeps_old_document uf q w m c :
  py_opt_str_truthy (loaded_env w !! GOOGLE_API_KEY) = true ->
  ss_qa_chain (w_session w) = Some (Some c) -> ss_file_name (w_session w) = Some m ->
  m <> uf_name uf ->
  w_cache w !! cache_key uf = None ->
  w_fs w !! tmp_name (w_tmp_seq w) = None ->
  w_fs_free w < length (uf_bytes uf) ->
  phase_of (w_session (rerun (mkInputs (Some uf) q) w)) = Ready m /\
  ~ spec_step (phase_of (w_session w)) (Upload (uf_name uf))
      (phase_of (w_session (rerun (mkInputs (Some uf) q) w))) /\
  last (w_ui (rerun (mkInputs (Some uf) q) w)) =
    Some (ElException (OSError "[Errno 28] No space left on device")).
Proof.
  intros Hkey Hc Hn Hne Hmiss Hfree Hfull.
  assert (Hphase : phase_of (w_session w) = Ready m) by (unfold phase_of; by rewrite Hc, Hn).
  unfold rerun. rewrite app_script_key_present by exact Hkey.
  unfold app_body. cbn [est_bind]. rewrite page_header_run. cbn [in_file in_question est_bind].
  unfold process_document. cbn [est_bind].
  rewrite needs_processing_not_ready;
    [| (unfold session_active_ok; world_simp; rewrite Hc, Hn; split; [by eexists|done])
     | world_simp; rewrite Hphase; congruence].
  unfold process_upload. world_simp.
  match goal with |- context [cached_get_qa_chain_from_pdf uf ?W] => set (w1 := W) end.
  destruct (get_qa_chain_from_pdf_disk_full uf (set_ui [] w1)) as (w2 & Eg & _);
    [exact Hfree|exact Hfull|].
  pose proof (get_qa_chain_from_pdf_frame _ _ _ _ Eg) as [[Hs _] _].
  rewrite (cached_get_qa_chain_miss uf w1 _ _ Hmiss Eg). world_simp.
  cbn [is_Exception]. world_simp. rewrite Hs. subst w1. world_simp. rewrite Hphase.
  split; [done|]. split; [by apply no_spec_step_stay|]. apply last_snoc.
Qed.
End Failure.

(** ** Witnesses

    A fresh process with the key set: the upload of the spec's sentence
    with a question, then another file, then a rerun without a file. *)

#[local] Existing Instance demo_services.

Lemma demo_embed_total : forall m t, exists v, svc_embed m RetrievalDocument t = inr v.
Proof. intros m t. eexists. reflexivity. Qed.

Lemma fresh_process_orch_inv : orch_inv fresh_process.
Proof. apply initial_orch_inv; [reflexivity|]. intros k. apply lookup_empty. Qed.

Definition demo_session_inputs : list Inputs :=
  [mkInputs (Some paris_upload) ""; mkInputs (Some berlin_upload) france_question;
   mkInputs None ""].

Lemma rerun_refines_orchestrator_witness :
  inputs_ok (mkInputs (Some paris_upload) france_question) fresh_process /\
  spec_step (phase_of (w_session fresh_process)) (Upload "capital.pdf")
    (phase_of (w_session (rerun (mkInputs (Some paris_upload) france_question) fresh_process))) /\
  phase_of (w_session (rerun (mkInputs (Some paris_upload) france_question) fresh_process)) =
    spec_next (phase_of (w_session fresh_process)) (Upload "capital.pdf") /\
  orch_inv (rerun (mkInputs (Some paris_upload) france_question) fresh_process).
Proof.
  assert (Hin : inputs_ok (mkInputs (Some paris_upload) france_question) fresh_process).
  { split; [vm_compute; lia|]. eexists. split; [reflexivity|]. constructor. discriminate. }
  split; [exact Hin|].
  exact (rerun_refines_orchestrator demo_embed_total _ _ fresh_process_orch_inv Hin).
Defined.

Lemma reruns_follow_spec_witness :
  Forall (fun inp => inputs_ok inp fresh_process) demo_session_inputs /\
  spec_run (phase_of (w_session fresh_process)) (map event_of demo_session_inputs)
    (phase_of (w_session (reruns demo_session_inputs fresh_process))) /\
  phase_of (w_session (reruns demo_session_inputs fresh_process)) =
    fold_left spec_next (map event_of demo_session_inputs) (phase_of (w_session fresh_process)).
Proof.
  assert (Hok : Forall (fun inp => inputs_ok inp fresh_process) demo_session_inputs).
  { constructor; [|constructor; [|constructor; [done|constructor]]];
      (split; [vm_compute; lia|]); eexists; (split; [reflexivity|]); constructor; discriminate. }
  split; [exact Hok|].
  exact (reruns_follow_spec demo_embed_total _ _ fresh_process_orch_inv Hok).
Defined.

Lemma rerun_failed_processing_refines_fail_witness :
  session_active_ok (w_session fresh_process) /\
  phase_of (w_session fresh_process) <> Ready (uf_name fake_upload) /\
  svc_parse_pdf (uf_bytes fake_upload) = inl "Cannot read an empty file" /\
  spec_step (phase_of (w_session fresh_process)) (Upload (uf_name fake_upload))
    (phase_of (w_session (rerun (mkInputs (Some fake_upload) france_question) fresh_process))) /\
  phase_of (w_session (rerun (mkInputs (Some fake_upload) france_question) fresh_process)) = Idle /\
  ElError ("Error processing PDF: " ++ "Cannot read an empty file")
    ∈ w_ui (rerun (mkInputs (Some fake_upload) france_question) fresh_process) /\
  ElError "Failed to process document. Please try again."
    ∈ w_ui (rerun (mkInputs (Some fake_upload) france_question) fresh_process).
Proof.
  assert (H1 : session_active_ok (w_session fresh_process)) by (split; [by intros []|done]).
  assert (H2 : phase_of (w_session fresh_process) <> Ready (uf_name fake_upload)) by (vm_compute; discriminate).
  assert (H3 : svc_parse_pdf (uf_bytes fake_upload) = inl "Cannot read an empty file") by reflexivity.
  split; [exact H1|]. split; [exact H2|]. split; [exact H3|].
  apply (rerun_failed_processing_refines_fail fake_upload france_question fresh_process
           "Cannot read an empty file");
    [reflexivity | exact H1 | exact H2 | reflexivity | reflexivity | vm_compute; lia | exact H3].
Defined.

Definition small_disk : World := initial_world key_env ∅ ∅ 32.
Definition paris_on_small_disk : World := rerun (mkInputs (Some paris_upload) "") small_disk.

Lemma rerun_disk_full_keeps_old_document_witness :
  ss_qa_chain (w_session paris_on_small_disk) = Some (Some (build_qa_chain default_collection_name)) /\
  ss_file_name (w_session paris_on_small_disk) = Some "capital.pdf" /\
  w_fs_free paris_on_small_disk < length (uf_bytes berlin_upload) /\
  phase_of (w_session (rerun (mkInputs (Some berlin_upload) france_question) paris_on_small_disk))
    = Ready "capital.pdf" /\
  ~ spec_step (phase_of (w_session paris_on_small_disk)) (Upload (uf_name berlin_upload))
      (phase_of (w_session (rerun (mkInputs (Some berlin_upload) france_question) paris_on_small_disk))) /\
  last (w_ui (rerun (mkInputs (Some berlin_upload) france_question) paris_on_small_disk)) =
    Some (ElException (OSError "[Errno 28] No space left on device")).
Proof.
  assert (H1 : ss_qa_chain (w_session paris_on_small_disk) =
                 Some (Some (build_qa_chain default_collection_name))) by (vm_compute; reflexivity).
  assert (H2 : ss_file_name (w_session paris_on_small_disk) = Some "capital.pdf") by (vm_compute; reflexivity).
  assert (H3 : w_fs_free paris_on_small_disk < length (uf_bytes berlin_upload)) by (vm_compute; lia).
  split; [exact H1|]. split; [exact H2|]. split; [exact H3|].
  apply (rerun_disk_full_keeps_old_document berlin_upload france_question paris_on_small_disk
           "capital.pdf" (build_qa_chain default_collection_name));
    [vm_compute; reflexivity | exact H1 | exact H2 | vm_compute; discriminate
    | vm_compute; reflexivity | vm_compute; reflexivity | exact H3].
Defined.
