(* ===== verification/Scenario.v ===== *)
(** * Scenario: the spec's session, upload then question, end to end

    The spec's main use (sections 1 and 4): a user opens the page,
    uploads a PDF, and asks a question about it.  With Streamlit this is
    two reruns of the whole script: the first with the upload and an
    empty question box processes the document (lines 73-82) and shows
    the question box (line 85); the second, with the same upload and the
    typed question, finds the file name in the session (line 74 false)
    and runs the chain (lines 86-91).  This file composes the layers of
    the development along that path: the credential check ([Config]),
    the decorated pipeline ([Cache], [Pipeline], [Chunker]), the session
    updates and the question handler ([App]) and the search over the
    shared client ([VectorStore]). *)

From S2P Require Import Prelude Chunker VectorStore Runtime Config Pipeline Cache App Orchestrator.

Local Open Scope py_scope.

(** The last elements of the page when the chat model answered [r]:
    line 91 writes the answer; an exception of the model ends the run
    and the runner shows it. *)
Definition answer_elements (r : string + string) : list Element :=
  match r with
  | inl msg => [ElException (GenerationError msg)]
  | inr a => [ElWrite a]
  end.

Section Scenario.
Context `{!Services}.

(** The chunks line 41 stores for an upload staged under [path]. *)
Definition upload_chunks (path : string) (pages : list string) : list Document :=
  split_documents (loaded_pages path pages).

(** Line 74 is true when the session holds no chain, or holds one (or
    [None]) for another name. *)
Lemma needs_processing_true uf w W :
  (ss_qa_chain (w_session w) = None \/
   exists x n, ss_qa_chain (w_session w) = Some x /\ ss_file_name (w_session w) = Some n /\
     n <> uf_name uf) ->
  w_session W = w_session w -> needs_processing (uf_name uf) W = (inr true, W).
Proof.
  intros Hses HW. unfold needs_processing. world_simp. rewrite HW.
  destruct Hses as [->|(x & n & -> & -> & Hne)]; world_simp; [done|].
  apply String.eqb_neq in Hne. by rewrite Hne.
Qed.

(** A rerun with an upload line 74 must process (no chain in the
    session, or a chain or [None] for another name) and an empty question
    box: the document is processed, the session holds its chain and its
    name, and the default collection gains its chunks. *)
Lemma rerun_first_upload uf w pages vecs :
  py_opt_str_truthy (loaded_env w !! GOOGLE_API_KEY) = true ->
  (ss_qa_chain (w_session w) = None \/
   exists x n, ss_qa_chain (w_session w) = Some x /\ ss_file_name (w_session w) = Some n /\
     n <> uf_name uf) ->
  w_cache w !! cache_key uf = None ->
  w_fs w !! tmp_name (w_tmp_seq w) = None ->
  length (uf_bytes uf) <= w_fs_free w ->
  svc_parse_pdf (uf_bytes uf) = inr pages ->
  upload_chunks (tmp_name (w_tmp_seq w)) pages <> [] ->
  embed_documents embedding_model (map page_content (upload_chunks (tmp_name (w_tmp_seq w)) pages))
    = inr vecs ->
  let w1 := rerun (mkInputs (Some uf) "") w in
  w_ui w1 = header_elements ++
    [ElSpinner ("Processing " ++ uf_name uf ++ "... This may take a moment.");
     ElSuccess "Document processed! You can now ask questions.";
     ElTextInput "Ask a question about your document:"] /\
  w_session w1 = mkSession (Some (Some (build_qa_chain default_collection_name))) (Some (uf_name uf)) /\
  w_chroma w1 = collection_add default_collection_name
                  (zip_with mkEntry (upload_chunks (tmp_name (w_tmp_seq w)) pages) vecs)
                  (get_or_create_collection default_collection_name (w_chroma w)) /\
  w_env w1 = loaded_env w /\ w_dotenv w1 = w_dotenv w.
Proof.
  intros Hkey Hses Hmiss Hfree Hroom Hparse Hne Hemb w1. subst w1. unfold rerun.
  rewrite app_script_key_present by exact Hkey.
  unfold app_body. cbn [est_bind]. rewrite page_header_run. cbn [in_file in_question].
  unfold process_document. world_simp.
  rewrite (needs_processing_true uf w _ Hses) by (world_simp; done). world_simp.
  unfold process_upload. world_simp.
  match goal with |- context [cached_get_qa_chain_from_pdf uf ?W] => set (w2 := W) end.
  rewrite (cached_get_qa_chain_miss uf w2 _ _ Hmiss
             (get_qa_chain_from_pdf_ok uf (set_ui [] w2) pages vecs Hfree Hroom Hparse Hne Hemb)).
  unfold store_result, handle_question. subst w2. world_simp.
  unfold printed. world_simp. split; [by rewrite <- !app_assoc|done].
Qed.

(** A rerun with a question about the file whose chain the session
    holds: nothing is processed, and the page ends with the question box,
    the spinner and what the chat model made of the [k] chunks nearest to
    the question. *)
Lemma rerun_question uf q w c qv :
  py_opt_str_truthy (loaded_env w !! GOOGLE_API_KEY) = true ->
  ss_qa_chain (w_session w) = Some (Some c) ->
  ss_file_name (w_session w) = Some (uf_name uf) ->
  py_str_truthy q = true ->
  svc_embed (qa_embed_model c) RetrievalQuery q = inr qv ->
  w_ui (rerun (mkInputs (Some uf) q) w) =
    header_elements ++
    [ElTextInput "Ask a question about your document:"; ElSpinner "Searching for the answer..."] ++
    answer_elements
      (svc_generate (qa_llm c)
         (stuff_prompt (map entry_doc (similarity_search qv (qa_k c)
                                         (collection_entries (qa_collection c) (w_chroma w)))) q)).
Proof.
  intros Hkey Hc Hn Hq Hemb. unfold rerun. rewrite app_script_key_present by exact Hkey.
  unfold app_body. cbn [est_bind]. rewrite page_header_run. cbn [in_file in_question].
  world_simp. rewrite (process_document_same_name uf _ (Some c)) by (world_simp; done).
  unfold handle_question, qa_chain_run. world_simp. rewrite Hc. world_simp.
  rewrite Hq. world_simp. rewrite Hemb. world_simp.
  destruct (svc_generate _ _); world_simp; by rewrite <- !app_assoc.
Qed.

(** The default collection of a fresh process after one batch of
    entries is that batch. *)
Lemma fresh_collection_add es :
  collection_entries default_collection_name
    (collection_add default_collection_name es (get_or_create_collection default_collection_name ∅)) = es.
Proof.
  rewrite collection_entries_add, collection_entries_get_or_create.
  unfold collection_entries. by rewrite lookup_empty.
Qed.

(** The two pages of an upload then a question in a fresh process. *)
Lemma fresh_upload_pages env dotenv fs free uf q pages vecs qv :
  py_opt_str_truthy (loaded_env (initial_world env dotenv fs free) !! GOOGLE_API_KEY) = true ->
  fs !! tmp_name 0 = None ->
  length (uf_bytes uf) <= free ->
  svc_parse_pdf (uf_bytes uf) = inr pages ->
  upload_chunks (tmp_name 0) pages <> [] ->
  embed_documents embedding_model (map page_content (upload_chunks (tmp_name 0) pages)) = inr vecs ->
  py_str_truthy q = true ->
  svc_embed embedding_model RetrievalQuery q = inr qv ->
  let w1 := rerun (mkInputs (Some uf) "") (initial_world env dotenv fs free) in
  let w2 := rerun (mkInputs (Some uf) q) w1 in
  w_ui w1 = header_elements ++
    [ElSpinner ("Processing " ++ uf_name uf ++ "... This may take a moment.");
     ElSuccess "Document processed! You can now ask questions.";
     ElTextInput "Ask a question about your document:"] /\
  w_ui w2 = header_elements ++
    [ElTextInput "Ask a question about your document:"; ElSpinner "Searching for the answer..."] ++
    answer_elements
      (svc_generate gemini
         (stuff_prompt (map entry_doc (similarity_search qv retriever_k
                                         (zip_with mkEntry (upload_chunks (tmp_name 0) pages) vecs))) q)).
Proof.
  intros Hkey Hfree Hroom Hparse Hne Hemb Hq Hqv w1 w2.
  destruct (rerun_first_upload uf (initial_world env dotenv fs free) pages vecs)
    as (Hui1 & Hs1 & Hc1 & He1 & Hd1); try done; try (by left).
  split; [exact Hui1|]. subst w2 w1.
  rewrite (rerun_question uf q _ (build_qa_chain default_collection_name) qv); [|..|done|exact Hqv].
  - rewrite Hc1. cbn [qa_llm qa_k qa_collection build_qa_chain w_chroma initial_world].
    by rewrite fresh_collection_add.
  - unfold loaded_env. rewrite He1, Hd1. exact (loaded_env_idem _ Hkey).
  - by rewrite Hs1.
  - by rewrite Hs1.
Qed.

Lemma embed_documents_length m ts vs : embed_documents m ts = inr vs -> length vs = length ts.
Proof.
  revert vs. induction ts as [|t ts IH]; intros vs; cbn [embed_documents]; [by intros [= <-]|].
  destruct (svc_embed m RetrievalDocument t); [done|]. destruct (embed_documents m ts) as [|vs'] eqn:E; [done|].
  intros [= <-]. cbn. by rewrite (IH vs').
Qed.

Lemma map_entry_doc_zip docs vecs :
  length docs <= length vecs -> map entry_doc (zip_with mkEntry docs vecs) = docs.
Proof.
  revert vecs. induction docs as [|d docs IH]; intros [|v vecs] Hl; cbn in *; [done|done|lia|].
  f_equal. apply IH. lia.
Qed.

(** C31. End to end (spec sections 1 and 4): in a fresh process whose
    key is set, a user uploads a PDF whose text the parser extracts and
    the embedding API embeds, with an empty question box, then types a
    question [q] about the same file.  The first page shows the spinner,
    the success message and the question box; the second page shows the
    question box, the spinner, and the chat model's answer to a prompt
    made of [q] and of the [k = 4] chunks of that document nearest to
    [q], and of nothing else; an error of the model shows instead as the
    exception. *)
Theorem upload_then_question env dotenv fs free uf q pages vecs qv :
  py_opt_str_truthy (loaded_env (initial_world env dotenv fs free) !! GOOGLE_API_KEY) = true ->
  fs !! tmp_name 0 = None ->
  length (uf_bytes uf) <= free ->
  svc_parse_pdf (uf_bytes uf) = inr pages ->
  upload_chunks (tmp_name 0) pages <> [] ->
  embed_documents embedding_model (map page_content (upload_chunks (tmp_name 0) pages)) = inr vecs ->
  py_str_truthy q = true ->
  svc_embed embedding_model RetrievalQuery q = inr qv ->
  let w1 := rerun (mkInputs (Some uf) "") (initial_world env dotenv fs free) in
  let w2 := rerun (mkInputs (Some uf) q) w1 in
  w_ui w1 = header_elements ++
    [ElSpinner ("Processing " ++ uf_name uf ++ "... This may take a moment.");
     ElSuccess "Document processed! You can now ask questions.";
     ElTextInput "Ask a question about your document:"] /\
  w_ui w2 = header_elements ++
    [ElTextInput "Ask a question about your document:"; ElSpinner "Searching for the answer..."] ++
    answer_elements
      (svc_generate gemini
         (stuff_prompt (map entry_doc (similarity_search qv retriever_k
                                         (zip_with mkEntry (upload_chunks (tmp_name 0) pages) vecs))) q)).
Proof. apply fresh_upload_pages. Qed.

(** C32. A short document is read whole (spec section 4.4 with its
    example): when the uploaded document makes at most [k = 4] chunks,
    the context of the answer to the first question is all of its
    chunks, each once, in the order of their distance to the question,
    and nothing else. *)
Theorem short_document_whole_context env dotenv fs free uf q pages vecs qv :
  py_opt_str_truthy (loaded_env (initial_world env dotenv fs free) !! GOOGLE_API_KEY) = true ->
  fs !! tmp_name 0 = None ->
  length (uf_bytes uf) <= free ->
  svc_parse_pdf (uf_bytes uf) = inr pages ->
  upload_chunks (tmp_name 0) pages <> [] ->
  embed_documents embedding_model (map page_content (upload_chunks (tmp_name 0) pages)) = inr vecs ->
  py_str_truthy q = true ->
  svc_embed embedding_model RetrievalQuery q = inr qv ->
  length (upload_chunks (tmp_name 0) pages) <= retriever_k ->
  exists docs, docs ≡ₚ upload_chunks (tmp_name 0) pages /\
    w_ui (rerun (mkInputs (Some uf) q)
            (rerun (mkInputs (Some uf) "") (initial_world env dotenv fs free))) =
      header_elements ++
      [ElTextInput "Ask a question about your document:"; ElSpinner "Searching for the answer..."] ++
      answer_elements (svc_generate gemini (stuff_prompt docs q)).
Proof.
  intros Hkey Hfree Hroom Hparse Hne Hemb Hq Hqv Hk.
  destruct (fresh_upload_pages env dotenv fs free uf q pages vecs qv) as [_ Hui2]; try done.
  eexists. split; [|exact Hui2].
  pose proof (embed_documents_length _ _ _ Hemb) as Hl. rewrite length_map in Hl.
  rewrite <- (map_entry_doc_zip (upload_chunks (tmp_name 0) pages) vecs) at 2 by lia.
  apply Permutation_map, similarity_search_all. rewrite length_zip_with. lia.
Qed.

(** C36. Recovery (spec section 8, failure scenario: "the system remains
    ready to accept a new upload"): after a failed processing, when the
    session holds [None] for the failed file's name, the pipeline is
    [Idle]; an upload under another name that parses and embeds is then
    processed: the rerun ends [Ready] for it and shows the success
    message.  (An upload under the failed name is not processed again:
    [App.rerun_same_name_skips_processing].) *)
Theorem upload_after_failure_recovers uf w n pages vecs :
  py_opt_str_truthy (loaded_env w !! GOOGLE_API_KEY) = true ->
  ss_qa_chain (w_session w) = Some None -> ss_file_name (w_session w) = Some n ->
  n <> uf_name uf ->
  w_cache w !! cache_key uf = None ->
  w_fs w !! tmp_name (w_tmp_seq w) = None ->
  length (uf_bytes uf) <= w_fs_free w ->
  svc_parse_pdf (uf_bytes uf) = inr pages ->
  upload_chunks (tmp_name (w_tmp_seq w)) pages <> [] ->
  embed_documents embedding_model (map page_content (upload_chunks (tmp_name (w_tmp_seq w)) pages))
    = inr vecs ->
  phase_of (w_session w) = Idle /\
  phase_of (w_session (rerun (mkInputs (Some uf) "") w)) = Ready (uf_name uf) /\
  ElSuccess "Document processed! You can now ask questions." ∈ w_ui (rerun (mkInputs (Some uf) "") w).
Proof.
  intros Hkey Hc Hn Hne Hmiss Hfree Hroom Hparse Hnon Hemb.
  destruct (rerun_first_upload uf w pages vecs) as (Hui & Hs & _); try done; [by right; eauto|].
  split; [unfold phase_of; by rewrite Hc|]. split; [by rewrite Hs|].
  rewrite Hui. apply elem_of_app. right. by right; left.
Qed.

End Scenario.

(** ** Witness: the spec's example, the capital of France. *)

#[local] Existing Instance demo_services.

(** The hypotheses of the scenario hold for the spec's example. *)
Lemma paris_scenario :
  py_opt_str_truthy (loaded_env (initial_world key_env ∅ ∅ 1000) !! GOOGLE_API_KEY) = true /\
  (∅ : gmap string (list Byte.byte)) !! tmp_name 0 = None /\
  length (uf_bytes paris_upload) <= 1000 /\
  svc_parse_pdf (uf_bytes paris_upload) = inr paris_pages /\
  upload_chunks (tmp_name 0) paris_pages <> [] /\
  embed_documents embedding_model (map page_content (upload_chunks (tmp_name 0) paris_pages))
    = inr [[31%Z]] /\
  py_str_truthy france_question = true /\
  svc_embed embedding_model RetrievalQuery france_question = inr [30%Z] /\
  length (upload_chunks (tmp_name 0) paris_pages) <= retriever_k.
Proof.
  split; [reflexivity|]. split; [reflexivity|]. split; [vm_compute; lia|].
  split; [reflexivity|]. split; [vm_compute; discriminate|]. split; [vm_compute; reflexivity|].
  split; [reflexivity|]. split; [reflexivity|]. vm_compute; lia.
Defined.

Lemma upload_then_question_witness :
  let w1 := rerun (mkInputs (Some paris_upload) "") (initial_world key_env ∅ ∅ 1000) in
  let w2 := rerun (mkInputs (Some paris_upload) france_question) w1 in
  w_ui w1 = header_elements ++
    [ElSpinner ("Processing " ++ uf_name paris_upload ++ "... This may take a moment.");
     ElSuccess "Document processed! You can now ask questions.";
     ElTextInput "Ask a question about your document:"] /\
  w_ui w2 = header_elements ++
    [ElTextInput "Ask a question about your document:"; ElSpinner "Searching for the answer..."] ++
    answer_elements
      (svc_generate gemini
         (stuff_prompt (map entry_doc (similarity_search [30%Z] retriever_k
                          (zip_with mkEntry (upload_chunks (tmp_name 0) paris_pages) [[31%Z]])))
                       france_question)).
Proof.
  destruct paris_scenario as (H1 & H2 & H3 & H4 & H5 & H6 & H7 & H8 & _).
  exact (upload_then_question key_env ∅ ∅ 1000 paris_upload france_question paris_pages [[31%Z]] [30%Z]
           H1 H2 H3 H4 H5 H6 H7 H8).
Defined.

Lemma short_document_whole_context_witness :
  exists docs, docs ≡ₚ upload_chunks (tmp_name 0) paris_pages /\
    w_ui (rerun (mkInputs (Some paris_upload) france_question)
            (rerun (mkInputs (Some paris_upload) "") (initial_world key_env ∅ ∅ 1000))) =
      header_elements ++
      [ElTextInput "Ask a question about your document:"; ElSpinner "Searching for the answer..."] ++
      answer_elements (svc_generate gemini (stuff_prompt docs france_question)).
Proof.
  destruct paris_scenario as (H1 & H2 & H3 & H4 & H5 & H6 & H7 & H8 & H9).
  exact (short_document_whole_context key_env ∅ ∅ 1000 paris_upload france_question paris_pages
           [[31%Z]] [30%Z] H1 H2 H3 H4 H5 H6 H7 H8 H9).
Defined.

Definition after_fake_rerun : World := rerun (mkInputs (Some fake_upload) "") fresh_process.

Lemma upload_after_failure_recovers_witness :
  ss_qa_chain (w_session after_fake_rerun) = Some None /\
  ss_file_name (w_session after_fake_rerun) = Some "fake.pdf" /\
  phase_of (w_session after_fake_rerun) = Idle /\
  phase_of (w_session (rerun (mkInputs (Some paris_upload) "") after_fake_rerun)) = Ready "capital.pdf" /\
  ElSuccess "Document processed! You can now ask questions."
    ∈ w_ui (rerun (mkInputs (Some paris_upload) "") after_fake_rerun).
Proof.
  assert (H1 : ss_qa_chain (w_session after_fake_rerun) = Some None) by (vm_compute; reflexivity).
  assert (H2 : ss_file_name (w_session after_fake_rerun) = Some "fake.pdf") by (vm_compute; reflexivity).
  split; [exact H1|]. split; [exact H2|].
  apply (upload_after_failure_recovers paris_upload after_fake_rerun "fake.pdf" paris_pages [[31%Z]]);
    [vm_compute; reflexivity | exact H1 | exact H2 | vm_compute; discriminate
    | vm_compute; reflexivity | vm_compute; reflexivity | vm_compute; lia | reflexivity
    | vm_compute; discriminate | vm_compute; reflexivity].
Defined.
