(* ===== verification/Failures.v ===== *)
(** * Failures: the orchestrator of spec section 4.6 whatever the services do

    [Orchestrator] refines the reruns whose services succeed.  Here the
    services are arbitrary: the parser may reject a file, the embedding
    API may fail, Chroma may refuse an empty batch, the cache may hold a
    [None] from an earlier failure.  All these failures are caught by the
    [except] of line 56 (or replayed by the cache) and end with [None] in
    the session, which [phase_of] reads as [Idle]: the rerun takes one of
    the spec's edges.  The one failure the [try] does not catch is the
    staging of the upload (lines 28-30, before line 32): when no
    temporary name is free or the disk is full, the exception ends the
    rerun before line 76, and the session keeps the chain of the previous
    document, a state the spec does not allow
    ([Orchestrator.rerun_disk_full_keeps_old_document]).  The recovery
    after a failed processing is in [Scenario]
    ([upload_after_failure_recovers]). *)

From S2P Require Import Prelude Chunker VectorStore Runtime Config Pipeline Cache App Orchestrator.

Local Open Scope py_scope.

(** The upload can be staged: one of the next [TMP_MAX] names is free
    and the disk has room for its bytes (the preconditions of lines
    28-30). *)
Definition staging_ok (uf : UploadedFile) (w : World) : Prop :=
  (exists i, i < TMP_MAX /\ w_fs w !! tmp_name (w_tmp_seq w + i) = None) /\
  length (uf_bytes uf) <= w_fs_free w.

Definition inputs_staged (inp : Inputs) (w : World) : Prop :=
  match in_file inp with
  | Some uf => staging_ok uf w
  | None => True
  end.

(** The environment and the [.env] file. *)
Definition env_is (E D : gmap string string) (w : World) : Prop :=
  w_env w = E /\ w_dotenv w = D.

Section AnyService.
Context `{!Services}.

Lemma get_qa_chain_from_pdf_env uf E D : est_preserves (env_is E D) (get_qa_chain_from_pdf uf).
Proof.
  assert (est_preserves (env_is E D) (named_temporary_file_write (uf_bytes uf))).
  { intros w Hw. destruct (named_temporary_file_write (uf_bytes uf) w) as [r w'] eqn:Ew.
    apply named_temporary_file_write_frame in Ew as (seq & f & n & ->). exact Hw. }
  unfold get_qa_chain_from_pdf, guarded_process_pdf, process_pdf, pypdf_loader_load, report_error,
    remove_temp_file, os_path_exists, os_remove, chroma_from_documents, call_service, st_emit, py_print.
  py_preserves.
Qed.

(** The decorated call returns whenever the upload can be staged, and
    leaves the disk, the environment and the session as they were. *)
Lemma cached_returns uf w :
  staging_ok uf w ->
  exists r w', cached_get_qa_chain_from_pdf uf w = (inr r, w') /\ keeps_disk w w' /\
    w_session w' = w_session w.
Proof.
  intros [Hname Hroom].
  destruct (w_cache w !! cache_key uf) as [[v msgs]|] eqn:Ek.
  - rewrite (cached_get_qa_chain_hit uf w v msgs Ek). eexists _, _. split; [reflexivity|].
    unfold keeps_disk. world_simp. done.
  - destruct (get_qa_chain_from_pdf_total uf (set_ui [] w)) as (r & w1 & Eg); [exact Hname|exact Hroom|].
    pose proof (get_qa_chain_from_pdf_restores_fs _ _ _ _ Eg) as [Hfs Hfree].
    pose proof (get_qa_chain_from_pdf_env uf (w_env w) (w_dotenv w) (set_ui [] w) (conj eq_refl eq_refl))
      as Henv.
    pose proof (get_qa_chain_from_pdf_frame _ _ _ _ Eg) as [[Hs _] _].
    rewrite Eg in Henv. cbn [snd] in Henv. destruct Henv as [He Hd].
    rewrite (cached_get_qa_chain_miss uf w _ _ Ek Eg). eexists _, _. split; [reflexivity|].
    unfold keeps_disk. world_simp. rewrite Hfs, Hfree, He, Hd, Hs. world_simp. done.
Qed.

(** Lines 75-82 end with the pipeline [Ready] for the upload or, on any
    handled failure, [Idle]. *)
Lemma process_upload_step uf w :
  staging_ok uf w ->
  exists w', process_upload uf w = (inr tt, w') /\ keeps_disk w w' /\
    (phase_of (w_session w') = Ready (uf_name uf) \/ phase_of (w_session w') = Idle).
Proof.
  intros Hst. unfold process_upload, store_result. world_simp.
  match goal with |- context [cached_get_qa_chain_from_pdf uf ?W] => set (w1 := W) end.
  destruct (cached_returns uf w1) as (r & w2 & Ec & Hk & _); [exact Hst|].
  rewrite Ec. world_simp.
  destruct r as [c|]; world_simp; (eexists; split; [reflexivity|]);
    unfold keeps_disk, phase_of in *; world_simp; (split; [exact Hk|]); [left|right]; done.
Qed.
(** Lines 73-82 take one of the spec's edges on the upload's name: the
    memoised edge when the pipeline is [Ready] for it, otherwise
    processing ends [Ready] or [Idle].  A name whose processing failed
    before is not processed again and stays [Idle]. *)
Lemma process_document_step uf w :
  session_ok (w_session w) -> staging_ok uf w ->
  exists w', process_document uf w = (inr tt, w') /\ keeps_disk w w' /\
    spec_step (phase_of (w_session w)) (Upload (uf_name uf)) (phase_of (w_session w')).
Proof.
  intros [Hname _] Hst.
  assert (Hproc : phase_of (w_session w) <> Ready (uf_name uf) ->
    exists w', process_upload uf w = (inr tt, w') /\ keeps_disk w w' /\
      spec_step (phase_of (w_session w)) (Upload (uf_name uf)) (phase_of (w_session w'))).
  { intros Hne. destruct (process_upload_step uf w Hst) as (w' & Eu & Hk & [Hp|Hp]);
      exists w'; (split; [exact Eu|]); (split; [exact Hk|]); rewrite Hp; by constructor. }
  unfold process_document, needs_processing. world_simp.
  destruct (ss_qa_chain (w_session w)) as [x|] eqn:Ec; world_simp.
  - destruct (ss_file_name (w_session w)) as [n|] eqn:En;
      [|exfalso; by destruct (Hname ltac:(by eexists))].
    world_simp. destruct (String.eqb_spec n (uf_name uf)) as [<-|Hne]; world_simp.
    + exists w. split; [done|]. split; [by repeat split|]. unfold phase_of. rewrite Ec, En.
      destruct x; constructor. done.
    + apply Hproc. unfold phase_of. rewrite Ec, En. destruct x; congruence.
  - apply Hproc. unfold phase_of. by rewrite Ec.
Qed.

(** Lines 63-95 after the credential check take one of the spec's
    edges and keep the disk and the environment, whatever the question
    handler does (an exception of lines 86-92 included). *)
Lemma app_body_step inp w r w' :
  session_ok (w_session w) -> inputs_staged inp w ->
  app_body inp w = (r, w') ->
  keeps_disk w w' /\ spec_step (phase_of (w_session w)) (event_of inp) (phase_of (w_session w')).
Proof.
  intros Hs Hin. unfold app_body. cbn [est_bind]. rewrite page_header_run.
  unfold inputs_staged in Hin. destruct inp as [[uf|] q]; cbn [in_file in_question event_of] in *.
  - cbn [est_bind].
    match goal with |- context [process_document uf ?W] => set (w1 := W) end.
    destruct (process_document_step uf w1) as (w2 & Ed & Hk & Hp); [exact Hs|exact Hin|].
    rewrite Ed. world_simp.
    pose proof (handle_question_same q w2 w2 ltac:(by repeat split)) as Hh.
    destruct (handle_question q w2) as [r2 w3]. intros [= <- <-]. cbn [snd] in Hh.
    destruct Hh as ((Hfs & Hfree & Hdot & Henv) & Hs3 & _). subst w1.
    unfold keeps_disk in *. world_simp. rewrite Hfs, Hfree, Hdot, Henv, Hs3. exact (conj Hk Hp).
  - world_simp. intros [= <- <-]. unfold keeps_disk. world_simp.
    split; [by repeat split|]. constructor.
Qed.

(** A whole rerun with the key set. *)
Lemma rerun_step inp w :
  py_opt_str_truthy (loaded_env w !! GOOGLE_API_KEY) = true ->
  session_ok (w_session w) -> inputs_staged inp w ->
  spec_step (phase_of (w_session w)) (event_of inp) (phase_of (w_session (rerun inp w))) /\
  w_fs (rerun inp w) = w_fs w /\ w_fs_free (rerun inp w) = w_fs_free w /\
  w_dotenv (rerun inp w) = w_dotenv w /\ w_env (rerun inp w) = loaded_env w.
Proof.
  intros Hkey Hs Hin. unfold rerun. rewrite app_script_key_present by exact Hkey.
  destruct (app_body inp _) as [r w'] eqn:E.
  apply app_body_step in E as [(Hfs & Hfree & Hdot & Henv) Hp]; [|exact Hs|exact Hin].
  world_simp.
  destruct r as [e|u]; [destruct (is_Exception e)|]; world_simp; by repeat split.
Qed.

(** The invariant of reruns whose uploads can be staged: the key, the
    session and cache invariant of [App], a disk without temporary files
    of fixed free space. *)
Definition staged_inv (free : nat) (w : World) : Prop :=
  py_opt_str_truthy (loaded_env w !! GOOGLE_API_KEY) = true /\ app_inv [] w /\
  no_tmp_files w /\ w_fs_free w = free.

Definition fits (free : nat) (inp : Inputs) : Prop :=
  forall uf, in_file inp = Some uf -> length (uf_bytes uf) <= free.

Lemma staged_inv_inputs free inp w : staged_inv free w -> fits free inp -> inputs_staged inp w.
Proof.
  intros (_ & _ & Hfs & Hfree) Hfit. unfold inputs_staged.
  destruct (in_file inp) as [uf|] eqn:Ef; [|done]. split.
  - exists 0. split; [rewrite TMP_MAX_S; lia|apply Hfs].
  - rewrite Hfree. by apply Hfit.
Qed.

Lemma rerun_staged_inv free inp w :
  staged_inv free w -> fits free inp ->
  staged_inv free (rerun inp w) /\
  spec_step (phase_of (w_session w)) (event_of inp) (phase_of (w_session (rerun inp w))).
Proof.
  intros Hinv Hfit. pose proof (staged_inv_inputs free inp w Hinv Hfit) as Hin.
  destruct Hinv as (Hkey & Happ & Hfs & Hfree).
  destruct (rerun_step inp w Hkey (proj1 Happ) Hin) as (Hp & Hfs' & Hfree' & Hdot & Henv).
  split; [|exact Hp]. split; [|split; [|split]].
  - unfold loaded_env. rewrite Henv, Hdot. exact (loaded_env_idem w Hkey).
  - apply rerun_preserves; [done|done|apply process_upload_inv|exact Happ].
  - intros k. rewrite Hfs'. apply Hfs.
  - by rewrite Hfree'.
Qed.

End AnyService.

Section Theorems.
Context `{!Services}.

(** C33. Refinement under any service behaviour (spec sections 4.6 and
    7): with the key set and a session whose chain comes with its name,
    every rerun whose upload can be staged (a temporary name free, room
    on the disk) takes one of the spec's transitions, whatever the parser,
    the embedding API, Chroma and the chat model answer and whatever the
    cache holds; the disk is left as it was. *)
Theorem rerun_refines_orchestrator_any_service inp w :
  py_opt_str_truthy (loaded_env w !! GOOGLE_API_KEY) = true ->
  session_ok (w_session w) -> inputs_staged inp w ->
  spec_step (phase_of (w_session w)) (event_of inp) (phase_of (w_session (rerun inp w))) /\
  w_fs (rerun inp w) = w_fs w /\ w_fs_free (rerun inp w) = w_fs_free w.
Proof.
  intros Hkey Hs Hin. destruct (rerun_step inp w Hkey Hs Hin) as (Hp & Hfs & Hfree & _).
  by repeat split.
Qed.

(** C35. Refinement of runs under any service behaviour: from a fresh
    process whose environment or [.env] sets the key and whose disk has
    no temporary file, every sequence of reruns whose uploads fit on the
    disk is a run of the spec's state machine from [Idle], whatever the
    services answer: each rerun ends [Ready] for the uploaded name or
    [Idle]. *)
Theorem reruns_refine_spec_any_service env dotenv fs free inps :
  py_opt_str_truthy ((env ∪ dotenv) !! GOOGLE_API_KEY) = true ->
  (forall k, fs !! tmp_name k = None) ->
  Forall (fits free) inps ->
  spec_run Idle (map event_of inps)
    (phase_of (w_session (reruns inps (initial_world env dotenv fs free)))).
Proof.
  intros Hkey Hfs Hfit.
  assert (Hinv : staged_inv free (initial_world env dotenv fs free)).
  { split; [exact Hkey|]. split; [apply initial_world_inv|]. by split. }
  change Idle with (phase_of (w_session (initial_world env dotenv fs free))).
  revert Hinv. generalize (initial_world env dotenv fs free) as w.
  induction Hfit as [|inp inps Hinp Hrest IH]; intros w Hinv; [constructor|].
  destruct (rerun_staged_inv free inp w Hinv Hinp) as [Hinv' Hstep].
  cbn [map reruns]. econstructor; [exact Hstep|]. by apply IH.
Qed.

End Theorems.

(** ** Witnesses

    A fresh process given the spec's zero-byte [fake.pdf] (the parser
    fails); a disk of 32 bytes that holds the spec's sentence, then
    another file of 33 bytes; and a session of three reruns. *)

#[local] Existing Instance demo_services.

Lemma fresh_process_session_ok : session_ok (w_session fresh_process).
Proof. split; [by intros []|done]. Qed.

Lemma rerun_refines_orchestrator_any_service_witness :
  inputs_staged (mkInputs (Some fake_upload) france_question) fresh_process /\
  spec_step (phase_of (w_session fresh_process)) (Upload "fake.pdf")
    (phase_of (w_session (rerun (mkInputs (Some fake_upload) france_question) fresh_process))) /\
  w_fs (rerun (mkInputs (Some fake_upload) france_question) fresh_process) = w_fs fresh_process /\
  w_fs_free (rerun (mkInputs (Some fake_upload) france_question) fresh_process) = w_fs_free fresh_process.
Proof.
  assert (Hin : inputs_staged (mkInputs (Some fake_upload) france_question) fresh_process).
  { split; [exists 0; split; [rewrite TMP_MAX_S; lia|reflexivity]|vm_compute; lia]. }
  split; [exact Hin|].
  exact (rerun_refines_orchestrator_any_service _ fresh_process eq_refl fresh_process_session_ok Hin).
Defined.

Definition retry_inputs : list Inputs :=
  [mkInputs (Some fake_upload) ""; mkInputs (Some fake_upload) france_question;
   mkInputs (Some paris_upload) france_question; mkInputs None ""].

Lemma reruns_refine_spec_any_service_witness :
  Forall (fits 1000) retry_inputs /\
  spec_run Idle (map event_of retry_inputs)
    (phase_of (w_session (reruns retry_inputs (initial_world key_env ∅ ∅ 1000)))).
Proof.
  assert (Hfit : Forall (fits 1000) retry_inputs).
  { unfold retry_inputs.
    repeat (constructor; [intros uf Huf; cbn in Huf; try discriminate;
                                injection Huf as <-; vm_compute; lia|]).
    constructor. }
  split; [exact Hfit|].
  exact (reruns_refine_spec_any_service key_env ∅ ∅ 1000 retry_inputs eq_refl
           (fun k => lookup_empty _) Hfit).
Defined.

